(** * Block-header consensus rules and the RLPx server of the client

    A shallow embedding of [BlockHeader] (block package) and of the
    event handlers of [RlpxServer] (client package), with the properties
    of difficulty, gas limit, clique extra data, DAO extra data, hashing,
    serialization and peer bookkeeping proved over it.

    Big numbers ([BN]) are integers of [Z]; a [Buffer] is a list of bytes;
    a thrown [Error] is the [Throw] case of [result]. *)

From Stdlib Require Import ZArith List String Ascii Bool Lia Eqdep_dec.
From Stdlib.Strings Require Byte.
From stdpp Require Import base option gmap strings.
Import Corelib.Init.Byte(byte(..)).
Import ListNotations.

Local Open Scope Z_scope.

(** ** Errors and the exception monad *)

(** One constructor per [throw] site of the sources, with the message it
    carries; the last five are raised by the libraries the code calls. *)
Inductive Error : Type :=
  | InvalidSerializedHeader
      (* 'Invalid serialized header input. Must be array' *)
  | MoreValuesThanExpected
      (* 'invalid header. More values than expected were received' *)
  | InvalidGenesisOption
      (* 'Genesis parameters can only be set with a Common instance set to chainstart' *)
  | InvalidFieldWidth (field : string) (expected received : nat)
      (* `${field} must be ${expected} bytes, received ${received} bytes` *)
  | UnsupportedConsensus
      (* 'difficulty calculation is only supported on PoW chains' *)
  | UnsupportedAlgorithm
      (* 'difficulty calculation currently only supports the ethash algorithm' *)
  | UnsupportedDifficultyValidation
      (* 'difficulty validation is currently only supported on PoW chains' *)
  | InvalidExtraData
      (* 'invalid amount of extra data' *)
  | InvalidCliqueExtraData (expected received : nat)
      (* `extraData must be ${minLength} bytes on non-epoch transition blocks, ...` *)
  | InvalidCliqueSignerList (signerLength : Z)
      (* `invalid signer list length in extraData, received signer length of ...` *)
  | InvalidCliqueCoinbase
      (* `coinbase must be filled with zeros on epoch transition blocks, ...` *)
  | InvalidCliqueMixHash
      (* `mixHash must be filled with zeros, received ...` *)
  | MissingParent
      (* 'could not find parent header' *)
  | InvalidNumber
      (* 'invalid number' *)
  | InvalidTimestamp
      (* 'invalid timestamp' *)
  | InvalidCliquePeriod
      (* 'invalid timestamp diff (lower than period)' *)
  | InvalidDifficulty
      (* 'invalid difficulty' *)
  | InvalidGasLimit
      (* 'invalid gas limit' *)
  | InvalidUncleDistance
      (* 'uncle block has a parent that is too old or too young' *)
  | NotClique (name : string)
      (* `BlockHeader.${name}() call only supported for clique PoA networks` *)
  | NotEpochTransition
      (* 'Singers are only included in epoch transition blocks (clique)' *)
  | InvalidDAOExtraData
      (* "extraData should be 'dao-hard-fork'" *)
  | BNAssertion
      (* bn.js: division by zero, toNumber above 53 bits *)
  | InvalidAddressLength
      (* ethereumjs-util Address: 'Invalid address length' *)
  | InvalidRLP
      (* rlp: malformed input *)
  | TypeError
      (* a method called on undefined or null *)
  | BlockchainError.
      (* an error of blockchain.getBlock other than NotFoundError *)

Inductive result (A : Type) : Type :=
  | Ok (a : A)
  | Throw (e : Error).
Arguments Ok {A} a.
Arguments Throw {A} e.

Definition bind {A B : Type} (r : result A) (k : A -> result B) : result B :=
  match r with
  | Ok a => k a
  | Throw e => Throw e
  end.

Declare Scope result_scope.
Delimit Scope result_scope with result.
Notation "x <-! r ;; k" := (bind r (fun x => k))
  (at level 100, r at next level, right associativity) : result_scope.
Notation "r ;;! k" := (bind r (fun _ => k))
  (at level 100, right associativity) : result_scope.
Local Open Scope result_scope.

(** [if (cond) throw new Error(...)] *)
Definition throwIf (cond : bool) (e : Error) : result unit :=
  if cond then Throw e else Ok tt.

(** ** Buffers

    The operations of Node's [Buffer] that the sources use. *)

Definition Buffer : Type := list byte.

(** [zeros(n)], [Buffer.alloc(n)] *)
Definition zeros (n : nat) : Buffer := repeat x00 n.

(** [a.equals(b)] *)
Fixpoint Buffer_equals (a b : Buffer) : bool :=
  match a, b with
  | [], [] => true
  | x :: a', y :: b' => Byte.eqb x y && Buffer_equals a' b'
  | _, _ => false
  end.

(** [buf.slice(start, end)]: a negative index counts from the end, and
    both indices are clamped to the buffer. *)
Definition slice_index (len i : Z) : Z :=
  if i <? 0 then Z.max 0 (len + i) else Z.min i len.

Definition Buffer_slice (b : Buffer) (start stop : Z) : Buffer :=
  let len := Z.of_nat (List.length b) in
  let s := slice_index len start in
  let e := slice_index len stop in
  firstn (Z.to_nat (e - s)) (skipn (Z.to_nat s) b).

(** [Buffer.from(hex, 'hex')] *)
Definition hex_digit (c : ascii) : option N :=
  let n := N_of_ascii c in
  (if (48 <=? n) && (n <=? 57) then Some (n - 48)
   else if (97 <=? n) && (n <=? 102) then Some (n - 87)
   else if (65 <=? n) && (n <=? 70) then Some (n - 55)
   else None)%N.

Fixpoint Buffer_from_hex (s : string) : Buffer :=
  match s with
  | String hi (String lo rest) =>
      match hex_digit hi, hex_digit lo with
      | Some h, Some l =>
          match Byte.of_N (16 * h + l) with
          | Some b => b :: Buffer_from_hex rest
          | None => []
          end
      | _, _ => []
      end
  | _ => []
  end.

(** [Buffer.from(s)] on an ASCII string: the bytes of its characters *)
Definition Buffer_from_ascii (s : string) : Buffer := list_byte_of_string s.

(** ** Big numbers

    [BN] of bn.js, a package outside these sources, by its documented
    behaviour: a [BN] is an integer; [add], [sub], [mul], [pow] and the
    comparisons ([lt], [gt], [gte], [lte], [eq], [isZero], [isNeg]) are
    those of integers, also where the code hands a chain parameter to
    them as a JavaScript number; [div], [divn] and [mod] truncate towards
    zero and assert a non-zero divisor; [toNumber] asserts at most 53
    bits. *)

Definition BN_div (a b : Z) : result Z :=
  if b =? 0 then Throw BNAssertion else Ok (Z.quot a b).

Definition BN_mod (a b : Z) : result Z :=
  if b =? 0 then Throw BNAssertion else Ok (Z.rem a b).

Definition BN_toNumber (a : Z) : result Z :=
  if Z.abs a <? 2 ^ 53 then Ok a else Throw BNAssertion.

(** Big-endian digits of a positive number in base 256. *)
Fixpoint be_bytes_pos (fuel : nat) (n : Z) (acc : Buffer) : Buffer :=
  match fuel with
  | O => acc
  | S fuel' =>
      if n <=? 0 then acc
      else
        match Byte.of_N (Z.to_N (n mod 256)) with
        | Some b => be_bytes_pos fuel' (n / 256) (b :: acc)
        | None => acc
        end
  end.

(** [toBuffer(bn)] of ethereumjs-util, that is [bn.toArrayLike(Buffer)]:
    the magnitude, big endian, on at least one byte. *)
Definition BN_toBuffer (a : Z) : Buffer :=
  let m := Z.abs a in
  if m =? 0 then [x00]
  else be_bytes_pos (S (Z.to_nat (Z.log2 m))) m [].

(** [new BN(buffer)]: big-endian, the empty buffer is zero. *)
Definition BN_fromBuffer (b : Buffer) : Z :=
  fold_left (fun acc x => acc * 256 + Z.of_N (Byte.to_N x)) b 0.

(** [unpadBuffer(b)] of ethereumjs-util: the leading zero bytes are
    stripped. *)
Fixpoint unpadBuffer (b : Buffer) : Buffer :=
  match b with
  | x :: b' => if Byte.eqb x x00 then unpadBuffer b' else b
  | [] => []
  end.

(** ** Constants of ethereumjs-util *)

(** Modelled from the spec: [KECCAK256_RLP_ARRAY] and [KECCAK256_RLP] are
    the well-known 32-byte constants of the utility package, which is not
    part of these sources (spec, section 9). *)
Definition KECCAK256_RLP_ARRAY : Buffer :=
  Buffer_from_hex "1dcc4de8dec75d7aab85b567b6ccd41ad312451b948a7413f0a142fd40d49347".

Definition KECCAK256_RLP : Buffer :=
  Buffer_from_hex "56e81f171bcc55a6ff8345e692c0f86e5b48e01b996cadc001622fb5e363b421".

Definition DEFAULT_GAS_LIMIT : Z := BN_fromBuffer (Buffer_from_hex "ffffffffffffff").

Definition CLIQUE_EXTRA_VANITY : Z := 32.
Definition CLIQUE_EXTRA_SEAL : Z := 65.

(** [Address]: a buffer of exactly 20 bytes; the constructor asserts the
    length. *)
Record Address : Type := mkAddress {
  buf : Buffer;
  buf_length : List.length buf = 20%nat
}.

Definition Address_new (b : Buffer) : result Address :=
  match Nat.eq_dec (List.length b) 20%nat with
  | left pf => Ok (mkAddress b pf)
  | right _ => Throw InvalidAddressLength
  end.

Definition Address_isZero (a : Address) : bool :=
  Buffer_equals (buf a) (zeros 20).

(** ** Chain parameters

    [Common] of the common package, as the interface the header uses: the
    current hardfork, the consensus of the chain, the parameter tables and
    the hardfork schedule. The constants read through [paramByHardfork]
    and [consensusConfig] are JavaScript numbers that bn.js accepts as
    operands. [genesis] holds the genesis values after [toBuffer]. *)

Record GenesisData : Type := {
  genesis_gasLimit : Buffer;
  genesis_timestamp : Buffer;
  genesis_difficulty : Buffer;
  genesis_extraData : Buffer;
  genesis_nonce : Buffer;
  genesis_stateRoot : Buffer
}.

Record ConsensusConfig : Type := {
  period : Z;
  epoch : Z
}.

Record Common : Type := {
  hardfork : string;                                 (* hardfork() *)
  consensusType : string;                            (* consensusType() *)
  consensusAlgorithm : string;                       (* consensusAlgorithm() *)
  consensusConfig : ConsensusConfig;                 (* consensusConfig() *)
  paramByHardfork : string -> string -> string -> Z; (* paramByHardfork(topic, name, hardfork) *)
  hardforkGteHardfork : string -> string -> bool;    (* hardforkGteHardfork(a, b) *)
  activeHardfork : Z -> string;                      (* activeHardfork(blockNumber) *)
  hardforkForBlockNumber : Z -> string;              (* the choice of setHardforkByBlockNumber *)
  hardforkIsActiveOnChain : string -> bool;          (* hardforkIsActiveOnChain(name) *)
  hardforkBlock : string -> Z;                       (* hardforkBlock(name) *)
  genesis : GenesisData                              (* genesis() *)
}.

(** [common.setHardforkByBlockNumber(n)]: the hardfork of the schedule at
    block [n] becomes the current one. *)
Definition setHardforkByBlockNumber (c : Common) (n : Z) : Common :=
  {| hardfork := hardforkForBlockNumber c n;
     consensusType := consensusType c;
     consensusAlgorithm := consensusAlgorithm c;
     consensusConfig := consensusConfig c;
     paramByHardfork := paramByHardfork c;
     hardforkGteHardfork := hardforkGteHardfork c;
     activeHardfork := activeHardfork c;
     hardforkForBlockNumber := hardforkForBlockNumber c;
     hardforkIsActiveOnChain := hardforkIsActiveOnChain c;
     hardforkBlock := hardforkBlock c;
     genesis := genesis c |}.

(** ** The block header *)

Record BlockHeader : Type := mkBlockHeader {
  parentHash : Buffer;
  uncleHash : Buffer;
  coinbase : Address;
  stateRoot : Buffer;
  transactionsTrie : Buffer;
  receiptTrie : Buffer;
  bloom : Buffer;
  difficulty : Z;
  number : Z;
  gasLimit : Z;
  gasUsed : Z;
  timestamp : Z;
  extraData : Buffer;
  mixHash : Buffer;
  nonce : Buffer;
  _common : Common
}.

Definition set_difficulty (d : Z) (h : BlockHeader) : BlockHeader :=
  mkBlockHeader (parentHash h) (uncleHash h) (coinbase h) (stateRoot h)
    (transactionsTrie h) (receiptTrie h) (bloom h) d (number h) (gasLimit h)
    (gasUsed h) (timestamp h) (extraData h) (mixHash h) (nonce h) (_common h).

Definition Buffer_length (b : Buffer) : Z := Z.of_nat (List.length b).

(** [_getHardfork]: [hardfork() || activeHardfork(number.toNumber())]; the
    empty string is the falsy hardfork name. *)
Definition _getHardfork (this : BlockHeader) : result string :=
  if String.eqb (hardfork (_common this)) "" then
    n <-! BN_toNumber (number this) ;;
    Ok (activeHardfork (_common this) n)
  else Ok (hardfork (_common this)).

(** [isGenesis] *)
Definition isGenesis (this : BlockHeader) : bool := number this =? 0.

(** [_validateHeaderFields] *)
Definition _validateHeaderFields (this : BlockHeader) : result unit :=
  let check (field : string) (b : Buffer) (n : nat) :=
    throwIf (negb (Nat.eqb (List.length b) n))
            (InvalidFieldWidth field n (List.length b)) in
  check "parentHash" (parentHash this) 32%nat ;;!
  check "stateRoot" (stateRoot this) 32%nat ;;!
  check "transactionsTrie" (transactionsTrie this) 32%nat ;;!
  check "receiptTrie" (receiptTrie this) 32%nat ;;!
  check "mixHash" (mixHash this) 32%nat ;;!
  check "nonce" (nonce this) 8%nat.

(** [canonicalDifficulty]. [dif] is declared without a value ([let dif!:
    BN]) and assigned in the hardfork branches, hence an option here; the
    bomb delay branches update [num]. *)
Definition canonicalDifficulty (this parentBlockHeader : BlockHeader) : result Z :=
  let c := _common this in
  throwIf (negb (String.eqb (consensusType c) "pow")) UnsupportedConsensus ;;!
  throwIf (negb (String.eqb (consensusAlgorithm c) "ethash")) UnsupportedAlgorithm ;;!
  hardfork <-! _getHardfork this ;;
  let blockTs := timestamp this in
  let parentTs := timestamp parentBlockHeader in
  let parentDif := difficulty parentBlockHeader in
  let minimumDifficulty := paramByHardfork c "pow" "minimumDifficulty" hardfork in
  offset <-! BN_div parentDif (paramByHardfork c "pow" "difficultyBoundDivisor" hardfork) ;;
  let num := number this in
  let dif : option Z :=
    if hardforkGteHardfork c hardfork "byzantium" then
      let uncleAddend :=
        if Buffer_equals (uncleHash parentBlockHeader) KECCAK256_RLP_ARRAY
        then 1 else 2 in
      let a := - Z.quot (blockTs - parentTs) 9 + uncleAddend in
      let cutoff := -99 in
      let a := if cutoff >? a then cutoff else a in
      Some (parentDif + offset * a)
    else None in
  let bombDelay (delay : Z) : Z :=
    let num := num - delay in
    if num <? 0 then 0 else num in
  let '(num, dif) :=
    if hardforkGteHardfork c hardfork "muirGlacier" then
      (bombDelay 9000000, dif)
    else if hardforkGteHardfork c hardfork "constantinople" then
      (bombDelay 5000000, dif)
    else if hardforkGteHardfork c hardfork "byzantium" then
      (bombDelay 3000000, dif)
    else if hardforkGteHardfork c hardfork "homestead" then
      let a := - Z.quot (blockTs - parentTs) 10 + 1 in
      let cutoff := -99 in
      let a := if cutoff >? a then cutoff else a in
      (num, Some (parentDif + offset * a))
    else if parentTs + paramByHardfork c "pow" "durationLimit" hardfork >? blockTs then
      (num, Some (offset + parentDif))
    else
      (num, Some (parentDif - offset)) in
  let exp := Z.quot num 100000 - 2 in
  match dif with
  | None => Throw TypeError
  | Some dif =>
      let dif := if negb (exp <? 0) then dif + 2 ^ exp else dif in
      Ok (if dif <? minimumDifficulty then minimumDifficulty else dif)
  end.

(** [validateDifficulty] *)
Definition validateDifficulty (this parentBlockHeader : BlockHeader) : result bool :=
  throwIf (negb (String.eqb (consensusType (_common this)) "pow"))
          UnsupportedDifficultyValidation ;;!
  d <-! canonicalDifficulty this parentBlockHeader ;;
  Ok (d =? difficulty this).

(** [validateGasLimit]; the comparisons are those of bn.js on integers. *)
Definition validateGasLimit (this parentBlockHeader : BlockHeader) : result bool :=
  let c := _common this in
  let parentGasLimit := gasLimit parentBlockHeader in
  let gasLimit := gasLimit this in
  hardfork <-! _getHardfork this ;;
  a <-! BN_div parentGasLimit
          (paramByHardfork c "gasConfig" "gasLimitBoundDivisor" hardfork) ;;
  let maxGasLimit := parentGasLimit + a in
  let minGasLimit := parentGasLimit - a in
  Ok ((gasLimit <? maxGasLimit) &&
      (gasLimit >? minGasLimit) &&
      (gasLimit >=? paramByHardfork c "gasConfig" "minGasLimit" hardfork)).

(** [_requireClique] *)
Definition _requireClique (this : BlockHeader) (name : string) : result unit :=
  throwIf (negb (String.eqb (consensusAlgorithm (_common this)) "clique"))
          (NotClique name).

(** [cliqueIsEpochTransition] *)
Definition cliqueIsEpochTransition (this : BlockHeader) : result bool :=
  _requireClique this "cliqueIsEpochTransition" ;;!
  let epoch := epoch (consensusConfig (_common this)) in
  r <-! BN_mod (number this) epoch ;;
  Ok (r =? 0).

(** The blockchain, through [getBlock(hash)]: a block, a rejection with
    [NotFoundError], or any other rejection. *)
Inductive BlockLookup : Type :=
  | Found (header : BlockHeader)
  | NotFoundError
  | OtherError.

Definition Blockchain : Type := Buffer -> BlockLookup.

(** [_getHeaderByHash] *)
Definition _getHeaderByHash (blockchain : Blockchain) (hash : Buffer)
  : result (option BlockHeader) :=
  match blockchain hash with
  | Found header => Ok (Some header)
  | NotFoundError => Ok None
  | OtherError => Throw BlockchainError
  end.

(** The first block of [validate]: the bound on [extraData], and on clique
    chains its length, the coinbase and the [mixHash]. *)
Definition validate_extraData (this : BlockHeader) (hardfork : string) : result unit :=
  let c := _common this in
  if negb (String.eqb (consensusAlgorithm c) "clique") then
    throwIf (Buffer_length (extraData this)
               >? paramByHardfork c "vm" "maxExtraDataSize" hardfork)
            InvalidExtraData
  else
    let minLength := CLIQUE_EXTRA_VANITY + CLIQUE_EXTRA_SEAL in
    epochTransition <-! cliqueIsEpochTransition this ;;
    (if negb epochTransition then
       throwIf (negb (Buffer_length (extraData this) =? minLength))
               (InvalidCliqueExtraData (Z.to_nat minLength)
                                       (List.length (extraData this)))
     else
       let signerLength := Buffer_length (extraData this) - minLength in
       throwIf (negb (Z.rem signerLength 20 =? 0))
               (InvalidCliqueSignerList signerLength) ;;!
       throwIf (negb (Address_isZero (coinbase this))) InvalidCliqueCoinbase) ;;!
    throwIf (negb (Buffer_equals (mixHash this) (zeros 32))) InvalidCliqueMixHash.

(** [validate(blockchain, height?)] *)
Definition validate (this : BlockHeader) (blockchain : Blockchain)
    (height : option Z) : result unit :=
  let c := _common this in
  if isGenesis this then Ok tt else
  hardfork <-! _getHardfork this ;;
  validate_extraData this hardfork ;;!
  parentHeader <-! _getHeaderByHash blockchain (parentHash this) ;;
  match parentHeader with
  | None => Throw MissingParent
  | Some parentHeader =>
      throwIf (negb (number this =? number parentHeader + 1)) InvalidNumber ;;!
      throwIf (timestamp this <=? timestamp parentHeader) InvalidTimestamp ;;!
      (if String.eqb (consensusAlgorithm c) "clique" then
         let period := period (consensusConfig c) in
         throwIf (timestamp parentHeader + period >? timestamp this)
                 InvalidCliquePeriod
       else Ok tt) ;;!
      (if String.eqb (consensusType c) "pow" then
         ok <-! validateDifficulty this parentHeader ;;
         throwIf (negb ok) InvalidDifficulty
       else Ok tt) ;;!
      ok <-! validateGasLimit this parentHeader ;;
      throwIf (negb ok) InvalidGasLimit ;;!
      match height with
      | Some height =>
          let dif := height - number parentHeader in
          throwIf (negb ((dif <? 8) && (dif >? 1))) InvalidUncleDistance
      | None => Ok tt
      end
  end.

(** [_checkDAOExtraData] *)
Definition DAO_ExtraData : Buffer := Buffer_from_hex "64616f2d686172642d666f726b".
Definition DAO_ForceExtraDataRange : Z := 9.

Definition _checkDAOExtraData (this : BlockHeader) : result unit :=
  if hardforkIsActiveOnChain (_common this) "dao" then
    let blockNumber := number this in
    let DAOActivationBlock := hardforkBlock (_common this) "dao" in
    if blockNumber >=? DAOActivationBlock then
      let drift := blockNumber - DAOActivationBlock in
      if drift <=? DAO_ForceExtraDataRange then
        throwIf (negb (Buffer_equals (extraData this) DAO_ExtraData))
                InvalidDAOExtraData
      else Ok tt
    else Ok tt
  else Ok tt.

(** ** Construction *)

(** [BlockOptions], by the fields the constructor reads. *)
Record BlockOptions : Type := {
  common : option Common;
  hardforkByBlockNumber : bool;
  initWithGenesisHeader : bool;
  calcDifficultyFromHeader : option BlockHeader;
  freeze : option bool
}.

Section Construction.

(** [new Common({ chain: 'mainnet', hardfork })], the default when the
    options carry no [common]; the chain tables are those of the common
    package. *)
Variable Common_mainnet : option string -> Common.

(** The first half of the constructor: the [Common] instance is chosen,
    the genesis values are filled in, and the fields are assigned. *)
Definition BlockHeader_assign
    (parentHash uncleHash : Buffer) (coinbase : Address)
    (stateRoot transactionsTrie receiptTrie bloom : Buffer)
    (difficulty number gasLimit gasUsed timestamp : Z)
    (extraData mixHash nonce : Buffer) (options : BlockOptions)
  : result BlockHeader :=
  let _common :=
    match common options with
    | Some c => c
    | None =>
        if initWithGenesisHeader options
        then Common_mainnet (Some "chainstart"%string)
        else Common_mainnet None
    end in
  _common <-!
    (if hardforkByBlockNumber options then
       n <-! BN_toNumber number ;;
       Ok (setHardforkByBlockNumber _common n)
     else Ok _common) ;;
  if initWithGenesisHeader options then
    throwIf (negb (String.eqb (hardfork _common) "chainstart")) InvalidGenesisOption ;;!
    let g := genesis _common in
    let number := 0 in
    let gasLimit :=
      if gasLimit =? DEFAULT_GAS_LIMIT
      then BN_fromBuffer (genesis_gasLimit g) else gasLimit in
    let timestamp :=
      if timestamp =? 0 then BN_fromBuffer (genesis_timestamp g) else timestamp in
    let difficulty :=
      if difficulty =? 0 then BN_fromBuffer (genesis_difficulty g) else difficulty in
    let extraData :=
      if Buffer_length extraData =? 0 then genesis_extraData g else extraData in
    let nonce :=
      if Buffer_equals nonce (zeros 8) then genesis_nonce g else nonce in
    let stateRoot :=
      if Buffer_equals stateRoot (zeros 32) then genesis_stateRoot g else stateRoot in
    Ok (mkBlockHeader parentHash uncleHash coinbase stateRoot transactionsTrie
          receiptTrie bloom difficulty number gasLimit gasUsed timestamp
          extraData mixHash nonce _common)
  else
    Ok (mkBlockHeader parentHash uncleHash coinbase stateRoot transactionsTrie
          receiptTrie bloom difficulty number gasLimit gasUsed timestamp
          extraData mixHash nonce _common).

(** [new BlockHeader(...)]: assignment, then [_validateHeaderFields],
    [_checkDAOExtraData] and the optional difficulty calculation.
    [Object.freeze] changes no value. *)
Definition BlockHeader_new
    (parentHash uncleHash : Buffer) (coinbase : Address)
    (stateRoot transactionsTrie receiptTrie bloom : Buffer)
    (difficulty number gasLimit gasUsed timestamp : Z)
    (extraData mixHash nonce : Buffer) (options : BlockOptions)
  : result BlockHeader :=
  this <-! BlockHeader_assign parentHash uncleHash coinbase stateRoot
             transactionsTrie receiptTrie bloom difficulty number gasLimit
             gasUsed timestamp extraData mixHash nonce options ;;
  _validateHeaderFields this ;;!
  _checkDAOExtraData this ;;!
  match calcDifficultyFromHeader options with
  | Some parentBlockHeader =>
      d <-! canonicalDifficulty this parentBlockHeader ;;
      Ok (set_difficulty d this)
  | None => Ok this
  end.

(** [fromValuesArray]: a missing value is [undefined], which [toBuffer]
    turns into the empty buffer. *)
Definition fromValuesArray (values : list Buffer) (opts : BlockOptions)
  : result BlockHeader :=
  throwIf (Nat.ltb 15 (List.length values)) MoreValuesThanExpected ;;!
  let value (i : nat) : Buffer := nth i values [] in
  coinbase <-! Address_new (value 2%nat) ;;
  BlockHeader_new (value 0%nat) (value 1%nat) coinbase (value 3%nat)
    (value 4%nat) (value 5%nat) (value 6%nat)
    (BN_fromBuffer (value 7%nat)) (BN_fromBuffer (value 8%nat))
    (BN_fromBuffer (value 9%nat)) (BN_fromBuffer (value 10%nat))
    (BN_fromBuffer (value 11%nat))
    (value 12%nat) (value 13%nat) (value 14%nat) opts.

End Construction.

(** [raw]: [toBuffer] of a big number is its magnitude. *)
Definition raw (this : BlockHeader) : list Buffer :=
  [ parentHash this;
    uncleHash this;
    buf (coinbase this);
    stateRoot this;
    transactionsTrie this;
    receiptTrie this;
    bloom this;
    unpadBuffer (BN_toBuffer (difficulty this));
    unpadBuffer (BN_toBuffer (number this));
    unpadBuffer (BN_toBuffer (gasLimit this));
    unpadBuffer (BN_toBuffer (gasUsed this));
    unpadBuffer (BN_toBuffer (timestamp this));
    extraData this;
    mixHash this;
    nonce this ].

(** ** The RLP codec *)

Module rlp.

(** Modelled from the spec: the RLP codec is an external collaborator
    (spec, section 2), "canonical recursive-length-prefix encode/decode of
    nested byte sequences"; the layout below is the one of the [rlp]
    package that [ethereumjs-util] re-exports. *)
#[warnings="-register-all"]
Inductive item : Type :=
  | Bytes (b : Buffer)
  | Items (l : list item).

Definition byte_of_Z (n : Z) : byte :=
  match Byte.of_N (Z.to_N n) with
  | Some b => b
  | None => x00
  end.

Definition byte_to_Z (b : byte) : Z := Z.of_N (Byte.to_N b).

(** [encodeLength(len, offset)]; [intToHex(len)] is the minimal
    big-endian form of [len]. The prefix fits one byte for lengths below
    2^64, far above the longest [Buffer]. *)
Definition encodeLength (len offset : Z) : Buffer :=
  if len <? 56 then [byte_of_Z (len + offset)]
  else
    let hexLength := BN_toBuffer len in
    let lLength := Buffer_length hexLength in
    byte_of_Z (offset + 55 + lLength) :: hexLength.

(** Modelled from the spec: [rlp.encode(input)], of the external codec. *)
Fixpoint encode (input : item) : Buffer :=
  match input with
  | Items l =>
      let buf := concat (map encode l) in
      encodeLength (Buffer_length buf) 192 ++ buf
  | Bytes inputBuf =>
      match inputBuf with
      | [x] =>
          if byte_to_Z x <? 128 then inputBuf
          else encodeLength 1 128 ++ inputBuf
      | _ => encodeLength (Buffer_length inputBuf) 128 ++ inputBuf
      end
  end.

(** [safeParseInt(hex, 16)]: a length with a leading zero byte is
    refused. *)
Definition safeParseInt (b : Buffer) : result Z :=
  match b with
  | x00 :: _ => Throw InvalidRLP
  | _ => Ok (BN_fromBuffer b)
  end.

Definition slice_from (b : Buffer) (start : Z) : Buffer :=
  Buffer_slice b start (Buffer_length b).

(** The loop [while (innerRemainder.length)] of [_decode] over the items
    of a list, for the decoder [decode1] of one item; [n] bounds the number
    of items. *)
Fixpoint decode_items (decode1 : Buffer -> result (item * Buffer)) (n : nat)
    (innerRemainder : Buffer) : result (list item) :=
  match innerRemainder with
  | [] => Ok []
  | _ :: _ =>
      match n with
      | O => Throw InvalidRLP
      | S n' =>
          d <-! decode1 innerRemainder ;;
          ds <-! decode_items decode1 n' (snd d) ;;
          Ok (fst d :: ds)
      end
  end.

(** Modelled from the spec: [_decode(input)] of the external codec, the
    first item of [input] and the remainder. The fuel bounds the nesting
    depth; the input length plus one is enough, as every nested call is on
    a shorter buffer. The refusals of malformed input vary between the
    versions of the package and do not concern the output of [encode]. *)
Fixpoint _decode (fuel : nat) (input : Buffer) : result (item * Buffer) :=
  match fuel with
  | O => Throw InvalidRLP
  | S fuel' =>
      match input with
      | [] => Throw InvalidRLP
      | first :: _ =>
          let firstByte := byte_to_Z first in
          if firstByte <=? 127 then
            Ok (Bytes (Buffer_slice input 0 1), slice_from input 1)
          else if firstByte <=? 183 then
            let length := firstByte - 127 in
            let data :=
              if firstByte =? 128 then [] else Buffer_slice input 1 length in
            throwIf ((length =? 2) &&
                     match data with
                     | d0 :: _ => byte_to_Z d0 <? 128
                     | [] => false
                     end) InvalidRLP ;;!
            Ok (Bytes data, slice_from input length)
          else if firstByte <=? 191 then
            let llength := firstByte - 182 in
            length <-! safeParseInt (Buffer_slice input 1 llength) ;;
            let data := Buffer_slice input llength (length + llength) in
            throwIf (Buffer_length data <? length) InvalidRLP ;;!
            Ok (Bytes data, slice_from input (length + llength))
          else if firstByte <=? 247 then
            let length := firstByte - 191 in
            let innerRemainder := Buffer_slice input 1 length in
            decoded <-! decode_items (_decode fuel') (List.length innerRemainder)
                          innerRemainder ;;
            Ok (Items decoded, slice_from input length)
          else
            let llength := firstByte - 246 in
            length <-! safeParseInt (Buffer_slice input 1 llength) ;;
            let totalLength := llength + length in
            throwIf (totalLength >? Buffer_length input) InvalidRLP ;;!
            let innerRemainder := Buffer_slice input llength totalLength in
            throwIf (Buffer_length innerRemainder =? 0) InvalidRLP ;;!
            decoded <-! decode_items (_decode fuel') (List.length innerRemainder)
                          innerRemainder ;;
            Ok (Items decoded, slice_from input totalLength)
      end
  end.

(** Modelled from the spec: [rlp.decode(input)]; the empty input decodes
    to the empty buffer, and a remainder after the first item is refused. *)
Definition decode (input : Buffer) : result item :=
  match input with
  | [] => Ok (Bytes [])
  | _ :: _ =>
      decoded <-! _decode (S (List.length input)) input ;;
      throwIf (negb (Buffer_length (snd decoded) =? 0)) InvalidRLP ;;!
      Ok (fst decoded)
  end.

End rlp.

(** [serialize] *)
Definition serialize (this : BlockHeader) : Buffer :=
  rlp.encode (rlp.Items (map rlp.Bytes (raw this))).

(** The values of a decoded header are buffers ([BlockHeaderBuffer]); a
    nested list among them is outside that type and is refused here with
    [TypeError]. *)
Fixpoint asBlockHeaderBuffer (values : list rlp.item) : result (list Buffer) :=
  match values with
  | [] => Ok []
  | rlp.Bytes b :: values' =>
      bs <-! asBlockHeaderBuffer values' ;;
      Ok (b :: bs)
  | rlp.Items _ :: _ => Throw TypeError
  end.

Section Decoding.

Variable Common_mainnet : option string -> Common.

(** [fromRLPSerializedHeader] *)
Definition fromRLPSerializedHeader (serialized : Buffer) (opts : BlockOptions)
  : result BlockHeader :=
  values <-! rlp.decode serialized ;;
  match values with
  | rlp.Bytes _ => Throw InvalidSerializedHeader
  | rlp.Items l =>
      values <-! asBlockHeaderBuffer l ;;
      fromValuesArray Common_mainnet values opts
  end.

End Decoding.

Section Hashing.

(** [keccak256] of the utility package. *)
Variable keccak256 : Buffer -> Buffer.

(** [rlphash(a)] *)
Definition rlphash (a : list Buffer) : Buffer :=
  keccak256 (rlp.encode (rlp.Items (map rlp.Bytes a))).

(** [hash] *)
Definition hash (this : BlockHeader) : Buffer :=
  let raw := raw this in
  let raw :=
    if String.eqb (consensusAlgorithm (_common this)) "clique"
       && negb (isGenesis this)
    then <[12%nat := Buffer_slice (extraData this) 0
                       (Buffer_length (extraData this) - CLIQUE_EXTRA_SEAL)]> raw
    else raw in
  rlphash raw.

End Hashing.

(** ** The RLPx server *)

Module RlpxServer.

(** [Error] objects of JavaScript, by their message. *)
Record JsError : Type := { message : string }.

(** [RlpxPeer], by the options it is created with in [peer:added]. *)
Record RlpxPeer : Type := {
  id : string;
  host : string;
  port : Z;
  inbound : bool
}.

(** A session of the devp2p library ([Devp2pRLPxPeer]): [getId()], the
    remote address and port of its socket, and whether the socket
    belongs to a listening server. *)
Record Devp2pRLPxPeer : Type := {
  getId : option Buffer;
  remoteAddress : string;
  remotePort : Z;
  socket_server : bool
}.

(** What a handler does to the outside: events emitted on the server or
    on a peer, debug lines of the logger, calls to the devp2p instances. *)
Inductive Value : Type :=
  | VPeer (peer : RlpxPeer)
  | VError (error : JsError)
  | VReason (reason : Z)
  | VListening (transport : string) (url : option string).

Inductive LogLine : Type :=
  | PeerConnected (peer : RlpxPeer)
  | PeerDisconnected (reason : Z) (peer : RlpxPeer).

Inductive Effect : Type :=
  | ServerEmit (event : string) (args : list Value)
  | PeerEmit (peer : RlpxPeer) (event : string) (args : list Value)
  | LoggerDebug (line : LogLine)
  | RlpxDestroy
  | DptDestroy
  | DptBanPeer (peerId : string) (maxAge : Z).

(** The server object: the [started] flag of the base class, the peer
    map, and the devp2p instances ([null] before [initDpt] and
    [initRlpx]). *)
Record Server : Type := mkServer {
  started : bool;
  peers : gmap string RlpxPeer;
  rlpx : option Buffer;
  dpt : option unit
}.

Definition set_started (b : bool) (s : Server) : Server :=
  mkServer b (peers s) (rlpx s) (dpt s).

Definition set_peers (m : gmap string RlpxPeer) (s : Server) : Server :=
  mkServer (started s) m (rlpx s) (dpt s).

(** A method runs on the server object, returns or throws, and leaves
    the object and a trace of effects. *)
Inductive Outcome (A : Type) : Type :=
  | Returned (a : A)
  | Thrown (e : JsError).
Arguments Returned {A} a.
Arguments Thrown {A} e.

Definition M (A : Type) : Type := Server -> Outcome A * Server * list Effect.

Definition ret {A : Type} (a : A) : M A := fun s => (Returned a, s, []).

Definition throw {A : Type} (e : JsError) : M A := fun s => (Thrown e, s, []).

Definition mbind {A B : Type} (m : M A) (k : A -> M B) : M B :=
  fun s =>
    match m s with
    | (Returned a, s1, t1) =>
        match k a s1 with
        | (o, s2, t2) => (o, s2, t1 ++ t2)
        end
    | (Thrown e, s1, t1) => (Thrown e, s1, t1)
    end.

Definition get : M Server := fun s => (Returned s, s, []).
Definition put (s : Server) : M unit := fun _ => (Returned tt, s, []).
Definition effect (e : Effect) : M unit := fun s => (Returned tt, s, [e]).

Declare Scope server_scope.
Delimit Scope server_scope with server.
Notation "x <~ m ;; k" := (mbind m (fun x => k))
  (at level 100, m at next level, right associativity) : server_scope.
Notation "m ;;~ k" := (mbind m (fun _ => k))
  (at level 100, right associativity) : server_scope.
Local Open Scope server_scope.

(** [buffer.toString('hex')] *)
Definition hex_char (n : N) : ascii :=
  ascii_of_N (if (n <? 10)%N then n + 48 else n + 87)%N.

Fixpoint toString_hex (b : Buffer) : string :=
  match b with
  | [] => EmptyString
  | x :: b' =>
      let n := Byte.to_N x in
      String (hex_char (n / 16)) (String (hex_char (n mod 16)) (toString_hex b'))
  end.

(** [s.includes(p)] *)
Fixpoint includes (p s : string) : bool :=
  if String.prefix p s then true
  else
    match s with
    | EmptyString => false
    | String _ s' => includes p s'
    end.

(** The alternatives of [ignoredErrors]; none holds a character that is
    special in a regular expression, so that the expression matches the
    messages that include one of them. *)
Definition ignoredErrors : list string :=
  [ "EPIPE";
    "ECONNRESET";
    "ETIMEDOUT";
    "NetworkId mismatch";
    "Timeout error: ping";
    "Genesis block mismatch";
    "Handshake timed out";
    "Invalid address buffer";
    "Invalid MAC";
    "Invalid timestamp buffer";
    "Hash verification failed" ]%string.

(** [regexp.test(s)] for an alternation of literals *)
Definition RegExp_test (alternatives : list string) (s : string) : bool :=
  existsb (fun p => includes p s) alternatives.

(** [error(error, peer?)] *)
Definition error (error : JsError) (peer : option RlpxPeer) : M unit :=
  if RegExp_test ignoredErrors (message error) then ret tt
  else
    match peer with
    | Some peer => effect (PeerEmit peer "error" [VError error])
    | None => effect (ServerEmit "error" [VError error])
    end.

Section Handlers.

(** [super.stop()] of the base class [Server], and the handshake
    [peer.accept(rlpxPeer, server)] of [RlpxPeer]; neither is part of
    these sources. *)
Variable Server_stop : M bool.
Variable accept : RlpxPeer -> Devp2pRLPxPeer -> M unit.

(** [stop()] *)
Definition stop : M bool :=
  s <~ get ;;
  (if started s then
     match rlpx s with
     | Some _ => effect RlpxDestroy
     | None => throw {| message := "Cannot read property 'destroy' of null" |}
     end ;;~
     match dpt s with
     | Some _ => effect DptDestroy
     | None => throw {| message := "Cannot read property 'destroy' of null" |}
     end ;;~
     _ <~ Server_stop ;;
     s <~ get ;;
     put (set_started false s)
   else ret tt) ;;~
  s <~ get ;;
  ret (started s).

(** [ban(peerId, maxAge = 60000)] *)
Definition ban (peerId : string) (maxAge : option Z) : M bool :=
  s <~ get ;;
  if negb (started s) then ret false
  else
    match dpt s with
    | Some _ =>
        effect (DptBanPeer peerId (default 60000 maxAge)) ;;~ ret true
    | None => throw {| message := "Cannot read property 'banPeer' of null" |}
    end.

(** The handler of [peer:added]; a rejected handshake is routed to
    [error] without a peer. *)
Definition on_peer_added (rlpxPeer : Devp2pRLPxPeer) : M unit :=
  match getId rlpxPeer with
  | None => throw {| message := "Cannot read property 'toString' of null" |}
  | Some peerId =>
      let peer :=
        {| id := toString_hex peerId;
           host := remoteAddress rlpxPeer;
           port := remotePort rlpxPeer;
           inbound := socket_server rlpxPeer |} in
      fun s =>
        match accept peer rlpxPeer s with
        | (Returned _, s1, t1) =>
            (Returned tt,
             set_peers (<[id peer := peer]> (peers s1)) s1,
             t1 ++ [LoggerDebug (PeerConnected peer);
                    ServerEmit "connected" [VPeer peer]])
        | (Thrown e, s1, t1) =>
            match error e None s1 with
            | (o, s2, t2) => (o, s2, t1 ++ t2)
            end
        end
  end.

(** The handler of [peer:removed] *)
Definition on_peer_removed (rlpxPeer : Devp2pRLPxPeer) (reason : Z) : M unit :=
  match getId rlpxPeer with
  | None => throw {| message := "Cannot read property 'toString' of null" |}
  | Some peerId =>
      let id' := toString_hex peerId in
      s <~ get ;;
      match peers s !! id' with
      | Some peer =>
          put (set_peers (delete (id peer) (peers s)) s) ;;~
          effect (LoggerDebug (PeerDisconnected reason peer)) ;;~
          effect (ServerEmit "disconnected" [VPeer peer])
      | None => ret tt
      end
  end.

(** The handler of [peer:error] *)
Definition on_peer_error (rlpxPeer : option Devp2pRLPxPeer) (e : JsError) : M unit :=
  match rlpxPeer with
  | Some rlpxPeer =>
      match getId rlpxPeer with
      | Some peerId =>
          s <~ get ;;
          error e (peers s !! toString_hex peerId)
      | None => error e None
      end
  | None => error e None
  end.

End Handlers.

End RlpxServer.

(** ** A sample chain

    Tables in the manner of the main network, used to run the definitions
    on concrete headers. *)

Module Sample.

Definition hardforks : list string :=
  [ "chainstart"; "homestead"; "dao"; "tangerineWhistle"; "spuriousDragon";
    "byzantium"; "constantinople"; "petersburg"; "istanbul"; "muirGlacier";
    "berlin" ]%string.

Fixpoint rank (l : list string) (name : string) : option nat :=
  match l with
  | [] => None
  | x :: l' =>
      if String.eqb x name then Some O
      else match rank l' name with Some n => Some (S n) | None => None end
  end.

Definition gte (a b : string) : bool :=
  match rank hardforks a, rank hardforks b with
  | Some i, Some j => Nat.leb j i
  | _, _ => false
  end.

Definition params (topic name hardfork : string) : Z :=
  if String.eqb name "minimumDifficulty" then 131072
  else if String.eqb name "difficultyBoundDivisor" then 2048
  else if String.eqb name "durationLimit" then 13
  else if String.eqb name "gasLimitBoundDivisor" then 1024
  else if String.eqb name "minGasLimit" then 5000
  else if String.eqb name "maxExtraDataSize" then 32
  else 0.

Definition genesisData : GenesisData :=
  {| genesis_gasLimit := Buffer_from_hex "1388";
     genesis_timestamp := [];
     genesis_difficulty := Buffer_from_hex "0400000000";
     genesis_extraData :=
       Buffer_from_hex "11bbe8db4e347b4e8c937c1c8370e4b5ed33adb3db69cbdb7a38e1e50b1b82fa";
     genesis_nonce := Buffer_from_hex "0000000000000042";
     genesis_stateRoot :=
       Buffer_from_hex "d7f8974fb5ac78d9ac099b9ad5018bedc2ce0a72dad1827a1709da30580f0544" |}.

(** A chain with the given consensus and current hardfork; the DAO fork
    is scheduled at block 1920000 when [dao] is set. *)
Definition chain (type algorithm hardfork : string) (dao : bool) : Common :=
  {| hardfork := hardfork;
     consensusType := type;
     consensusAlgorithm := algorithm;
     consensusConfig := {| period := 15; epoch := 30000 |};
     paramByHardfork := params;
     hardforkGteHardfork := gte;
     activeHardfork := fun _ => "chainstart"%string;
     hardforkForBlockNumber := fun _ => "chainstart"%string;
     hardforkIsActiveOnChain := fun name => dao && String.eqb name "dao";
     hardforkBlock := fun _ => 1920000;
     genesis := genesisData |}.

Definition ethash (hardfork : string) : Common := chain "pow" "ethash" hardfork true.
Definition clique : Common := chain "poa" "clique" "istanbul" false.

Definition Common_mainnet (hardfork : option string) : Common :=
  ethash (default "istanbul"%string hardfork).

Definition zeroAddress : Address := mkAddress (zeros 20) eq_refl.

(** A header with default fields on the chain [c]. *)
Definition header (c : Common) (difficulty number gasLimit timestamp : Z)
    (extraData : Buffer) : BlockHeader :=
  mkBlockHeader (zeros 32) KECCAK256_RLP_ARRAY zeroAddress (zeros 32)
    KECCAK256_RLP KECCAK256_RLP (zeros 256) difficulty number gasLimit 0
    timestamp extraData (zeros 32) (zeros 8) c.

Definition options (c : Common) : BlockOptions :=
  {| common := Some c;
     hardforkByBlockNumber := false;
     initWithGenesisHeader := false;
     calcDifficultyFromHeader := None;
     freeze := None |}.

(** A header of the clique chain, with gas limit 1024000. *)
Definition cliqueHeader (number timestamp : Z) (extraData : Buffer)
    (coinbase : Address) (mixHash : Buffer) : BlockHeader :=
  mkBlockHeader (zeros 32) KECCAK256_RLP_ARRAY coinbase (zeros 32)
    KECCAK256_RLP KECCAK256_RLP (zeros 256) 2 number 1024000 0
    timestamp extraData mixHash (zeros 8) clique.

(** Block 1 of the clique chain, and a block 2 off the epoch transition
    with 97 bytes of extra data and a [mixHash] that is not zero. *)
Definition cliqueParent : BlockHeader :=
  cliqueHeader 1 15 (zeros 97) zeroAddress (zeros 32).

Definition cliqueNonZeroMixHash : BlockHeader :=
  cliqueHeader 2 30 (zeros 97) zeroAddress (repeat x01 32).

(** A server with one peer of id [ab], and the session of that peer. *)
Definition peer_ab : RlpxServer.RlpxPeer :=
  {| RlpxServer.id := "ab";
     RlpxServer.host := "10.0.0.1";
     RlpxServer.port := 30303;
     RlpxServer.inbound := false |}.

Definition session_ab : RlpxServer.Devp2pRLPxPeer :=
  {| RlpxServer.getId := Some [xab];
     RlpxServer.remoteAddress := "10.0.0.1";
     RlpxServer.remotePort := 30303;
     RlpxServer.socket_server := false |}.

Definition server (started : bool) : RlpxServer.Server :=
  RlpxServer.mkServer started {[ "ab"%string := peer_ab ]} (Some (zeros 64)) (Some tt).

(** [stop] of the base class: the flag is cleared. *)
Definition Server_stop : RlpxServer.M bool :=
  fun s => (RlpxServer.Returned true, RlpxServer.set_started false s, []).

(** A blockchain that holds one block, looked up by any hash. *)
Definition blockchain (parent : BlockHeader) : Blockchain := fun _ => Found parent.

End Sample.

(** ** The clique accessors of the header *)

(** [buf.slice(start)] *)
Definition Buffer_slice1 (b : Buffer) (start : Z) : Buffer :=
  Buffer_slice b start (Buffer_length b).

(** [cliqueExtraVanity] *)
Definition cliqueExtraVanity (this : BlockHeader) : result Buffer :=
  _requireClique this "cliqueExtraVanity" ;;!
  Ok (Buffer_slice (extraData this) 0 CLIQUE_EXTRA_VANITY).

(** [cliqueExtraSeal] *)
Definition cliqueExtraSeal (this : BlockHeader) : result Buffer :=
  _requireClique this "cliqueExtraSeal" ;;!
  Ok (Buffer_slice1 (extraData this) (- CLIQUE_EXTRA_SEAL)).

(** The loop of [cliqueEpochTransitionSigners]:
    [for (start = 0; start <= signerBuffer.length - 20; start += 20)].
    The fuel bounds the number of rounds. *)
Fixpoint signerList_loop (fuel : nat) (signerBuffer : Buffer) (start : Z)
  : list Buffer :=
  match fuel with
  | O => []
  | S fuel' =>
      if start <=? Buffer_length signerBuffer - 20 then
        Buffer_slice signerBuffer start (start + 20)
          :: signerList_loop fuel' signerBuffer (start + 20)
      else []
  end.

(** [cliqueEpochTransitionSigners]; a round of the loop takes 20 bytes, so
    that the length of the buffer plus one is fuel enough. *)
Definition cliqueEpochTransitionSigners (this : BlockHeader) : result (list Buffer) :=
  _requireClique this "cliqueEpochTransitionSigners" ;;!
  epochTransition <-! cliqueIsEpochTransition this ;;
  throwIf (negb epochTransition) NotEpochTransition ;;!
  let start := CLIQUE_EXTRA_VANITY in
  let stop := Buffer_length (extraData this) - CLIQUE_EXTRA_SEAL in
  let signerBuffer := Buffer_slice (extraData this) start stop in
  Ok (signerList_loop (S (List.length signerBuffer)) signerBuffer 0).

Section Signature.

(** [keccak256], [ecrecover(msgHash, v, r, s)] and [Address.fromPublicKey]
    of the utility package. *)
Variable keccak256 : Buffer -> Buffer.
Variable ecrecover : Buffer -> Z -> Buffer -> Buffer -> result Buffer.
Variable Address_fromPublicKey : Buffer -> result Address.

(** [cliqueSignatureToAddress]; [bufferToInt] reads a buffer as a
    big-endian number. *)
Definition cliqueSignatureToAddress (this : BlockHeader) : result Address :=
  _requireClique this "cliqueSignatureToAddress" ;;!
  extraSeal <-! cliqueExtraSeal this ;;
  let r := Buffer_slice extraSeal 0 32 in
  let s := Buffer_slice extraSeal 32 64 in
  let v := BN_fromBuffer (Buffer_slice extraSeal 64 65) + 27 in
  pubKey <-! ecrecover (hash keccak256 this) v r s ;;
  Address_fromPublicKey pubKey.

(** [cliqueVerifySignature(signerList)]; a buffer that [find] returns is
    truthy. *)
Definition cliqueVerifySignature (this : BlockHeader) (signerList : list Buffer)
  : result bool :=
  _requireClique this "cliqueVerifySignature" ;;!
  signerAddress <-! cliqueSignatureToAddress this ;;
  Ok (existsb (fun signer => Buffer_equals signer (buf signerAddress)) signerList).

End Signature.

(** ** Headers from field data *)

Section FromHeaderData.

(** The values of a [HeaderData] object ([BufferLike], [AddressLike],
    [BNLike]) with their truthiness, and [toBuffer] of the utility package
    on them. *)
Variable Like : Type.
Variable truthy : Like -> bool.
Variable toBuffer : Like -> result Buffer.
Variable Common_mainnet : option string -> Common.

Record HeaderData : Type := {
  data_parentHash : option Like;
  data_uncleHash : option Like;
  data_coinbase : option Like;
  data_stateRoot : option Like;
  data_transactionsTrie : option Like;
  data_receiptTrie : option Like;
  data_bloom : option Like;
  data_difficulty : option Like;
  data_number : option Like;
  data_gasLimit : option Like;
  data_gasUsed : option Like;
  data_timestamp : option Like;
  data_extraData : option Like;
  data_mixHash : option Like;
  data_nonce : option Like
}.

(** [x ? f(toBuffer(x)) : d], for a field [x] that may be absent *)
Definition orDefault {A : Type} (x : option Like) (f : Buffer -> result A) (d : A)
  : result A :=
  match x with
  | Some v => if truthy v then b <-! toBuffer v ;; f b else Ok d
  | None => Ok d
  end.

(** [Address.zero()] *)
Definition Address_zero : Address := mkAddress (zeros 20) eq_refl.

(** [fromHeaderData(headerData, opts)]; the arguments of the constructor
    are evaluated in order. *)
Definition fromHeaderData (headerData : HeaderData) (opts : BlockOptions)
  : result BlockHeader :=
  let buffer (b : Buffer) : result Buffer := Ok b in
  let bn (b : Buffer) : result Z := Ok (BN_fromBuffer b) in
  parentHash <-! orDefault (data_parentHash headerData) buffer (zeros 32) ;;
  uncleHash <-! orDefault (data_uncleHash headerData) buffer KECCAK256_RLP_ARRAY ;;
  coinbase <-! orDefault (data_coinbase headerData) Address_new Address_zero ;;
  stateRoot <-! orDefault (data_stateRoot headerData) buffer (zeros 32) ;;
  transactionsTrie <-! orDefault (data_transactionsTrie headerData) buffer KECCAK256_RLP ;;
  receiptTrie <-! orDefault (data_receiptTrie headerData) buffer KECCAK256_RLP ;;
  bloom <-! orDefault (data_bloom headerData) buffer (zeros 256) ;;
  difficulty <-! orDefault (data_difficulty headerData) bn 0 ;;
  number <-! orDefault (data_number headerData) bn 0 ;;
  gasLimit <-! orDefault (data_gasLimit headerData) bn DEFAULT_GAS_LIMIT ;;
  gasUsed <-! orDefault (data_gasUsed headerData) bn 0 ;;
  timestamp <-! orDefault (data_timestamp headerData) bn 0 ;;
  extraData <-! orDefault (data_extraData headerData) buffer [] ;;
  mixHash <-! orDefault (data_mixHash headerData) buffer (zeros 32) ;;
  nonce <-! orDefault (data_nonce headerData) buffer (zeros 8) ;;
  BlockHeader_new Common_mainnet parentHash uncleHash coinbase stateRoot
    transactionsTrie receiptTrie bloom difficulty number gasLimit gasUsed
    timestamp extraData mixHash nonce opts.

(** [genesis(headerData, opts)]: [{ ...opts, initWithGenesisHeader: true }] *)
Definition genesis_header (headerData : HeaderData) (opts : BlockOptions)
  : result BlockHeader :=
  fromHeaderData headerData
    {| common := common opts;
       hardforkByBlockNumber := hardforkByBlockNumber opts;
       initWithGenesisHeader := true;
       calcDifficultyFromHeader := calcDifficultyFromHeader opts;
       freeze := freeze opts |}.

End FromHeaderData.

(** ** The transaction factory *)

Module TransactionFactory.

(** The errors of the factory:
    'Cannot create a TypedTransaction: EIP-2718 is not enabled',
    `TypedTransaction with ID ${id} unknown`,
    `Cannot create TypedTransaction with ID ${id}: EIP ${eip} not activated`. *)
Inductive TxError : Type :=
  | EIP2718Disabled
  | UnknownTxType (id : Z)
  | EIPNotActivated (id eip : Z).

(** The transaction classes that the factory chooses among. *)
Inductive TxClass : Type :=
  | SignedLegacyTransaction
  | UnsignedLegacyTransaction
  | SignedEIP2930Transaction
  | UnsignedEIP2930Transaction.

(** [common.eips().includes(n)] *)
Definition includes (eips : list Z) (n : Z) : bool := existsb (Z.eqb n) eips.

(** [fromRawData(rawData, transactionOptions)], up to the class whose
    [fromRlpSerializedTx] is handed the data; [eips] is [common.eips()].
    [rawData[0]] of an empty buffer is [undefined], which compares false. *)
Definition fromRawData (eips : list Z) (rawData : Buffer) : TxError + TxClass :=
  match rawData with
  | first :: _ =>
      let rawData0 := Z.of_N (Byte.to_N first) in
      if rawData0 <=? 127 then
        if negb (includes eips 2718) then inl EIP2718Disabled
        else if rawData0 =? 1 then
          let EIP := 2930 in
          if negb (includes eips EIP) then inl (EIPNotActivated rawData0 EIP)
          else inr UnsignedEIP2930Transaction
        else inl (UnknownTxType rawData0)
      else inr UnsignedLegacyTransaction
  | [] => inr UnsignedLegacyTransaction
  end.

(** [getTransactionClass(transactionID?, signed = false, common?)]; the id
    0 is falsy, and [None] in the result is [undefined]. *)
Definition getTransactionClass (transactionID : option Z) (signed : option bool)
    (eips : list Z) : TxError + option TxClass :=
  let signed := default false signed in
  let typed (id : Z) : TxError + option TxClass :=
    if negb (includes eips 2718) then inl EIP2718Disabled
    else if id =? 1 then
      inr (Some (if signed then SignedEIP2930Transaction
                 else UnsignedEIP2930Transaction))
    else inl (UnknownTxType id) in
  let legacy : TxError + option TxClass :=
    if signed then inr None
    else inr (Some (if signed then SignedLegacyTransaction
                    else UnsignedLegacyTransaction)) in
  match transactionID with
  | Some id => if id =? 0 then legacy else typed id
  | None => legacy
  end.

End TransactionFactory.

(** ** Starting the RLPx server *)

Module RlpxStart.

(** The options that the constructor of the server keeps: the key, the
    port ([options.port ?? 30303]), the client filter, the boot nodes, the
    refresh interval and the number of peers of the configuration. *)
Record Bootnode : Type := { ip : string; port : Z }.

Record Options : Type := {
  key : option Buffer;
  listenPort : Z;
  clientFilter : list string;
  bootnodes : list Bootnode;
  refreshInterval : Z;
  maxPeers : Z
}.

(** The calls into the devp2p library that [start] makes. *)
Inductive Devp2pCall : Type :=
  | NewDPT (privateKey : Buffer) (refreshInterval : Z)
  | DptOn (event : string)
  | DptBind (port : Z) (address : string)
  | DptBootstrap (address : string) (udpPort tcpPort : Z)
  | NewRLPx (privateKey : Buffer) (maxPeers : Z)
      (remoteClientIdFilter : list string) (listenPort : Z)
  | RlpxOn (event : string)
  | RlpxListen (port : Z) (address : string).

(** The trace of [start]: effects of the server and calls into devp2p. *)
Definition Step : Type := (RlpxServer.Effect + Devp2pCall)%type.

Definition L (A : Type) : Type :=
  RlpxServer.Server -> RlpxServer.Outcome A * RlpxServer.Server * list Step.

Definition lret {A : Type} (a : A) : L A := fun s => (RlpxServer.Returned a, s, []).

Definition lbind {A B : Type} (m : L A) (k : A -> L B) : L B :=
  fun s =>
    match m s with
    | (RlpxServer.Returned a, s1, t1) =>
        match k a s1 with
        | (o, s2, t2) => (o, s2, t1 ++ t2)
        end
    | (RlpxServer.Thrown e, s1, t1) => (RlpxServer.Thrown e, s1, t1)
    end.

(** A method of the server, run inside [start]. *)
Definition lift {A : Type} (m : RlpxServer.M A) : L A :=
  fun s =>
    match m s with
    | (o, s1, t1) => (o, s1, map inl t1)
    end.

Definition call (c : Devp2pCall) : L unit :=
  fun s => (RlpxServer.Returned tt, s, [inr c]).

Definition modify (f : RlpxServer.Server -> RlpxServer.Server) : L unit :=
  fun s => (RlpxServer.Returned tt, f s, []).

Definition set_dpt (d : option unit) (s : RlpxServer.Server) : RlpxServer.Server :=
  RlpxServer.mkServer (RlpxServer.started s) (RlpxServer.peers s)
    (RlpxServer.rlpx s) d.

Definition set_rlpx (r : option Buffer) (s : RlpxServer.Server) : RlpxServer.Server :=
  RlpxServer.mkServer (RlpxServer.started s) (RlpxServer.peers s) r
    (RlpxServer.dpt s).

Declare Scope start_scope.
Delimit Scope start_scope with start.
Notation "x <~~ m ;; k" := (lbind m (fun x => k))
  (at level 100, m at next level, right associativity) : start_scope.
Notation "m ;;~~ k" := (lbind m (fun _ => k))
  (at level 100, right associativity) : start_scope.
Local Open Scope start_scope.

Section Start.

Variable options : Options.

(** [super.start()] of the base class; [randomBytes(32)], drawn once in
    [initDpt] and once in [initRlpx] when the server has no key; the node
    id that the RLPx instance derives from its key; and the rejection that
    [Promise.all] reports when one of the bootstrap calls rejects. *)
Variable Server_start : RlpxServer.M bool.
Variable randomBytes_dpt randomBytes_rlpx : Buffer.
Variable pk2id : Buffer -> Buffer.
Variable bootstrapRejection : option RlpxServer.JsError.

(** [initDpt] *)
Definition initDpt : L unit :=
  call (NewDPT (default randomBytes_dpt (key options)) (refreshInterval options)) ;;~~
  modify (set_dpt (Some tt)) ;;~~
  call (DptOn "error") ;;~~
  if negb (listenPort options =? 0)
  then call (DptBind (listenPort options) "0.0.0.0")
  else lret tt.

(** [initRlpx] *)
Definition initRlpx : L unit :=
  let privateKey := default randomBytes_rlpx (key options) in
  call (NewRLPx privateKey (maxPeers options) (clientFilter options)
          (listenPort options)) ;;~~
  modify (set_rlpx (Some (pk2id privateKey))) ;;~~
  call (RlpxOn "peer:added") ;;~~
  call (RlpxOn "peer:removed") ;;~~
  call (RlpxOn "peer:error") ;;~~
  call (RlpxOn "error") ;;~~
  call (RlpxOn "listening") ;;~~
  if negb (listenPort options =? 0)
  then call (RlpxListen (listenPort options) "0.0.0.0")
  else lret tt.

(** [bootstrap]: every boot node is handed to [dpt.bootstrap]; a rejection
    is routed to [error].  Without boot nodes there is no promise to
    reject. *)
Definition bootstrap : L unit :=
  fun s =>
    match bootnodes options with
    | [] => (RlpxServer.Returned tt, s, [])
    | _ :: _ =>
        match RlpxServer.dpt s with
        | None =>
            (RlpxServer.Thrown
               {| RlpxServer.message := "Cannot read property 'bootstrap' of null" |},
             s, [])
        | Some _ =>
            let calls :=
              map (fun node => inr (DptBootstrap (ip node) (port node) (port node)))
                  (bootnodes options) in
            match bootstrapRejection with
            | Some e =>
                match lift (RlpxServer.error e None) s with
                | (o, s1, t1) => (o, s1, calls ++ t1)
                end
            | None => (RlpxServer.Returned tt, s, calls)
            end
        end
    end.

(** [start()] *)
Definition start : L bool :=
  fun s =>
    if RlpxServer.started s then (RlpxServer.Returned false, s, [])
    else
      (lift Server_start ;;~~
       initDpt ;;~~
       initRlpx ;;~~
       bootstrap ;;~~
       modify (RlpxServer.set_started true) ;;~~
       lret true) s.

End Start.

End RlpxStart.

(** ** Scenarios

    Concrete headers, header data and servers on which the definitions
    above are run. *)

Module Scenario.

(** Block 30000 of the clique chain, an epoch transition, with two
    signers between the vanity and the seal; and the same block with seven
    stray bytes after the first signer. *)
Definition signers : list Buffer := [repeat x01 20; repeat x02 20].

Definition epochHeader : BlockHeader :=
  Sample.cliqueHeader 30000 450000 (zeros 32 ++ concat signers ++ zeros 65)
    Sample.zeroAddress (zeros 32).

Definition raggedHeader : BlockHeader :=
  Sample.cliqueHeader 30000 450000
    (zeros 32 ++ repeat x01 20 ++ repeat x02 7 ++ zeros 65)
    Sample.zeroAddress (zeros 32).

(** Block 2 of the clique chain with a seal [r ++ s ++ [v]]. *)
Definition sealedHeader : BlockHeader :=
  Sample.cliqueHeader 2 30 (zeros 32 ++ repeat x03 32 ++ repeat x04 32 ++ [x01])
    Sample.zeroAddress (zeros 32).

(** A recovery that returns the two halves of the signature as the key,
    and an address made of the first 20 bytes of a key. *)
Definition ecrecover (msgHash : Buffer) (v : Z) (r s : Buffer) : result Buffer :=
  Ok (r ++ s).

Definition Address_fromPublicKey (pubKey : Buffer) : result Address :=
  Address_new (firstn 20 pubKey).

(** Header data whose values are numbers or buffers: the number 0 is
    falsy, and [toBuffer] of a number is its big-endian form. *)
Inductive Like : Type :=
  | LNumber (n : Z)
  | LBuffer (b : Buffer).

Definition truthy (v : Like) : bool :=
  match v with
  | LNumber n => negb (n =? 0)
  | LBuffer _ => true
  end.

Definition toBuffer (v : Like) : result Buffer :=
  match v with
  | LNumber n => if n <? 0 then Throw TypeError else Ok (BN_toBuffer n)
  | LBuffer b => Ok b
  end.

Definition noData : HeaderData Like :=
  {| data_parentHash := None; data_uncleHash := None; data_coinbase := None;
     data_stateRoot := None; data_transactionsTrie := None;
     data_receiptTrie := None; data_bloom := None; data_difficulty := None;
     data_number := None; data_gasLimit := None; data_gasUsed := None;
     data_timestamp := None; data_extraData := None; data_mixHash := None;
     data_nonce := None |}.

(** Data with the number 5, and data with the gas limit 0. *)
Definition numberFive : HeaderData Like :=
  {| data_parentHash := None; data_uncleHash := None; data_coinbase := None;
     data_stateRoot := None; data_transactionsTrie := None;
     data_receiptTrie := None; data_bloom := None; data_difficulty := None;
     data_number := Some (LNumber 5); data_gasLimit := None; data_gasUsed := None;
     data_timestamp := None; data_extraData := None; data_mixHash := None;
     data_nonce := None |}.

Definition gasLimitZero : HeaderData Like :=
  {| data_parentHash := None; data_uncleHash := None; data_coinbase := None;
     data_stateRoot := None; data_transactionsTrie := None;
     data_receiptTrie := None; data_bloom := None; data_difficulty := None;
     data_number := None; data_gasLimit := Some (LNumber 0); data_gasUsed := None;
     data_timestamp := None; data_extraData := None; data_mixHash := None;
     data_nonce := None |}.

(** A server that was never started, its options with one boot node, and
    a base class whose [start] and [stop] return at once. *)
Definition options : RlpxStart.Options :=
  {| RlpxStart.key := Some (repeat x07 32);
     RlpxStart.listenPort := 30303;
     RlpxStart.clientFilter := ["go1.5"; "quorum"]%string;
     RlpxStart.bootnodes :=
       [ {| RlpxStart.ip := "10.0.0.2"; RlpxStart.port := 30301 |} ];
     RlpxStart.refreshInterval := 30000;
     RlpxStart.maxPeers := 25 |}.

Definition fresh : RlpxServer.Server := RlpxServer.mkServer false ∅ None None.

Definition Server_start : RlpxServer.M bool :=
  fun s => (RlpxServer.Returned true, s, []).

Definition pk2id (privateKey : Buffer) : Buffer := privateKey ++ privateKey.


(** The server after [start]. *)
Definition running : RlpxServer.Server :=
  RlpxServer.mkServer true ∅ (Some (pk2id (repeat x07 32))) (Some tt).

(** A handshake that succeeds, and one that times out. *)
Definition accept (peer : RlpxServer.RlpxPeer) (rlpxPeer : RlpxServer.Devp2pRLPxPeer)
  : RlpxServer.M unit :=
  fun s => (RlpxServer.Returned tt, s, []).



End Scenario.

(** ** Vocabulary of the properties *)

(** The errors that the first block of [validate] can raise. *)
Definition extraData_error (e : Error) : bool :=
  match e with
  | InvalidExtraData | InvalidCliqueExtraData _ _ | InvalidCliqueSignerList _
  | InvalidCliqueCoinbase | InvalidCliqueMixHash | BNAssertion | NotClique _ => true
  | _ => false
  end.

(** The errors of the clique format checks among them. *)
Definition clique_format_error (e : Error) : bool :=
  match e with
  | InvalidCliqueExtraData _ _ | InvalidCliqueSignerList _
  | InvalidCliqueCoinbase | InvalidCliqueMixHash => true
  | _ => false
  end.

(** The errors that [validate] can raise after its first block. *)
Definition later_error (e : Error) : bool :=
  match e with
  | BlockchainError | MissingParent | InvalidNumber | InvalidTimestamp
  | InvalidCliquePeriod | InvalidDifficulty | InvalidGasLimit
  | InvalidUncleDistance | UnsupportedConsensus | UnsupportedAlgorithm
  | UnsupportedDifficultyValidation | BNAssertion | TypeError => true
  | _ => false
  end.

(** The errors that the difficulty calculation can raise. *)
Definition difficulty_error (e : Error) : bool :=
  match e with
  | UnsupportedConsensus | UnsupportedAlgorithm | UnsupportedDifficultyValidation
  | BNAssertion | TypeError => true
  | _ => false
  end.

(** The peer map is keyed by the id of the peers it holds, as [peer:added]
    inserts them. *)
Definition keyed_by_id (m : gmap string RlpxServer.RlpxPeer) : Prop :=
  forall (k : string) (p : RlpxServer.RlpxPeer),
    m !! k = Some p -> RlpxServer.id p = k.



(** A header is valid under the options [opts] when the constructor, given
    the fields of the header and [opts], returns the header. *)
Definition rebuild (Common_mainnet : option string -> Common) (opts : BlockOptions)
    (h : BlockHeader) : result BlockHeader :=
  BlockHeader_new Common_mainnet (parentHash h) (uncleHash h) (coinbase h)
    (stateRoot h) (transactionsTrie h) (receiptTrie h) (bloom h) (difficulty h)
    (number h) (gasLimit h) (gasUsed h) (timestamp h) (extraData h) (mixHash h)
    (nonce h) opts.

Definition valid_header (Common_mainnet : option string -> Common)
    (opts : BlockOptions) (h : BlockHeader) : Prop :=
  rebuild Common_mainnet opts h = Ok h.

(** The payload of the encoding of a list of byte strings. *)
Definition payload (values : list Buffer) : Buffer :=
  concat (map rlp.encode (map rlp.Bytes values)).

(** The header after [header.extraData = e]; the field is writable so that
    a seal can be added. *)
Definition with_extraData (e : Buffer) (h : BlockHeader) : BlockHeader :=
  mkBlockHeader (parentHash h) (uncleHash h) (coinbase h) (stateRoot h)
    (transactionsTrie h) (receiptTrie h) (bloom h) (difficulty h) (number h)
    (gasLimit h) (gasUsed h) (timestamp h) e (mixHash h) (nonce h) (_common h).

(** A field of a [HeaderData] object that is absent or falsy. *)
Definition falsy {Like : Type} (truthy : Like -> bool) (x : option Like) : Prop :=
  match x with
  | Some v => truthy v = false
  | None => True
  end.

Definition HeaderData_fields {Like : Type} (data : HeaderData Like)
  : list (option Like) :=
  [ data_parentHash _ data; data_uncleHash _ data; data_coinbase _ data;
    data_stateRoot _ data; data_transactionsTrie _ data;
    data_receiptTrie _ data; data_bloom _ data; data_difficulty _ data;
    data_number _ data; data_gasLimit _ data; data_gasUsed _ data;
    data_timestamp _ data; data_extraData _ data; data_mixHash _ data;
    data_nonce _ data ].


Definition devp2p_calls (t : list RlpxStart.Step) : list RlpxStart.Devp2pCall :=
  omap (fun x => match x with inl _ => None | inr c => Some c end) t.

(** The calls of [initDpt] and [initRlpx]. *)
Definition init_calls (options : RlpxStart.Options)
    (randomBytes_dpt randomBytes_rlpx : Buffer) : list RlpxStart.Devp2pCall :=
  let listenPort := RlpxStart.listenPort options in
  [ RlpxStart.NewDPT (default randomBytes_dpt (RlpxStart.key options))
      (RlpxStart.refreshInterval options);
    RlpxStart.DptOn "error" ]
  ++ (if listenPort =? 0 then [] else [RlpxStart.DptBind listenPort "0.0.0.0"])
  ++ [ RlpxStart.NewRLPx (default randomBytes_rlpx (RlpxStart.key options))
         (RlpxStart.maxPeers options) (RlpxStart.clientFilter options) listenPort;
       RlpxStart.RlpxOn "peer:added"; RlpxStart.RlpxOn "peer:removed";
       RlpxStart.RlpxOn "peer:error"; RlpxStart.RlpxOn "error";
       RlpxStart.RlpxOn "listening" ]
  ++ (if listenPort =? 0 then [] else [RlpxStart.RlpxListen listenPort "0.0.0.0"]).

(** The calls of [bootstrap]. *)
Definition bootstrap_calls (options : RlpxStart.Options) : list RlpxStart.Devp2pCall :=
  map (fun node =>
         RlpxStart.DptBootstrap (RlpxStart.ip node) (RlpxStart.port node)
           (RlpxStart.port node))
      (RlpxStart.bootnodes options).

(** What a rejected bootstrap leaves in the trace. *)
Definition rejection_effects (options : RlpxStart.Options)
    (bootstrapRejection : option RlpxServer.JsError) : list RlpxServer.Effect :=
  match RlpxStart.bootnodes options, bootstrapRejection with
  | _ :: _, Some e =>
      if RlpxServer.RegExp_test RlpxServer.ignoredErrors (RlpxServer.message e)
      then []
      else [RlpxServer.ServerEmit "error" [RlpxServer.VError e]]
  | _, _ => []
  end.

(** The peer that [peer:added] creates for a session with the id
    [peerId]. *)
Definition peer_of (rlpxPeer : RlpxServer.Devp2pRLPxPeer) (peerId : Buffer)
  : RlpxServer.RlpxPeer :=
  {| RlpxServer.id := RlpxServer.toString_hex peerId;
     RlpxServer.host := RlpxServer.remoteAddress rlpxPeer;
     RlpxServer.port := RlpxServer.remotePort rlpxPeer;
     RlpxServer.inbound := RlpxServer.socket_server rlpxPeer |}.

(** The peer of the map, if any, that an error of a session concerns. *)
Definition peer_of_session (s : RlpxServer.Server)
    (rlpxPeer : option RlpxServer.Devp2pRLPxPeer) : option RlpxServer.RlpxPeer :=
  match rlpxPeer with
  | Some rlpxPeer =>
      match RlpxServer.getId rlpxPeer with
      | Some peerId => RlpxServer.peers s !! RlpxServer.toString_hex peerId
      | None => None
      end
  | None => None
  end.

(** * Properties *)

(** ** Buffers and the exception monad *)

#[global] Instance byte_eq_dec : EqDecision byte := Byte.byte_eq_dec.

Lemma Buffer_equals_eq (a b : Buffer) : Buffer_equals a b = true <-> a = b.
Proof.
  revert b; induction a as [|x a IH]; intros [|y b]; simpl; split;
    try congruence; try reflexivity.
  - intros [Hxy Hab]%andb_true_iff.
    apply Byte.byte_dec_bl in Hxy. apply IH in Hab. congruence.
  - intros [= -> ->]. apply andb_true_iff; split.
    + now apply Byte.byte_dec_lb.
    + now apply IH.
Qed.

Lemma Buffer_equals_neq (a b : Buffer) : Buffer_equals a b = false <-> a <> b.
Proof.
  rewrite <- Buffer_equals_eq. destruct (Buffer_equals a b); split; congruence.
Qed.

Lemma Buffer_equals_spec (a b : Buffer) : reflect (a = b) (Buffer_equals a b).
Proof.
  destruct (Buffer_equals a b) eqn:H; constructor.
  - now apply Buffer_equals_eq.
  - now apply Buffer_equals_neq.
Qed.

Lemma Buffer_equals_length (a b : Buffer) :
  List.length a <> List.length b -> Buffer_equals a b = false.
Proof. intros H. apply Buffer_equals_neq. congruence. Qed.

Lemma throwIf_Ok (cond : bool) (e : Error) : throwIf cond e = Ok tt <-> cond = false.
Proof. destruct cond; simpl; split; congruence. Qed.

(** ** Canonical difficulty *)

(** C1. On a PoW ethash chain whose resolved hardfork [h] is at least
    byzantium, for a header that is not older than its parent,
    [canonicalDifficulty] is [max(minimumDifficulty, parent.difficulty +
    bound * a + bomb)], with [bound] the integer quotient of the parent
    difficulty by [difficultyBoundDivisor], [a = max(-99, u - floor((ts -
    parent.ts) / 9))], [u] 1 or 2 by the parent's uncle hash, and the bomb
    [2^(floor(max(0, number - delay) / 100000) - 2)] when the exponent is
    not negative, the delay being 9000000 from muirGlacier, 5000000 from
    constantinople and 3000000 otherwise. The quotient of bn.js truncates;
    on a non-negative difficulty and a positive divisor it is the floor. *)
Theorem canonicalDifficulty_byzantium (header parent : BlockHeader) (h : string) :
  let c := _common header in
  let gte := hardforkGteHardfork c h in
  let divisor := paramByHardfork c "pow" "difficultyBoundDivisor" h in
  let minimumDifficulty := paramByHardfork c "pow" "minimumDifficulty" h in
  consensusType c = "pow"%string ->
  consensusAlgorithm c = "ethash"%string ->
  _getHardfork header = Ok h ->
  gte "byzantium"%string = true ->
  timestamp parent <= timestamp header ->
  divisor <> 0 ->
  let bound := Z.quot (difficulty parent) divisor in
  let u := if decide (uncleHash parent = KECCAK256_RLP_ARRAY) then 1 else 2 in
  let a := Z.max (-99) (u - (timestamp header - timestamp parent) / 9) in
  let delay :=
    if gte "muirGlacier"%string then 9000000
    else if gte "constantinople"%string then 5000000
    else 3000000 in
  let e := Z.max 0 (number header - delay) / 100000 - 2 in
  let bomb := if 0 <=? e then 2 ^ e else 0 in
  canonicalDifficulty header parent
    = Ok (Z.max minimumDifficulty (difficulty parent + bound * a + bomb))
  /\ (0 <= difficulty parent -> 0 < divisor -> bound = difficulty parent / divisor).
Proof.
  intros c gte divisor minimumDifficulty Hpow Hethash Hh Hbyz Hts Hdiv
         bound u a delay e bomb.
  split.
  2: { intros Hd Hpos. unfold bound. now apply Z.quot_div_nonneg. }
  unfold canonicalDifficulty. fold c.
  rewrite Hpow, Hethash, Hh. simpl.
  unfold BN_div. fold divisor.
  destruct (Z.eqb_spec divisor 0) as [|_]; [contradiction|]. simpl.
  fold gte. rewrite Hbyz.
  assert (Hu : (if Buffer_equals (uncleHash parent) KECCAK256_RLP_ARRAY
                then 1 else 2) = u).
  { unfold u. destruct (decide (uncleHash parent = KECCAK256_RLP_ARRAY)) as [Heq|Hne].
    - apply Buffer_equals_eq in Heq. now rewrite Heq.
    - apply Buffer_equals_neq in Hne. now rewrite Hne. }
  rewrite Hu.
  assert (Ha : (let a0 := - Z.quot (timestamp header - timestamp parent) 9 + u in
                if -99 >? a0 then -99 else a0) = a).
  { simpl. unfold a. rewrite Z.quot_div_nonneg by lia.
    destruct (Z.gtb_spec (-99)
                (- ((timestamp header - timestamp parent) / 9) + u)); lia. }
  simpl in Ha. rewrite Ha.
  assert (Hnum : forall d, (if number header - d <? 0 then 0 else number header - d)
                           = Z.max 0 (number header - d)).
  { intros d. destruct (Z.ltb_spec (number header - d) 0); lia. }
  assert (Hfinal : forall n,
    0 <= n ->
    (let x := difficulty parent + bound * a in
     let x := if negb (Z.quot n 100000 - 2 <? 0)
              then x + 2 ^ (Z.quot n 100000 - 2) else x in
     Ok (if x <? minimumDifficulty then minimumDifficulty else x))
    = Ok (Z.max minimumDifficulty
            (difficulty parent + bound * a
             + (if 0 <=? n / 100000 - 2 then 2 ^ (n / 100000 - 2) else 0)))).
  { intros n Hn. simpl. rewrite Z.quot_div_nonneg by lia.
    destruct (Z.ltb_spec (n / 100000 - 2) 0), (Z.leb_spec 0 (n / 100000 - 2));
      try lia; simpl; f_equal.
    - destruct (Z.ltb_spec (difficulty parent + bound * a) minimumDifficulty); lia.
    - destruct (Z.ltb_spec (difficulty parent + bound * a + 2 ^ (n / 100000 - 2))
                           minimumDifficulty); lia. }
  unfold bomb, e, delay. fold bound.
  destruct (gte "muirGlacier"%string); [|destruct (gte "constantinople"%string)];
    rewrite Hnum; apply Hfinal; lia.
Qed.

(** The scenario of a byzantium header nine seconds after a parent without
    uncles, at block 5000000. *)
Lemma canonicalDifficulty_byzantium_witness :
  canonicalDifficulty
    (Sample.header (Sample.ethash "byzantium") 0 5000000 5000 1000009 [])
    (Sample.header (Sample.ethash "byzantium") 1000000000000 4999999 5000 1000000 [])
  = Ok 1000000262144.
Proof.
  refine (eq_trans (proj1 (canonicalDifficulty_byzantium
    (Sample.header (Sample.ethash "byzantium") 0 5000000 5000 1000009 [])
    (Sample.header (Sample.ethash "byzantium") 1000000000000 4999999 5000 1000000 [])
    "byzantium" _ _ _ _ _ _)) _).
  - reflexivity.
  - reflexivity.
  - reflexivity.
  - reflexivity.
  - simpl; lia.
  - vm_compute; discriminate.
  - vm_compute; reflexivity.
Defined.

(** ** Where the errors of [validate] come from *)

Lemma canonicalDifficulty_errors (this parent : BlockHeader) (e : Error) :
  canonicalDifficulty this parent = Throw e -> difficulty_error e = true.
Proof.
  unfold canonicalDifficulty, _getHardfork, BN_toNumber, BN_div, throwIf.
  repeat (match goal with
          | |- context [if ?b then _ else _] => destruct b
          end; simpl);
    try congruence; intros [= <-]; reflexivity.
Qed.

Lemma validateDifficulty_errors (this parent : BlockHeader) (e : Error) :
  validateDifficulty this parent = Throw e -> difficulty_error e = true.
Proof.
  unfold validateDifficulty, throwIf.
  destruct (negb _); simpl; [intros [= <-]; reflexivity|].
  destruct (canonicalDifficulty this parent) as [d|e'] eqn:Hd; simpl; [discriminate|].
  intros [= <-]. now apply canonicalDifficulty_errors in Hd.
Qed.

Lemma validateGasLimit_errors (this parent : BlockHeader) (e : Error) :
  validateGasLimit this parent = Throw e -> e = BNAssertion.
Proof.
  unfold validateGasLimit, _getHardfork, BN_toNumber, BN_div.
  repeat (match goal with
          | |- context [if ?b then _ else _] => destruct b
          end; simpl);
    congruence.
Qed.

Lemma validate_extraData_errors (this : BlockHeader) (h : string) (e : Error) :
  validate_extraData this h = Throw e -> extraData_error e = true.
Proof.
  unfold validate_extraData, cliqueIsEpochTransition, _requireClique, BN_mod, throwIf.
  repeat (match goal with
          | |- context [if ?b then _ else _] => destruct b
          end; simpl);
    try congruence; intros [= <-]; reflexivity.
Qed.

(** ** Gas limit *)


(** Once the checks before it have passed, [validate] is the gas limit
    check followed by the uncle distance check. *)
Lemma validate_reaches_gasLimit (header parent : BlockHeader) (h : string)
    (blockchain : Blockchain) (height : option Z) :
  let c := _common header in
  isGenesis header = false ->
  _getHardfork header = Ok h ->
  validate_extraData header h = Ok tt ->
  blockchain (parentHash header) = Found parent ->
  number header = number parent + 1 ->
  timestamp parent < timestamp header ->
  (consensusAlgorithm c = "clique"%string ->
   timestamp parent + period (consensusConfig c) <= timestamp header) ->
  (consensusType c = "pow"%string -> validateDifficulty header parent = Ok true) ->
  validate header blockchain height
  = bind (validateGasLimit header parent) (fun ok =>
      bind (throwIf (negb ok) InvalidGasLimit) (fun _ =>
        match height with
        | Some height =>
            let dif := height - number parent in
            throwIf (negb ((dif <? 8) && (dif >? 1))) InvalidUncleDistance
        | None => Ok tt
        end)).
Proof.
  intros c Hgen Hh Hextra Hfound Hnum Hts Hperiod Hdiff.
  unfold validate. fold c. rewrite Hgen, Hh. simpl. rewrite Hextra. simpl.
  unfold _getHeaderByHash. rewrite Hfound. simpl.
  replace (number header =? number parent + 1) with true
    by (symmetry; apply Z.eqb_eq; assumption).
  replace (timestamp header <=? timestamp parent) with false
    by (symmetry; apply Z.leb_gt; assumption).
  simpl.
  assert (Hclique :
    (if String.eqb (consensusAlgorithm c) "clique"
     then throwIf (timestamp parent + period (consensusConfig c) >? timestamp header)
                  InvalidCliquePeriod
     else Ok tt) = Ok tt).
  { destruct (String.eqb_spec (consensusAlgorithm c) "clique") as [Heq|]; [|reflexivity].
    apply throwIf_Ok. specialize (Hperiod Heq).
    destruct (Z.gtb_spec (timestamp parent + period (consensusConfig c))
                         (timestamp header)); [lia|reflexivity]. }
  rewrite Hclique. simpl.
  assert (Hpow :
    (if String.eqb (consensusType c) "pow"
     then bind (validateDifficulty header parent)
               (fun ok => throwIf (negb ok) InvalidDifficulty)
     else Ok tt) = Ok tt).
  { destruct (String.eqb_spec (consensusType c) "pow") as [Heq|]; [|reflexivity].
    rewrite (Hdiff Heq). reflexivity. }
  rewrite Hpow. reflexivity.
Qed.




(** ** Clique extra data *)

Lemma cliqueIsEpochTransition_clique (header : BlockHeader) :
  consensusAlgorithm (_common header) = "clique"%string ->
  epoch (consensusConfig (_common header)) <> 0 ->
  cliqueIsEpochTransition header
  = Ok (Z.rem (number header) (epoch (consensusConfig (_common header))) =? 0).
Proof.
  intros Hclique Hepoch. unfold cliqueIsEpochTransition, _requireClique, BN_mod.
  rewrite Hclique. simpl.
  destruct (Z.eqb_spec (epoch (consensusConfig (_common header))) 0);
    [contradiction|reflexivity].
Qed.

Lemma rem_20_mod (x : Z) : Z.rem x 20 = 0 <-> x mod 20 = 0.
Proof. rewrite Z.rem_divide, Z.mod_divide by lia. reflexivity. Qed.

(** The first block of [validate] on a clique chain, as a boolean. *)
Lemma validate_extraData_clique (header : BlockHeader) (h : string) :
  let c := _common header in
  let len := Buffer_length (extraData header) in
  consensusAlgorithm c = "clique"%string ->
  epoch (consensusConfig c) <> 0 ->
  validate_extraData header h
  = if negb (Z.rem (number header) (epoch (consensusConfig c)) =? 0) then
      if negb (len =? 97) then
        Throw (InvalidCliqueExtraData 97 (List.length (extraData header)))
      else if negb (Buffer_equals (mixHash header) (zeros 32)) then
        Throw InvalidCliqueMixHash
      else Ok tt
    else if negb (Z.rem (len - 97) 20 =? 0) then
      Throw (InvalidCliqueSignerList (len - 97))
    else if negb (Address_isZero (coinbase header)) then
      Throw InvalidCliqueCoinbase
    else if negb (Buffer_equals (mixHash header) (zeros 32)) then
      Throw InvalidCliqueMixHash
    else Ok tt.
Proof.
  intros c len Hclique Hepoch. unfold validate_extraData. fold c.
  rewrite Hclique. simpl.
  rewrite cliqueIsEpochTransition_clique by assumption. simpl. fold c.
  change (CLIQUE_EXTRA_VANITY + CLIQUE_EXTRA_SEAL) with 97.
  change (Z.to_nat 97) with 97%nat. fold len.
  unfold throwIf.
  repeat (match goal with
          | |- context [if ?b then _ else _] => destruct b
          end; simpl); reflexivity.
Qed.

(** The errors of [validate] after its first block. *)
Lemma validate_later_errors (header : BlockHeader) (h : string)
    (blockchain : Blockchain) (height : option Z) (e : Error) :
  isGenesis header = false ->
  _getHardfork header = Ok h ->
  validate_extraData header h = Ok tt ->
  validate header blockchain height = Throw e ->
  later_error e = true.
Proof.
  intros Hgen Hh Hextra. unfold validate.
  rewrite Hgen, Hh. simpl. rewrite Hextra. simpl.
  unfold _getHeaderByHash.
  destruct (blockchain (parentHash header)) as [parent| |]; simpl;
    [|intros [= <-]; reflexivity|intros [= <-]; reflexivity].
  unfold throwIf at 1.
  destruct (negb (number header =? number parent + 1)); simpl;
    [intros [= <-]; reflexivity|].
  unfold throwIf at 1.
  destruct (timestamp header <=? timestamp parent); simpl;
    [intros [= <-]; reflexivity|].
  destruct (String.eqb (consensusAlgorithm (_common header)) "clique"); simpl.
  1: unfold throwIf at 1; destruct (_ >? _); simpl; [intros [= <-]; reflexivity|].
  all: destruct (String.eqb (consensusType (_common header)) "pow"); simpl.
  all: try (destruct (validateDifficulty header parent) as [[]|e'] eqn:Hd; simpl;
            [ | intros [= <-]; reflexivity
              | intros [= <-]; apply validateDifficulty_errors in Hd;
                destruct e'; simpl in *; congruence ]).
  all: destruct (validateGasLimit header parent) as [[]|e'] eqn:Hg; simpl;
       [ destruct height; simpl;
         [ destruct (negb _); simpl; [intros [= <-]; reflexivity|discriminate]
         | discriminate ]
       | intros [= <-]; reflexivity
       | intros [= <-]; apply validateGasLimit_errors in Hg; subst; reflexivity ].
Qed.

(** Every error of [validate] is an assertion of bn.js, an error of the
    first block, or an error of the later checks. *)
Lemma validate_errors (header : BlockHeader) (blockchain : Blockchain)
    (height : option Z) (e : Error) :
  validate header blockchain height = Throw e ->
  extraData_error e = true \/ later_error e = true.
Proof.
  intros Hv.
  destruct (isGenesis header) eqn:Hgen.
  { unfold validate in Hv. rewrite Hgen in Hv. discriminate. }
  destruct (_getHardfork header) as [h|e'] eqn:Hh.
  2: { unfold validate in Hv. rewrite Hgen, Hh in Hv. simpl in Hv.
       injection Hv as <-. unfold _getHardfork, BN_toNumber in Hh.
       repeat match type of Hh with
              | context [if ?b then _ else _] => destruct b
              end; simpl in Hh; try discriminate.
       injection Hh as <-. now left. }
  destruct (validate_extraData header h) as [[]|e'] eqn:He.
  - right. eapply validate_later_errors; eassumption.
  - left. unfold validate in Hv. rewrite Hgen, Hh in Hv. simpl in Hv.
    rewrite He in Hv. simpl in Hv. injection Hv as <-.
    eapply validate_extraData_errors; eassumption.
Qed.

(** C2, as the code has it. On a clique chain, [validate] of a header that
    is not the genesis rejects a header off an epoch transition unless its
    [extraData] has 97 bytes, rejects an epoch transition header unless
    [(len(extraData) - 97) mod 20 = 0] and the coinbase is the zero address,
    and rejects either kind unless [mixHash] is 32 zero bytes. *)
Theorem validate_clique_extraData (header : BlockHeader) (h : string)
    (blockchain : Blockchain) (height : option Z) :
  let c := _common header in
  let len := Buffer_length (extraData header) in
  consensusAlgorithm c = "clique"%string ->
  isGenesis header = false ->
  _getHardfork header = Ok h ->
  epoch (consensusConfig c) <> 0 ->
  let epochTransition := Z.rem (number header) (epoch (consensusConfig c)) = 0 in
  let wellFormed :=
    ((~ epochTransition /\ len = 97)
     \/ (epochTransition /\ (len - 97) mod 20 = 0
         /\ buf (coinbase header) = zeros 20))
    /\ mixHash header = zeros 32 in
  (~ epochTransition -> len <> 97 ->
   validate header blockchain height
   = Throw (InvalidCliqueExtraData 97 (List.length (extraData header))))
  /\ (epochTransition -> (len - 97) mod 20 <> 0 ->
      validate header blockchain height = Throw (InvalidCliqueSignerList (len - 97)))
  /\ (epochTransition -> (len - 97) mod 20 = 0 ->
      buf (coinbase header) <> zeros 20 ->
      validate header blockchain height = Throw InvalidCliqueCoinbase)
  /\ ((~ epochTransition /\ len = 97)
      \/ (epochTransition /\ (len - 97) mod 20 = 0
          /\ buf (coinbase header) = zeros 20) ->
      mixHash header <> zeros 32 ->
      validate header blockchain height = Throw InvalidCliqueMixHash)
  /\ (validate_extraData header h = Ok tt <-> wellFormed)
  /\ (wellFormed -> forall e,
        validate header blockchain height = Throw e ->
        clique_format_error e = false).
Proof.
  intros c len Hclique Hgen Hh Hepoch epochTransition wellFormed.
  pose proof (validate_extraData_clique header h Hclique Hepoch) as Hx.
  fold c in Hx. fold len in Hx. simpl in Hx.
  assert (Hval : forall e, validate_extraData header h = Throw e ->
                           validate header blockchain height = Throw e).
  { intros e He. unfold validate. rewrite Hgen, Hh. simpl. now rewrite He. }
  unfold wellFormed, epochTransition. rewrite <- !rem_20_mod.
  unfold Address_isZero in Hx.
  destruct (Z.eqb_spec (Z.rem (number header) (epoch (consensusConfig c))) 0)
    as [Het|Het];
    destruct (Z.eqb_spec len 97) as [Hlen|Hlen];
    destruct (Z.eqb_spec (Z.rem (len - 97) 20) 0) as [Hsig|Hsig];
    destruct (Buffer_equals_spec (buf (coinbase header)) (zeros 20)) as [Hcb|Hcb];
    destruct (Buffer_equals_spec (mixHash header) (zeros 32)) as [Hmix|Hmix];
    simpl in Hx;
    (split; [intros ? ?; try contradiction; apply Hval; exact Hx|]);
    (split; [intros ? ?; try contradiction; apply Hval; exact Hx|]);
    (split; [intros ? ? ?; try contradiction; apply Hval; exact Hx|]);
    (split; [intros [[? ?]|[? [? ?]]] ?; try contradiction; apply Hval; exact Hx|]);
    (split;
     [ rewrite Hx; split; [try discriminate; tauto | try reflexivity; tauto]
     | intros Hwf e He;
       first [ assert (later_error e = true)
                 by (eapply validate_later_errors; eassumption);
               destruct e; simpl in *; congruence
             | exfalso; tauto ] ]).
Qed.

(** An epoch transition header with two signers (block 60000 for an epoch
    of 30000 blocks, 137 bytes of extra data) passes the first block of
    [validate]. *)
Lemma validate_clique_extraData_witness :
  validate_extraData
    (Sample.cliqueHeader 60000 30 (zeros 137) Sample.zeroAddress (zeros 32))
    "istanbul"
  = Ok tt.
Proof.
  refine (proj2 (proj1 (proj2 (proj2 (proj2 (proj2 (validate_clique_extraData
    (Sample.cliqueHeader 60000 30 (zeros 137) Sample.zeroAddress (zeros 32))
    "istanbul"
    (Sample.blockchain
       (Sample.cliqueHeader 59999 15 (zeros 97) Sample.zeroAddress (zeros 32)))
    None _ _ _ _)))))) _).
  - reflexivity.
  - reflexivity.
  - reflexivity.
  - vm_compute; discriminate.
  - split; [right; repeat split|]; vm_compute; reflexivity.
Defined.

(** C2, the claim as stated, fails: a clique header off an epoch
    transition whose [extraData] has the required 97 bytes is rejected for
    its non-zero [mixHash], while the same header with a zero [mixHash] is
    accepted. *)
Lemma validate_clique_mixHash_counterexample :
  consensusAlgorithm (_common Sample.cliqueNonZeroMixHash) = "clique"%string
  /\ isGenesis Sample.cliqueNonZeroMixHash = false
  /\ cliqueIsEpochTransition Sample.cliqueNonZeroMixHash = Ok false
  /\ Buffer_length (extraData Sample.cliqueNonZeroMixHash) = 97
  /\ mixHash Sample.cliqueNonZeroMixHash <> zeros 32
  /\ validate Sample.cliqueNonZeroMixHash (Sample.blockchain Sample.cliqueParent) None
     = Throw InvalidCliqueMixHash
  /\ validate (Sample.cliqueHeader 2 30 (zeros 97) Sample.zeroAddress (zeros 32))
       (Sample.blockchain Sample.cliqueParent) None
     = Ok tt.
Proof.
  repeat split; try (vm_compute; reflexivity). vm_compute. discriminate.
Qed.

(** ** Construction: field widths and the DAO extra data *)

Lemma _validateHeaderFields_Ok (this : BlockHeader) :
  _validateHeaderFields this = Ok tt <->
  List.length (parentHash this) = 32%nat
  /\ List.length (stateRoot this) = 32%nat
  /\ List.length (transactionsTrie this) = 32%nat
  /\ List.length (receiptTrie this) = 32%nat
  /\ List.length (mixHash this) = 32%nat
  /\ List.length (nonce this) = 8%nat.
Proof.
  unfold _validateHeaderFields, throwIf.
  destruct (Nat.eqb_spec (List.length (parentHash this)) 32); simpl;
    [|split; [discriminate|tauto]].
  destruct (Nat.eqb_spec (List.length (stateRoot this)) 32); simpl;
    [|split; [discriminate|tauto]].
  destruct (Nat.eqb_spec (List.length (transactionsTrie this)) 32); simpl;
    [|split; [discriminate|tauto]].
  destruct (Nat.eqb_spec (List.length (receiptTrie this)) 32); simpl;
    [|split; [discriminate|tauto]].
  destruct (Nat.eqb_spec (List.length (mixHash this)) 32); simpl;
    [|split; [discriminate|tauto]].
  destruct (Nat.eqb_spec (List.length (nonce this)) 8); simpl;
    [|split; [discriminate|tauto]].
  tauto.
Qed.

(** An error of [_validateHeaderFields] names a field of the header, the
    width it must have and the different width it has. *)
Lemma _validateHeaderFields_Throw (this : BlockHeader) (e : Error) :
  _validateHeaderFields this = Throw e ->
  exists (field : string) (expected received : nat),
    e = InvalidFieldWidth field expected received
    /\ received <> expected
    /\ In (field, expected, received)
          [ ("parentHash"%string, 32%nat, List.length (parentHash this));
            ("stateRoot"%string, 32%nat, List.length (stateRoot this));
            ("transactionsTrie"%string, 32%nat, List.length (transactionsTrie this));
            ("receiptTrie"%string, 32%nat, List.length (receiptTrie this));
            ("mixHash"%string, 32%nat, List.length (mixHash this));
            ("nonce"%string, 8%nat, List.length (nonce this)) ].
Proof.
  unfold _validateHeaderFields, throwIf.
  destruct (Nat.eqb_spec (List.length (parentHash this)) 32); simpl.
  2: { intros [= <-]. do 3 eexists. split; [reflexivity|]. split; [eassumption|].
       simpl; tauto. }
  destruct (Nat.eqb_spec (List.length (stateRoot this)) 32); simpl.
  2: { intros [= <-]. do 3 eexists. split; [reflexivity|]. split; [eassumption|].
       simpl; tauto. }
  destruct (Nat.eqb_spec (List.length (transactionsTrie this)) 32); simpl.
  2: { intros [= <-]. do 3 eexists. split; [reflexivity|]. split; [eassumption|].
       simpl; tauto. }
  destruct (Nat.eqb_spec (List.length (receiptTrie this)) 32); simpl.
  2: { intros [= <-]. do 3 eexists. split; [reflexivity|]. split; [eassumption|].
       simpl; tauto. }
  destruct (Nat.eqb_spec (List.length (mixHash this)) 32); simpl.
  2: { intros [= <-]. do 3 eexists. split; [reflexivity|]. split; [eassumption|].
       simpl; tauto. }
  destruct (Nat.eqb_spec (List.length (nonce this)) 8); simpl.
  2: { intros [= <-]. do 3 eexists. split; [reflexivity|]. split; [eassumption|].
       simpl; tauto. }
  discriminate.
Qed.

Lemma DAO_ExtraData_ascii : DAO_ExtraData = Buffer_from_ascii "dao-hard-fork".
Proof. reflexivity. Qed.

(** [_checkDAOExtraData] raises its error exactly in the gated range, on
    extra data other than the marker, and returns otherwise. *)
Lemma _checkDAOExtraData_spec (this : BlockHeader) :
  let c := _common this in
  let gated :=
    hardforkIsActiveOnChain c "dao" = true
    /\ hardforkBlock c "dao" <= number this
    /\ number this - hardforkBlock c "dao" <= 9 in
  (gated /\ extraData this <> DAO_ExtraData ->
   _checkDAOExtraData this = Throw InvalidDAOExtraData)
  /\ (~ (gated /\ extraData this <> DAO_ExtraData) ->
      _checkDAOExtraData this = Ok tt).
Proof.
  intros c gated. unfold gated, c, _checkDAOExtraData, DAO_ForceExtraDataRange, throwIf.
  destruct (hardforkIsActiveOnChain (_common this) "dao");
    [|split; [intros [[? _] _]; discriminate|reflexivity]].
  destruct (Z.geb_spec (number this) (hardforkBlock (_common this) "dao"));
    [|split; [lia|reflexivity]].
  destruct (Z.leb_spec (number this - hardforkBlock (_common this) "dao") 9);
    [|split; [lia|reflexivity]].
  destruct (Buffer_equals_spec (extraData this) DAO_ExtraData); simpl.
  - split; [tauto|reflexivity].
  - split; [reflexivity|]. intros Hn. exfalso. apply Hn. repeat split; assumption.
Qed.

Section Constructor.

Variable Common_mainnet : option string -> Common.
Variables parentHash0 uncleHash0 : Buffer.
Variable coinbase0 : Address.
Variables stateRoot0 transactionsTrie0 receiptTrie0 bloom0 : Buffer.
Variables difficulty0 number0 gasLimit0 gasUsed0 timestamp0 : Z.
Variables extraData0 mixHash0 nonce0 : Buffer.
Variable options : BlockOptions.

Let assigned : result BlockHeader :=
  BlockHeader_assign Common_mainnet parentHash0 uncleHash0 coinbase0 stateRoot0
    transactionsTrie0 receiptTrie0 bloom0 difficulty0 number0 gasLimit0
    gasUsed0 timestamp0 extraData0 mixHash0 nonce0 options.

Let constructed : result BlockHeader :=
  BlockHeader_new Common_mainnet parentHash0 uncleHash0 coinbase0 stateRoot0
    transactionsTrie0 receiptTrie0 bloom0 difficulty0 number0 gasLimit0
    gasUsed0 timestamp0 extraData0 mixHash0 nonce0 options.

(** The fields that the assignment takes as supplied; with the genesis
    option, [stateRoot] and [nonce] are replaced only when they are the
    zero buffers of the right width. *)
Lemma BlockHeader_assign_fields (this : BlockHeader) :
  assigned = Ok this ->
  parentHash this = parentHash0
  /\ uncleHash this = uncleHash0
  /\ coinbase this = coinbase0
  /\ transactionsTrie this = transactionsTrie0
  /\ receiptTrie this = receiptTrie0
  /\ bloom this = bloom0
  /\ mixHash this = mixHash0
  /\ (List.length stateRoot0 <> 32%nat -> stateRoot this = stateRoot0)
  /\ (List.length nonce0 <> 8%nat -> nonce this = nonce0)
  /\ (initWithGenesisHeader options = false ->
      stateRoot this = stateRoot0 /\ nonce this = nonce0
      /\ number this = number0 /\ extraData this = extraData0
      /\ difficulty this = difficulty0 /\ gasLimit this = gasLimit0
      /\ gasUsed this = gasUsed0 /\ timestamp this = timestamp0).
Proof.
  unfold assigned, BlockHeader_assign.
  destruct (hardforkByBlockNumber options); simpl.
  1: destruct (BN_toNumber number0); simpl; [|discriminate].
  all: destruct (initWithGenesisHeader options); simpl.
  all: try (unfold throwIf; destruct (negb _); simpl; [discriminate|]).
  all: intros [= <-]; simpl; repeat split; try discriminate; intros Hw.
  all: try (rewrite Buffer_equals_length; [reflexivity|]).
  all: try (rewrite length_repeat; assumption).
  all: unfold zeros; rewrite repeat_length; assumption.
Qed.

Lemma BlockHeader_new_assigned (h : BlockHeader) :
  constructed = Ok h ->
  exists this,
    assigned = Ok this
    /\ _validateHeaderFields this = Ok tt
    /\ _checkDAOExtraData this = Ok tt
    /\ (h = this \/ exists d, h = set_difficulty d this).
Proof.
  unfold constructed, BlockHeader_new. fold assigned.
  destruct assigned as [this|]; simpl; [|discriminate].
  destruct (_validateHeaderFields this) as [[]|] eqn:Hv; simpl; [|discriminate].
  destruct (_checkDAOExtraData this) as [[]|] eqn:Hd; simpl; [|discriminate].
  destruct (calcDifficultyFromHeader options) as [p|].
  - destruct (canonicalDifficulty this p) as [d|]; simpl; [|discriminate].
    intros [= <-]. exists this. repeat split; try assumption. right. now exists d.
  - intros [= <-]. exists this. repeat split; try assumption. now left.
Qed.

(** C3, as the code has it. Construction rejects [parentHash],
    [stateRoot], [transactionsTrie], [receiptTrie] and [mixHash] supplied at a
    length other than 32 bytes and [nonce] at a length other than 8 bytes;
    once the fields are assigned the error is that of the width check,
    which names a field of wrong width; after a successful construction
    these six fields have their exact widths, and the coinbase, an
    [Address], has 20 bytes. The widths of [uncleHash] and [bloom] are not
    checked. *)
Theorem BlockHeader_new_field_widths :
  (List.length parentHash0 <> 32%nat
   \/ List.length stateRoot0 <> 32%nat
   \/ List.length transactionsTrie0 <> 32%nat
   \/ List.length receiptTrie0 <> 32%nat
   \/ List.length mixHash0 <> 32%nat
   \/ List.length nonce0 <> 8%nat ->
   (exists e, constructed = Throw e)
   /\ (forall this, assigned = Ok this ->
       exists (field : string) (expected received : nat),
         constructed = Throw (InvalidFieldWidth field expected received)
         /\ received <> expected
         /\ In (field, expected, received)
              [ ("parentHash"%string, 32%nat, List.length (parentHash this));
                ("stateRoot"%string, 32%nat, List.length (stateRoot this));
                ("transactionsTrie"%string, 32%nat,
                 List.length (transactionsTrie this));
                ("receiptTrie"%string, 32%nat, List.length (receiptTrie this));
                ("mixHash"%string, 32%nat, List.length (mixHash this));
                ("nonce"%string, 8%nat, List.length (nonce this)) ]))
  /\ (forall h, constructed = Ok h ->
      List.length (parentHash h) = 32%nat
      /\ List.length (stateRoot h) = 32%nat
      /\ List.length (transactionsTrie h) = 32%nat
      /\ List.length (receiptTrie h) = 32%nat
      /\ List.length (mixHash h) = 32%nat
      /\ List.length (nonce h) = 8%nat
      /\ List.length (buf (coinbase h)) = 20%nat).
Proof.
  split.
  - intros Hwrong.
    assert (Hthis : forall this, assigned = Ok this ->
              exists e, _validateHeaderFields this = Throw e).
    { intros this Ha.
      destruct (_validateHeaderFields this) as [[]|e] eqn:Hv; [|now exists e].
      exfalso. apply _validateHeaderFields_Ok in Hv.
      destruct (BlockHeader_assign_fields this Ha)
        as (Hp & _ & _ & Ht & Hr & _ & Hm & Hs & Hn & _).
      destruct Hv as (V1 & V2 & V3 & V4 & V5 & V6).
      destruct Hwrong as [W|[W|[W|[W|[W|W]]]]].
      + congruence.
      + rewrite (Hs W) in V2. contradiction.
      + congruence.
      + congruence.
      + congruence.
      + rewrite (Hn W) in V6. contradiction. }
    split.
    + unfold constructed, BlockHeader_new. fold assigned.
      destruct assigned as [this|e] eqn:Ha; simpl; [|now exists e].
      destruct (Hthis this eq_refl) as [e He]. rewrite He. simpl. now exists e.
    + intros this Ha. destruct (Hthis this Ha) as [e He].
      destruct (_validateHeaderFields_Throw this e He)
        as (f & n & m & -> & Hne & Hin).
      exists f, n, m. split; [|split; assumption].
      unfold constructed, BlockHeader_new. fold assigned.
      rewrite Ha. simpl. rewrite He. reflexivity.
  - intros h Hh.
    destruct (BlockHeader_new_assigned h Hh) as (this & Ha & Hv & _ & Heq).
    apply _validateHeaderFields_Ok in Hv.
    assert (Hw : List.length (buf (coinbase this)) = 20%nat) by apply buf_length.
    destruct Heq as [->|[d ->]]; simpl; tauto.
Qed.

(** C6. When the dao hardfork is active on the chain and the number of the
    header lies in the ten blocks from [hardforkBlock(dao)], construction
    (past the width check) fails with "extraData should be 'dao-hard-fork'"
    exactly when [extraData] is not the 13 ASCII bytes [dao-hard-fork];
    outside that range, or without the dao hardfork, the check accepts any
    [extraData]; the check is part of construction, and [validate] never
    raises its error. *)
Theorem checkDAOExtraData_gate (this : BlockHeader) :
  let c := _common this in
  let gated :=
    hardforkIsActiveOnChain c "dao" = true
    /\ hardforkBlock c "dao" <= number this
    /\ number this - hardforkBlock c "dao" <= 9 in
  assigned = Ok this ->
  _validateHeaderFields this = Ok tt ->
  (gated ->
   (constructed = Throw InvalidDAOExtraData
    <-> extraData this <> Buffer_from_ascii "dao-hard-fork"))
  /\ (~ gated ->
      _checkDAOExtraData this = Ok tt
      /\ constructed <> Throw InvalidDAOExtraData)
  /\ (initWithGenesisHeader options = false ->
      number this = number0 /\ extraData this = extraData0)
  /\ List.length (Buffer_from_ascii "dao-hard-fork") = 13%nat
  /\ (forall (header : BlockHeader) (blockchain : Blockchain) (height : option Z),
        validate header blockchain height <> Throw InvalidDAOExtraData).
Proof.
  intros c gated Ha Hv.
  destruct (_checkDAOExtraData_spec this) as [Hthrow Hok].
  fold c in Hthrow, Hok. fold gated in Hthrow, Hok.
  rewrite <- DAO_ExtraData_ascii.
  assert (Hnew : constructed
                 = bind (_checkDAOExtraData this) (fun _ =>
                     match calcDifficultyFromHeader options with
                     | Some p => bind (canonicalDifficulty this p)
                                   (fun d => Ok (set_difficulty d this))
                     | None => Ok this
                     end)).
  { unfold constructed, BlockHeader_new. fold assigned. rewrite Ha. simpl.
    rewrite Hv. reflexivity. }
  assert (Hrest : _checkDAOExtraData this = Ok tt ->
                  constructed <> Throw InvalidDAOExtraData).
  { intros Hc. rewrite Hnew, Hc. simpl.
    destruct (calcDifficultyFromHeader options) as [p|]; [|discriminate].
    destruct (canonicalDifficulty this p) as [d|e] eqn:Hd; simpl; [discriminate|].
    intros [= ->]. now apply canonicalDifficulty_errors in Hd. }
  split; [|split; [|split; [|split]]].
  - intros Hg. split.
    + intros Hc Heq. apply (Hrest (Hok ltac:(tauto))). exact Hc.
    + intros Hne. rewrite Hnew, (Hthrow (conj Hg Hne)). reflexivity.
  - intros Hng. assert (Hc : _checkDAOExtraData this = Ok tt) by (apply Hok; tauto).
    split; [exact Hc|now apply Hrest].
  - intros Hgen. destruct (BlockHeader_assign_fields this Ha)
      as (_ & _ & _ & _ & _ & _ & _ & _ & _ & Hf).
    destruct (Hf Hgen) as (_ & _ & Hn & He & _). now split.
  - reflexivity.
  - intros header blockchain height Hthrow'.
    apply validate_errors in Hthrow'. simpl in Hthrow'.
    destruct Hthrow'; discriminate.
Qed.

End Constructor.

(** A parent hash of 31 bytes is rejected; a header with fields of the
    right widths is built, and keeps them. *)
Lemma BlockHeader_new_field_widths_witness :
  (exists e,
     BlockHeader_new Sample.Common_mainnet (zeros 31) KECCAK256_RLP_ARRAY
       Sample.zeroAddress (zeros 32) KECCAK256_RLP KECCAK256_RLP (zeros 256)
       0 1 5000 0 0 [] (zeros 32) (zeros 8)
       (Sample.options (Sample.ethash "istanbul")) = Throw e)
  /\ List.length (nonce (Sample.header (Sample.ethash "istanbul") 0 1 5000 0 []))
     = 8%nat.
Proof.
  split.
  - refine (proj1 (proj1 (BlockHeader_new_field_widths Sample.Common_mainnet
      (zeros 31) KECCAK256_RLP_ARRAY Sample.zeroAddress (zeros 32) KECCAK256_RLP
      KECCAK256_RLP (zeros 256) 0 1 5000 0 0 [] (zeros 32) (zeros 8)
      (Sample.options (Sample.ethash "istanbul"))) _)).
    left. vm_compute. discriminate.
  - assert (Hok : BlockHeader_new Sample.Common_mainnet
             (zeros 32) KECCAK256_RLP_ARRAY Sample.zeroAddress (zeros 32)
             KECCAK256_RLP KECCAK256_RLP (zeros 256) 0 1 5000 0 0 []
             (zeros 32) (zeros 8) (Sample.options (Sample.ethash "istanbul"))
           = Ok (Sample.header (Sample.ethash "istanbul") 0 1 5000 0 []))
      by (vm_compute; reflexivity).
    pose proof (proj2 (BlockHeader_new_field_widths Sample.Common_mainnet
      (zeros 32) KECCAK256_RLP_ARRAY Sample.zeroAddress (zeros 32) KECCAK256_RLP
      KECCAK256_RLP (zeros 256) 0 1 5000 0 0 [] (zeros 32) (zeros 8)
      (Sample.options (Sample.ethash "istanbul")))
      (Sample.header (Sample.ethash "istanbul") 0 1 5000 0 []) Hok) as W.
    exact (proj1 (proj2 (proj2 (proj2 (proj2 (proj2 W)))))).
Defined.

(** C3, the claim as stated, fails: a header whose [uncleHash] and [bloom]
    are empty buffers is constructed. *)
Lemma BlockHeader_new_uncleHash_bloom_counterexample :
  exists h,
    BlockHeader_new Sample.Common_mainnet (zeros 32) [] Sample.zeroAddress
      (zeros 32) KECCAK256_RLP KECCAK256_RLP [] 0 1 5000 0 0 []
      (zeros 32) (zeros 8) (Sample.options (Sample.ethash "istanbul")) = Ok h
    /\ List.length (uncleHash h) = 0%nat
    /\ List.length (bloom h) = 0%nat.
Proof.
  eexists. split; [vm_compute; reflexivity|]. split; reflexivity.
Qed.

(** Block 1920005 of a chain whose dao hardfork is at block 1920000, with
    empty extra data, is not constructed. *)
Lemma checkDAOExtraData_gate_witness :
  BlockHeader_new Sample.Common_mainnet (zeros 32) KECCAK256_RLP_ARRAY
    Sample.zeroAddress (zeros 32) KECCAK256_RLP KECCAK256_RLP (zeros 256)
    0 1920005 5000 0 0 [] (zeros 32) (zeros 8)
    (Sample.options (Sample.ethash "istanbul"))
  = Throw InvalidDAOExtraData.
Proof.
  refine (proj2 (proj1 (checkDAOExtraData_gate Sample.Common_mainnet
    (zeros 32) KECCAK256_RLP_ARRAY Sample.zeroAddress (zeros 32) KECCAK256_RLP
    KECCAK256_RLP (zeros 256) 0 1920005 5000 0 0 [] (zeros 32) (zeros 8)
    (Sample.options (Sample.ethash "istanbul"))
    (Sample.header (Sample.ethash "istanbul") 0 1920005 5000 0 []) _ _) _) _).
  - vm_compute. reflexivity.
  - vm_compute. reflexivity.
  - repeat split; vm_compute; congruence.
  - vm_compute. discriminate.
Defined.

(** ** The RLPx server *)

Section Server.

Import RlpxServer.






(** The handlers keep the peer map keyed by peer id. *)
Lemma keyed_by_id_empty : keyed_by_id ∅.
Proof. intros k p H. rewrite lookup_empty in H. discriminate. Qed.

Lemma keyed_by_id_insert (m : gmap string RlpxPeer) (p : RlpxPeer) :
  keyed_by_id m -> keyed_by_id (<[id p := p]> m).
Proof.
  intros Hm k q. destruct (decide (id p = k)) as [<-|Hne].
  - rewrite lookup_insert_eq. now intros [= <-].
  - rewrite lookup_insert_ne by assumption. apply Hm.
Qed.

Lemma keyed_by_id_delete (m : gmap string RlpxPeer) (k : string) :
  keyed_by_id m -> keyed_by_id (delete k m).
Proof.
  intros Hm k' q. destruct (decide (k = k')) as [<-|Hne].
  - rewrite lookup_delete_eq. discriminate.
  - rewrite lookup_delete_ne by assumption. apply Hm.
Qed.

Lemma on_peer_removed_keyed (s : Server) (rlpxPeer : Devp2pRLPxPeer) (reason : Z) :
  keyed_by_id (peers s) ->
  keyed_by_id (peers (snd (fst (on_peer_removed rlpxPeer reason s)))).
Proof.
  intros Hk. unfold on_peer_removed.
  destruct (getId rlpxPeer) as [peerId|]; [|exact Hk].
  unfold mbind, get. simpl.
  destruct (peers s !! toString_hex peerId) as [peer|]; simpl; [|exact Hk].
  now apply keyed_by_id_delete.
Qed.

Lemma on_peer_added_keyed (accept : RlpxPeer -> Devp2pRLPxPeer -> M unit)
    (s : Server) (rlpxPeer : Devp2pRLPxPeer) :
  (forall p s0, keyed_by_id (peers s0) ->
                keyed_by_id (peers (snd (fst (accept p rlpxPeer s0))))) ->
  keyed_by_id (peers s) ->
  keyed_by_id (peers (snd (fst (on_peer_added accept rlpxPeer s)))).
Proof.
  intros Haccept Hk. unfold on_peer_added.
  destruct (getId rlpxPeer) as [peerId|]; [|exact Hk].
  set (peer := {| id := toString_hex peerId; host := remoteAddress rlpxPeer;
                  port := remotePort rlpxPeer; inbound := socket_server rlpxPeer |}).
  specialize (Haccept peer s Hk).
  destruct (accept peer rlpxPeer s) as [[[[]|e] s1] t1]; simpl in *.
  - now apply (keyed_by_id_insert (peers s1) peer).
  - unfold error. destruct (RegExp_test ignoredErrors (message e)); exact Haccept.
Qed.

(** C9, as the code has it. On [peer:removed], when the hex id of the
    session is in the peer map, its record is removed from the map and a
    [disconnected] event is emitted that carries the record (the reason goes
    to the debug log only); when the id is not in the map, the map is left
    as it is and nothing is emitted. *)
Theorem on_peer_removed_registry (s : Server) (rlpxPeer : Devp2pRLPxPeer)
    (peerId : Buffer) (reason : Z) :
  getId rlpxPeer = Some peerId ->
  keyed_by_id (peers s) ->
  let k := toString_hex peerId in
  (forall peer, peers s !! k = Some peer ->
     on_peer_removed rlpxPeer reason s
     = (Returned tt, set_peers (delete k (peers s)) s,
        [ LoggerDebug (PeerDisconnected reason peer);
          ServerEmit "disconnected" [VPeer peer] ])
     /\ delete k (peers s) !! k = None
     /\ (forall k', k' <> k -> delete k (peers s) !! k' = peers s !! k'))
  /\ (peers s !! k = None -> on_peer_removed rlpxPeer reason s = (Returned tt, s, [])).
Proof.
  intros Hid Hkeyed k. unfold on_peer_removed. rewrite Hid. fold k.
  unfold mbind, get. split.
  - intros peer Hp. rewrite Hp. simpl. rewrite (Hkeyed k peer Hp).
    split; [reflexivity|]. split.
    + apply lookup_delete_eq.
    + intros k' Hne. now apply lookup_delete_ne.
  - intros Hnone. rewrite Hnone. reflexivity.
Qed.

(** C10. [stop()] resolves to false on every call: on a server that is
    not started it returns false and does nothing; on a started server it
    destroys the rlpx and dpt instances, calls [stop] of the base class,
    clears [started] and returns the cleared flag; it never resolves to
    true. *)
Theorem stop_resolves_false (Server_stop : M bool) (s : Server) :
  (started s = false -> stop Server_stop s = (Returned false, s, []))
  /\ (forall (r : Buffer) (d : unit) (b : bool) (s1 : Server) (t1 : list Effect),
        started s = true -> rlpx s = Some r -> dpt s = Some d ->
        Server_stop s = (Returned b, s1, t1) ->
        stop Server_stop s
        = (Returned false, set_started false s1, [RlpxDestroy; DptDestroy] ++ t1))
  /\ (forall (b : bool) (s' : Server) (t : list Effect),
        stop Server_stop s = (Returned b, s', t) -> b = false /\ started s' = false).
Proof.
  unfold stop, mbind, get, put, effect, throw, ret. split; [|split].
  - intros Hs. rewrite Hs. simpl. rewrite Hs. reflexivity.
  - intros r d b s1 t1 Hs Hr Hd Hstop. rewrite Hs, Hr, Hd. simpl.
    rewrite Hstop. simpl. now rewrite !app_nil_r.
  - intros b s' t. destruct (started s) eqn:Hs; simpl.
    + destruct (rlpx s); simpl; [|discriminate].
      destruct (dpt s); simpl; [|discriminate].
      destruct (Server_stop s) as [[[b'|e] s1] t1]; simpl; [|discriminate].
      intros [= <- <- _]. split; reflexivity.
    + rewrite Hs. intros [= <- <- _]. split; [reflexivity|assumption].
Qed.

End Server.


(** The session of the one peer of the sample server is removed. *)
Lemma on_peer_removed_registry_witness :
  RlpxServer.on_peer_removed Sample.session_ab 16 (Sample.server true)
  = (RlpxServer.Returned tt,
     RlpxServer.set_peers (delete "ab"%string (RlpxServer.peers (Sample.server true)))
       (Sample.server true),
     [ RlpxServer.LoggerDebug (RlpxServer.PeerDisconnected 16 Sample.peer_ab);
       RlpxServer.ServerEmit "disconnected" [RlpxServer.VPeer Sample.peer_ab] ]).
Proof.
  refine (proj1 (proj1 (on_peer_removed_registry (Sample.server true)
    Sample.session_ab [xab] 16 _ _) Sample.peer_ab _)).
  - reflexivity.
  - intros k p. simpl. intros H.
    apply lookup_singleton_Some in H as [<- <-]. reflexivity.
  - reflexivity.
Defined.

(** C9, the claim as stated, fails: the [disconnected] event of the removal
    above carries the record and not the reason, which is 16. *)
Lemma on_peer_removed_reason_counterexample :
  snd (RlpxServer.on_peer_removed Sample.session_ab 16 (Sample.server true))
  = [ RlpxServer.LoggerDebug (RlpxServer.PeerDisconnected 16 Sample.peer_ab);
      RlpxServer.ServerEmit "disconnected" [RlpxServer.VPeer Sample.peer_ab] ]
  /\ forall args,
       In (RlpxServer.ServerEmit "disconnected" args)
          (snd (RlpxServer.on_peer_removed Sample.session_ab 16 (Sample.server true))) ->
       ~ In (RlpxServer.VReason 16) args.
Proof.
  assert (H : snd (RlpxServer.on_peer_removed Sample.session_ab 16 (Sample.server true))
              = [ RlpxServer.LoggerDebug (RlpxServer.PeerDisconnected 16 Sample.peer_ab);
                  RlpxServer.ServerEmit "disconnected"
                    [RlpxServer.VPeer Sample.peer_ab] ])
    by reflexivity.
  split; [exact H|].
  intros args Hin. rewrite H in Hin.
  destruct Hin as [Hin|[Hin|[]]]; [discriminate|].
  injection Hin as <-. intros [Hr|[]]. discriminate.
Qed.

(** A started server with both instances stops, and [stop] returns false. *)
Lemma stop_resolves_false_witness :
  RlpxServer.stop Sample.Server_stop (Sample.server true)
  = (RlpxServer.Returned false, Sample.server false,
     [RlpxServer.RlpxDestroy; RlpxServer.DptDestroy])
  /\ RlpxServer.stop Sample.Server_stop (Sample.server false)
     = (RlpxServer.Returned false, Sample.server false, []).
Proof.
  split.
  - refine (proj1 (proj2 (stop_resolves_false Sample.Server_stop (Sample.server true)))
              (zeros 64) tt true (Sample.server false) [] _ _ _ _);
      reflexivity.
  - refine (proj1 (stop_resolves_false Sample.Server_stop (Sample.server false)) _).
    reflexivity.
Defined.

(** ** Big-endian bytes *)

Lemma byte_to_N_to_Z_range (x : byte) : 0 <= Z.of_N (Byte.to_N x) < 256.
Proof. pose proof (Byte.to_N_bounded x). lia. Qed.

Lemma byte_of_N_mod (n : Z) :
  0 <= n -> exists b, Byte.of_N (Z.to_N (n mod 256)) = Some b
                      /\ Z.of_N (Byte.to_N b) = n mod 256.
Proof.
  intros Hn.
  assert (Hr : 0 <= n mod 256 < 256) by (apply Z.mod_pos_bound; lia).
  pose proof (Byte.to_of_N_option_map (Z.to_N (n mod 256))) as H.
  destruct (N.leb_spec (Z.to_N (n mod 256)) 255) as [_|Hgt]; [|lia].
  destruct (Byte.of_N (Z.to_N (n mod 256))) as [b|]; [|discriminate].
  exists b. split; [reflexivity|]. injection H as H. rewrite H. lia.
Qed.

Lemma BN_fromBuffer_acc (b : Buffer) (acc : Z) :
  fold_left (fun a x => a * 256 + Z.of_N (Byte.to_N x)) b acc
  = acc * 256 ^ Buffer_length b + BN_fromBuffer b.
Proof.
  unfold BN_fromBuffer, Buffer_length. revert acc.
  induction b as [|x b IH]; intros acc; simpl List.length; simpl fold_left.
  - simpl. lia.
  - rewrite IH. rewrite (IH (0 * 256 + _)).
    rewrite Nat2Z.inj_succ, Z.pow_succ_r by lia. lia.
Qed.

Lemma BN_fromBuffer_cons (x : byte) (b : Buffer) :
  BN_fromBuffer (x :: b)
  = Z.of_N (Byte.to_N x) * 256 ^ Buffer_length b + BN_fromBuffer b.
Proof.
  unfold BN_fromBuffer at 1. simpl fold_left. apply BN_fromBuffer_acc.
Qed.

Lemma BN_fromBuffer_app (a b : Buffer) :
  BN_fromBuffer (a ++ b)
  = BN_fromBuffer a * 256 ^ Buffer_length b + BN_fromBuffer b.
Proof.
  unfold BN_fromBuffer at 1. rewrite fold_left_app.
  fold (BN_fromBuffer a). apply BN_fromBuffer_acc.
Qed.

Lemma be_bytes_pos_acc (fuel : nat) (n : Z) (acc : Buffer) :
  be_bytes_pos fuel n acc = be_bytes_pos fuel n [] ++ acc.
Proof.
  revert n acc. induction fuel as [|fuel IH]; intros n acc; simpl; [reflexivity|].
  destruct (n <=? 0); [reflexivity|].
  destruct (Byte.of_N (Z.to_N (n mod 256))) as [b|]; [|reflexivity].
  rewrite (IH _ (b :: acc)), (IH _ [b]). now rewrite <- app_assoc.
Qed.

Lemma be_bytes_pos_step (fuel : nat) (n : Z) :
  0 < n ->
  exists b, Z.of_N (Byte.to_N b) = n mod 256
            /\ be_bytes_pos (S fuel) n [] = be_bytes_pos fuel (n / 256) [] ++ [b].
Proof.
  intros Hn. simpl. destruct (Z.leb_spec n 0); [lia|].
  destruct (byte_of_N_mod n) as (b & Hb & Hv); [lia|].
  rewrite Hb. exists b. split; [assumption|]. apply be_bytes_pos_acc.
Qed.

Lemma be_bytes_pos_zero (fuel : nat) (n : Z) : n <= 0 -> be_bytes_pos fuel n [] = [].
Proof.
  intros Hn. destruct fuel; simpl; [reflexivity|].
  destruct (Z.leb_spec n 0); [reflexivity|lia].
Qed.

Lemma BN_fromBuffer_be_bytes_pos (fuel : nat) (n : Z) :
  0 <= n < 2 ^ Z.of_nat fuel -> BN_fromBuffer (be_bytes_pos fuel n []) = n.
Proof.
  revert n. induction fuel as [|fuel IH]; intros n Hn.
  - simpl in *. assert (n = 0) by lia. subst. reflexivity.
  - destruct (Z.eq_dec n 0) as [->|Hne]; [reflexivity|].
    destruct (be_bytes_pos_step fuel n) as (b & Hb & ->); [lia|].
    rewrite BN_fromBuffer_app, IH.
    + unfold Buffer_length. simpl List.length.
      rewrite BN_fromBuffer_cons. unfold Buffer_length. simpl List.length.
      rewrite Hb. change (BN_fromBuffer []) with 0.
      pose proof (Z.div_mod n 256). lia.
    + rewrite Nat2Z.inj_succ, Z.pow_succ_r in Hn by lia.
      split; [apply Z.div_pos; lia|].
      apply Z.div_lt_upper_bound; lia.
Qed.

(** The most significant byte is not zero. *)
Lemma be_bytes_pos_head (fuel : nat) (n : Z) :
  0 < n < 2 ^ Z.of_nat fuel ->
  exists x rest, be_bytes_pos fuel n [] = x :: rest /\ x <> x00.
Proof.
  revert n. induction fuel as [|fuel IH]; intros n Hn.
  - simpl in Hn. lia.
  - destruct (be_bytes_pos_step fuel n) as (b & Hb & ->); [lia|].
    destruct (Z.eq_dec (n / 256) 0) as [Hz|Hnz].
    + rewrite be_bytes_pos_zero by lia. exists b, []. split; [reflexivity|].
      intros ->. simpl in Hb.
      pose proof (Z.div_mod n 256). lia.
    + destruct (IH (n / 256)) as (x & rest & -> & Hx).
      * rewrite Nat2Z.inj_succ, Z.pow_succ_r in Hn by lia.
        assert (0 <= n / 256) by (apply Z.div_pos; lia).
        split; [lia|]. apply Z.div_lt_upper_bound; lia.
      * exists x, (rest ++ [b]). split; [reflexivity|assumption].
Qed.

Lemma be_bytes_pos_length (fuel : nat) (n : Z) (k : nat) :
  0 <= n < 256 ^ Z.of_nat k -> (List.length (be_bytes_pos fuel n []) <= k)%nat.
Proof.
  revert n k. induction fuel as [|fuel IH]; intros n k Hn; [simpl; lia|].
  destruct (Z.eq_dec n 0) as [->|Hne]; [simpl; lia|].
  destruct (be_bytes_pos_step fuel n) as (b & Hb & ->); [lia|].
  rewrite length_app. simpl.
  destruct k as [|k]; [simpl in Hn; lia|].
  assert ((List.length (be_bytes_pos fuel (n / 256) []) <= k)%nat); [|lia].
  apply IH. rewrite Nat2Z.inj_succ, Z.pow_succ_r in Hn by lia.
  split; [apply Z.div_pos; lia|]. apply Z.div_lt_upper_bound; lia.
Qed.

Lemma BN_toBuffer_pos (n : Z) :
  0 < n -> BN_toBuffer n = be_bytes_pos (S (Z.to_nat (Z.log2 n))) n []
           /\ n < 2 ^ Z.of_nat (S (Z.to_nat (Z.log2 n))).
Proof.
  intros Hn. unfold BN_toBuffer. rewrite Z.abs_eq by lia.
  destruct (Z.eqb_spec n 0); [lia|]. split; [reflexivity|].
  pose proof (Z.log2_nonneg n). rewrite Nat2Z.inj_succ, Z2Nat.id by lia.
  apply Z.log2_spec. lia.
Qed.

Lemma BN_fromBuffer_toBuffer (n : Z) : 0 <= n -> BN_fromBuffer (BN_toBuffer n) = n.
Proof.
  intros Hn. destruct (Z.eq_dec n 0) as [->|Hne]; [reflexivity|].
  destruct (BN_toBuffer_pos n) as [-> Hlt]; [lia|].
  apply BN_fromBuffer_be_bytes_pos. lia.
Qed.

Lemma BN_toBuffer_head (n : Z) :
  0 < n -> exists x rest, BN_toBuffer n = x :: rest /\ x <> x00.
Proof.
  intros Hn. destruct (BN_toBuffer_pos n) as [-> Hlt]; [lia|].
  apply be_bytes_pos_head. lia.
Qed.

Lemma BN_toBuffer_length (n : Z) (k : nat) :
  0 < n < 256 ^ Z.of_nat k -> (1 <= List.length (BN_toBuffer n) <= k)%nat.
Proof.
  intros Hn. split.
  - destruct (BN_toBuffer_head n) as (x & rest & -> & _); [lia|]. simpl. lia.
  - destruct (BN_toBuffer_pos n) as [-> _]; [lia|].
    apply be_bytes_pos_length. lia.
Qed.

Lemma unpadBuffer_head (x : byte) (rest : Buffer) :
  x <> x00 -> unpadBuffer (x :: rest) = x :: rest.
Proof.
  intros Hx. simpl. destruct (Byte.eqb x x00) eqn:E; [|reflexivity].
  apply Byte.byte_dec_bl in E. contradiction.
Qed.

(** Numeric fields of [raw]: minimal big-endian. *)
Lemma unpadBuffer_BN_toBuffer (n : Z) :
  0 <= n ->
  let b := unpadBuffer (BN_toBuffer n) in
  BN_fromBuffer b = n
  /\ (n = 0 -> b = [])
  /\ (forall x rest, b = x :: rest -> x <> x00).
Proof.
  intros Hn b. unfold b. destruct (Z.eq_dec n 0) as [->|Hne].
  - simpl. repeat split; try reflexivity. intros x rest [=].
  - destruct (BN_toBuffer_head n) as (x & rest & Hb & Hx); [lia|].
    rewrite Hb, unpadBuffer_head by assumption. rewrite <- Hb.
    split; [now apply BN_fromBuffer_toBuffer|].
    split; [intros; contradiction|].
    rewrite Hb. intros x' rest' [= <- <-]. assumption.
Qed.

(** ** Slices *)

Lemma Buffer_length_app (a b : Buffer) :
  Buffer_length (a ++ b) = Buffer_length a + Buffer_length b.
Proof. unfold Buffer_length. rewrite length_app. lia. Qed.

Lemma Buffer_length_nonneg (a : Buffer) : 0 <= Buffer_length a.
Proof. unfold Buffer_length. lia. Qed.

Lemma Buffer_slice_middle (a b c : Buffer) (i j : Z) :
  i = Buffer_length a -> j = Buffer_length a + Buffer_length b ->
  Buffer_slice (a ++ b ++ c) i j = b.
Proof.
  intros -> ->. unfold Buffer_slice, slice_index, Buffer_length.
  rewrite !length_app, !Nat2Z.inj_add.
  destruct (Z.ltb_spec (Z.of_nat (List.length a)) 0); [lia|].
  destruct (Z.ltb_spec (Z.of_nat (List.length a) + Z.of_nat (List.length b)) 0);
    [lia|].
  rewrite !Z.min_l by lia.
  replace (Z.of_nat (List.length a) + Z.of_nat (List.length b)
           - Z.of_nat (List.length a))
    with (Z.of_nat (List.length b)) by lia.
  rewrite !Nat2Z.id.
  rewrite drop_app_length. apply take_app_length.
Qed.

Lemma slice_from_app (a b : Buffer) (i : Z) :
  i = Buffer_length a -> rlp.slice_from (a ++ b) i = b.
Proof.
  intros ->. unfold rlp.slice_from.
  transitivity (Buffer_slice (a ++ b ++ []) (Buffer_length a)
                  (Buffer_length a + Buffer_length b)).
  - rewrite app_nil_r. f_equal. apply Buffer_length_app.
  - now apply Buffer_slice_middle.
Qed.

Lemma Buffer_slice_of_app (input a b c : Buffer) (i j : Z) :
  input = a ++ b ++ c ->
  i = Buffer_length a -> j = Buffer_length a + Buffer_length b ->
  Buffer_slice input i j = b.
Proof. intros ->. apply Buffer_slice_middle. Qed.

Lemma slice_from_of_app (input a b : Buffer) (i : Z) :
  input = a ++ b -> i = Buffer_length a -> rlp.slice_from input i = b.
Proof. intros ->. apply slice_from_app. Qed.

Ltac len_solve :=
  repeat match goal with x := _ |- _ => subst x end;
  repeat rewrite Buffer_length_app in *;
  unfold Buffer_length in *; simpl List.length in *;
  repeat rewrite length_app in *; simpl List.length in *; lia.

Ltac list_solve :=
  first [ reflexivity
        | rewrite <- ?app_assoc; simpl; rewrite ?app_nil_r; reflexivity ].

(** [slice a b c]: the slice of [a ++ b ++ c] in the goal that is [b]. *)
Ltac slice a b c :=
  match goal with
  | |- context [Buffer_slice ?input ?i ?j] =>
      rewrite (Buffer_slice_of_app input a b c i j)
        by first [list_solve | len_solve]
  end.

Ltac slice_from a b :=
  match goal with
  | |- context [rlp.slice_from ?input ?i] =>
      rewrite (slice_from_of_app input a b i) by first [list_solve | len_solve]
  end.

(** ** The RLP codec on byte strings *)

Lemma byte_to_Z_of_Z (n : Z) : 0 <= n <= 255 -> rlp.byte_to_Z (rlp.byte_of_Z n) = n.
Proof.
  intros Hn. unfold rlp.byte_to_Z, rlp.byte_of_Z.
  pose proof (Byte.to_of_N_option_map (Z.to_N n)) as H.
  destruct (N.leb_spec (Z.to_N n) 255); [|lia].
  destruct (Byte.of_N (Z.to_N n)) as [b|]; [|discriminate].
  injection H as ->. lia.
Qed.

(** The prefix that [encodeLength(len, offset)] produces for a buffer of
    [len < 2^64] bytes: one byte below 56, else a byte and the big-endian
    length on one to eight bytes without a leading zero. *)
Lemma encodeLength_cases (len offset : Z) :
  0 <= len < 2 ^ 64 -> 0 <= offset <= 192 ->
  (len < 56 /\ rlp.encodeLength len offset = [rlp.byte_of_Z (len + offset)])
  \/ (56 <= len
      /\ exists x rest,
           BN_toBuffer len = x :: rest /\ x <> x00
           /\ 1 <= Buffer_length (x :: rest) <= 8
           /\ BN_fromBuffer (x :: rest) = len
           /\ rlp.encodeLength len offset
              = rlp.byte_of_Z (offset + 55 + Buffer_length (x :: rest)) :: x :: rest).
Proof.
  intros Hlen Hoff. unfold rlp.encodeLength.
  destruct (Z.ltb_spec len 56); [left; now split|right].
  split; [assumption|].
  destruct (BN_toBuffer_head len) as (x & rest & Hb & Hx); [lia|].
  pose proof (BN_toBuffer_length len 8) as Hl.
  pose proof (BN_fromBuffer_toBuffer len) as Hv.
  rewrite Hb in *. exists x, rest.
  split; [reflexivity|]. split; [assumption|].
  split; [unfold Buffer_length; change (256 ^ Z.of_nat 8) with (2 ^ 64) in Hl; lia|].
  split; [apply Hv; lia|reflexivity].
Qed.

Lemma _decode_unfold (fuel : nat) (first : byte) (tl : Buffer) :
  rlp._decode (S fuel) (first :: tl)
  = let input := first :: tl in
    let firstByte := rlp.byte_to_Z first in
    if firstByte <=? 127 then
      Ok (rlp.Bytes (Buffer_slice input 0 1), rlp.slice_from input 1)
    else if firstByte <=? 183 then
      let length := firstByte - 127 in
      let data :=
        if firstByte =? 128 then [] else Buffer_slice input 1 length in
      throwIf ((length =? 2) &&
               match data with
               | d0 :: _ => rlp.byte_to_Z d0 <? 128
               | [] => false
               end) InvalidRLP ;;!
      Ok (rlp.Bytes data, rlp.slice_from input length)
    else if firstByte <=? 191 then
      let llength := firstByte - 182 in
      length <-! rlp.safeParseInt (Buffer_slice input 1 llength) ;;
      let data := Buffer_slice input llength (length + llength) in
      throwIf (Buffer_length data <? length) InvalidRLP ;;!
      Ok (rlp.Bytes data, rlp.slice_from input (length + llength))
    else if firstByte <=? 247 then
      let length := firstByte - 191 in
      let innerRemainder := Buffer_slice input 1 length in
      decoded <-! rlp.decode_items (rlp._decode fuel) (List.length innerRemainder)
                    innerRemainder ;;
      Ok (rlp.Items decoded, rlp.slice_from input length)
    else
      let llength := firstByte - 246 in
      length <-! rlp.safeParseInt (Buffer_slice input 1 llength) ;;
      let totalLength := llength + length in
      throwIf (totalLength >? Buffer_length input) InvalidRLP ;;!
      let innerRemainder := Buffer_slice input llength totalLength in
      throwIf (Buffer_length innerRemainder =? 0) InvalidRLP ;;!
      decoded <-! rlp.decode_items (rlp._decode fuel) (List.length innerRemainder)
                    innerRemainder ;;
      Ok (rlp.Items decoded, rlp.slice_from input totalLength).
Proof. reflexivity. Qed.

Lemma safeParseInt_head (x : byte) (rest : Buffer) :
  x <> x00 -> rlp.safeParseInt (x :: rest) = Ok (BN_fromBuffer (x :: rest)).
Proof. intros Hx. destruct x; try reflexivity. contradiction. Qed.

(** Decoding the encoding of a byte string gives it back, with what
    follows it as the remainder. *)
Lemma _decode_encode_Bytes (fuel : nat) (b rest : Buffer) :
  Buffer_length b < 2 ^ 64 ->
  rlp._decode (S fuel) (rlp.encode (rlp.Bytes b) ++ rest) = Ok (rlp.Bytes b, rest).
Proof.
  intros Hlen. pose proof (Buffer_length_nonneg b) as Hpos.
  assert (Hsingle : forall x, 128 <= rlp.byte_to_Z x ->
            rlp._decode (S fuel) ((rlp.encodeLength 1 128 ++ [x]) ++ rest)
            = Ok (rlp.Bytes [x], rest)).
  { intros x Hx. change (rlp.encodeLength 1 128) with [rlp.byte_of_Z 129].
    change (([rlp.byte_of_Z 129] ++ [x]) ++ rest)
      with (rlp.byte_of_Z 129 :: [x] ++ rest).
    rewrite _decode_unfold. cbv zeta.
    rewrite byte_to_Z_of_Z by lia.
    change (129 <=? 127) with false. change (129 <=? 183) with true.
    change (129 =? 128) with false. cbv iota.
    change (129 - 127) with 2.
    slice [rlp.byte_of_Z 129] [x] rest.
    change (2 =? 2) with true.
    destruct (Z.ltb_spec (rlp.byte_to_Z x) 128); [lia|]. simpl throwIf.
    simpl bind.
    slice_from [rlp.byte_of_Z 129; x] rest.
    reflexivity. }
  assert (Hgeneral :
    (forall x, b <> [x]) ->
    rlp._decode (S fuel) ((rlp.encodeLength (Buffer_length b) 128 ++ b) ++ rest)
    = Ok (rlp.Bytes b, rest)).
  { intros Hns.
    destruct (encodeLength_cases (Buffer_length b) 128)
      as [[Hshort ->]|(Hlong & x & tl & Hb & Hx & Hll & Hv & ->)]; [lia|lia| |].
    - change (([rlp.byte_of_Z (Buffer_length b + 128)] ++ b) ++ rest)
        with (rlp.byte_of_Z (Buffer_length b + 128) :: b ++ rest).
      rewrite _decode_unfold. cbv zeta.
      rewrite byte_to_Z_of_Z by lia.
      destruct (Z.leb_spec (Buffer_length b + 128) 127); [lia|].
      destruct (Z.leb_spec (Buffer_length b + 128) 183); [|lia].
      assert (Hdata :
        (if Buffer_length b + 128 =? 128 then []
         else Buffer_slice (rlp.byte_of_Z (Buffer_length b + 128) :: b ++ rest) 1
                (Buffer_length b + 128 - 127)) = b).
      { destruct (Z.eqb_spec (Buffer_length b + 128) 128).
        - destruct b; [reflexivity|len_solve].
        - slice [rlp.byte_of_Z (Buffer_length b + 128)] b rest. reflexivity. }
      rewrite Hdata.
      assert (Hchk : (Buffer_length b + 128 - 127 =? 2) = false).
      { apply Z.eqb_neq. intros E.
        destruct b as [|y [|z b']]; [len_solve|now apply (Hns y)|len_solve]. }
      rewrite Hchk. simpl throwIf. simpl bind.
      slice_from (rlp.byte_of_Z (Buffer_length b + 128) :: b) rest.
      reflexivity.
    - set (ll := Buffer_length (x :: tl)) in *.
      change (((rlp.byte_of_Z (128 + 55 + ll) :: x :: tl) ++ b) ++ rest)
        with (rlp.byte_of_Z (128 + 55 + ll) :: ((x :: tl) ++ b) ++ rest).
      rewrite _decode_unfold. cbv zeta.
      rewrite byte_to_Z_of_Z by lia.
      destruct (Z.leb_spec (128 + 55 + ll) 127); [lia|].
      destruct (Z.leb_spec (128 + 55 + ll) 183); [lia|].
      destruct (Z.leb_spec (128 + 55 + ll) 191); [|lia].
      slice [rlp.byte_of_Z (128 + 55 + ll)] (x :: tl) (b ++ rest).
      rewrite safeParseInt_head by assumption. rewrite Hv. simpl bind.
      slice (rlp.byte_of_Z (128 + 55 + ll) :: x :: tl) b rest.
      destruct (Z.ltb_spec (Buffer_length b) (Buffer_length b)); [lia|].
      simpl throwIf. simpl bind.
      slice_from ((rlp.byte_of_Z (128 + 55 + ll) :: x :: tl) ++ b) rest.
      reflexivity. }
  destruct b as [|x [|y b']].
  - apply Hgeneral. discriminate.
  - simpl rlp.encode. destruct (Z.ltb_spec (rlp.byte_to_Z x) 128).
    + change ([x] ++ rest) with (x :: rest). rewrite _decode_unfold. cbv zeta.
      destruct (Z.leb_spec (rlp.byte_to_Z x) 127); [|lia].
      slice (@nil byte) [x] rest.
      slice_from [x] rest. reflexivity.
    + now apply Hsingle.
  - apply Hgeneral. discriminate.
Qed.

(** The encoding of a byte string is not empty. *)
Lemma encode_Bytes_nonempty (b : Buffer) : rlp.encode (rlp.Bytes b) <> [].
Proof.
  assert (H : forall len off, rlp.encodeLength len off <> []).
  { intros len off. unfold rlp.encodeLength. destruct (len <? 56); discriminate. }
  destruct b as [|x [|y b']]; cbn [rlp.encode].
  - intros E. apply app_eq_nil in E as [E _]. now apply H in E.
  - destruct (rlp.byte_to_Z x <? 128); [discriminate|].
    intros E. apply app_eq_nil in E as [E _]. now apply H in E.
  - intros E. apply app_eq_nil in E as [E _]. now apply H in E.
Qed.

Lemma payload_cons (b : Buffer) (values : list Buffer) :
  payload (b :: values) = rlp.encode (rlp.Bytes b) ++ payload values.
Proof. reflexivity. Qed.

Lemma encode_Bytes_length (b : Buffer) :
  Buffer_length b <= Buffer_length (rlp.encode (rlp.Bytes b)).
Proof.
  destruct b as [|x [|y b']]; cbn [rlp.encode].
  - unfold Buffer_length; simpl; lia.
  - destruct (rlp.byte_to_Z x <? 128); [lia|].
    rewrite Buffer_length_app. pose proof (Buffer_length_nonneg (rlp.encodeLength 1 128)). lia.
  - rewrite Buffer_length_app.
    pose proof (Buffer_length_nonneg
                  (rlp.encodeLength (Buffer_length (x :: y :: b')) 128)). lia.
Qed.

Lemma decode_items_nonempty (decode1 : Buffer -> result (rlp.item * Buffer))
    (n : nat) (innerRemainder : Buffer) :
  innerRemainder <> [] ->
  rlp.decode_items decode1 (S n) innerRemainder
  = bind (decode1 innerRemainder) (fun d =>
      bind (rlp.decode_items decode1 n (snd d)) (fun ds => Ok (fst d :: ds))).
Proof. destruct innerRemainder; [contradiction|reflexivity]. Qed.

Lemma decode_items_payload (fuel n : nat) (values : list Buffer) :
  Buffer_length (payload values) < 2 ^ 64 ->
  (List.length values <= n)%nat ->
  rlp.decode_items (rlp._decode (S fuel)) n (payload values)
  = Ok (map rlp.Bytes values).
Proof.
  revert n. induction values as [|b values IH]; intros n Hlen Hn.
  - destruct n; reflexivity.
  - rewrite payload_cons in *. rewrite Buffer_length_app in Hlen.
    pose proof (encode_Bytes_length b).
    pose proof (Buffer_length_nonneg (payload values)).
    pose proof (Buffer_length_nonneg (rlp.encode (rlp.Bytes b))).
    destruct n as [|n]; [simpl in Hn; lia|].
    rewrite decode_items_nonempty.
    2: { intros E. apply app_eq_nil in E as [E _].
         now apply encode_Bytes_nonempty in E. }
    rewrite _decode_encode_Bytes by lia. simpl bind.
    rewrite IH by (simpl in Hn; lia). reflexivity.
Qed.

Lemma payload_length (values : list Buffer) :
  Z.of_nat (List.length values) <= Buffer_length (payload values).
Proof.
  induction values as [|b values IH]; [unfold Buffer_length; simpl; lia|].
  rewrite payload_cons, Buffer_length_app. simpl List.length.
  assert (1 <= Buffer_length (rlp.encode (rlp.Bytes b))); [|lia].
  pose proof (encode_Bytes_nonempty b).
  destruct (rlp.encode (rlp.Bytes b)); [contradiction|].
  unfold Buffer_length. simpl List.length. lia.
Qed.

Lemma bind_ret {A B : Type} (a : A) (k : A -> result B) : bind (Ok a) k = k a.
Proof. reflexivity. Qed.

Lemma decode_unfold (first : byte) (tl : Buffer) :
  rlp.decode (first :: tl)
  = bind (rlp._decode (S (List.length (first :: tl))) (first :: tl)) (fun decoded =>
      bind (throwIf (negb (Buffer_length (snd decoded) =? 0)) InvalidRLP) (fun _ =>
        Ok (fst decoded))).
Proof. reflexivity. Qed.

(** Decoding the encoding of a list of byte strings gives the list back. *)
Lemma decode_encode_flat (values : list Buffer) :
  Buffer_length (rlp.encode (rlp.Items (map rlp.Bytes values))) < 2 ^ 64 ->
  rlp.decode (rlp.encode (rlp.Items (map rlp.Bytes values)))
  = Ok (rlp.Items (map rlp.Bytes values)).
Proof.
  cbn [rlp.encode]. fold (payload values). intros Hlen.
  rewrite Buffer_length_app in Hlen.
  pose proof (Buffer_length_nonneg (payload values)) as Hp.
  pose proof (Buffer_length_nonneg
                (rlp.encodeLength (Buffer_length (payload values)) 192)) as Hq.
  pose proof (payload_length values) as Hcount.
  assert (Hitems : forall fuel, fuel <> O ->
    rlp.decode_items (rlp._decode fuel) (List.length (payload values))
      (payload values) = Ok (map rlp.Bytes values)).
  { intros [|fuel] Hfuel; [contradiction|].
    apply decode_items_payload; [lia|].
    unfold Buffer_length in Hcount. lia. }
  destruct (encodeLength_cases (Buffer_length (payload values)) 192)
    as [[Hshort Henc]|(Hlong & x & tl & Hb & Hx & Hll & Hv & Henc)]; [lia|lia| |];
    rewrite Henc.
  - change ([rlp.byte_of_Z (Buffer_length (payload values) + 192)] ++ payload values)
      with (rlp.byte_of_Z (Buffer_length (payload values) + 192) :: payload values).
    rewrite decode_unfold, _decode_unfold. cbv zeta.
    rewrite byte_to_Z_of_Z by lia.
    destruct (Z.leb_spec (Buffer_length (payload values) + 192) 127); [lia|].
    destruct (Z.leb_spec (Buffer_length (payload values) + 192) 183); [lia|].
    destruct (Z.leb_spec (Buffer_length (payload values) + 192) 191); [lia|].
    destruct (Z.leb_spec (Buffer_length (payload values) + 192) 247); [|lia].
    slice [rlp.byte_of_Z (Buffer_length (payload values) + 192)]
          (payload values) (@nil byte).
    rewrite Hitems by discriminate. rewrite bind_ret.
    slice_from (rlp.byte_of_Z (Buffer_length (payload values) + 192)
                  :: payload values) (@nil byte).
    reflexivity.
  - set (ll := Buffer_length (x :: tl)) in *.
    change ((rlp.byte_of_Z (192 + 55 + ll) :: x :: tl) ++ payload values)
      with (rlp.byte_of_Z (192 + 55 + ll) :: (x :: tl) ++ payload values).
    rewrite decode_unfold, _decode_unfold. cbv zeta.
    rewrite byte_to_Z_of_Z by lia.
    destruct (Z.leb_spec (192 + 55 + ll) 127); [lia|].
    destruct (Z.leb_spec (192 + 55 + ll) 183); [lia|].
    destruct (Z.leb_spec (192 + 55 + ll) 191); [lia|].
    destruct (Z.leb_spec (192 + 55 + ll) 247); [lia|].
    slice [rlp.byte_of_Z (192 + 55 + ll)] (x :: tl) (payload values).
    rewrite safeParseInt_head by assumption. rewrite Hv. rewrite bind_ret.
    assert (Htotal : Buffer_length
                       (rlp.byte_of_Z (192 + 55 + ll) :: (x :: tl) ++ payload values)
                     = 192 + 55 + ll - 246 + Buffer_length (payload values)).
    { change (rlp.byte_of_Z (192 + 55 + ll) :: (x :: tl) ++ payload values)
        with ((rlp.byte_of_Z (192 + 55 + ll) :: x :: tl) ++ payload values).
      len_solve. }
    rewrite Htotal.
    destruct (Z.gtb_spec (192 + 55 + ll - 246 + Buffer_length (payload values))
                (192 + 55 + ll - 246 + Buffer_length (payload values))); [lia|].
    change (throwIf false InvalidRLP) with (Ok tt). rewrite bind_ret.
    slice (rlp.byte_of_Z (192 + 55 + ll) :: x :: tl) (payload values) (@nil byte).
    destruct (Z.eqb_spec (Buffer_length (payload values)) 0); [lia|].
    change (throwIf false InvalidRLP) with (Ok tt). rewrite bind_ret.
    rewrite Hitems by discriminate. rewrite bind_ret.
    slice_from ((rlp.byte_of_Z (192 + 55 + ll) :: x :: tl) ++ payload values)
               (@nil byte).
    reflexivity.
Qed.

(** ** Serialization *)

Lemma asBlockHeaderBuffer_Bytes (values : list Buffer) :
  asBlockHeaderBuffer (map rlp.Bytes values) = Ok values.
Proof.
  induction values as [|b values IH]; [reflexivity|].
  cbn [map asBlockHeaderBuffer]. rewrite IH. reflexivity.
Qed.

Lemma Address_new_buf (a : Address) : Address_new (buf a) = Ok a.
Proof.
  destruct a as [b pf]. unfold Address_new. simpl buf.
  destruct (Nat.eq_dec (List.length b) 20%nat) as [pf'|Hne]; [|contradiction].
  f_equal. f_equal. apply (UIP_dec Nat.eq_dec).
Qed.

Lemma BN_fromBuffer_unpadBuffer (n : Z) :
  0 <= n -> BN_fromBuffer (unpadBuffer (BN_toBuffer n)) = n.
Proof. intros Hn. now apply unpadBuffer_BN_toBuffer. Qed.

(** A header built without the genesis option is valid under the options
    it was built with. *)
Lemma BlockHeader_new_valid (Common_mainnet : option string -> Common)
    (parentHash0 uncleHash0 : Buffer) (coinbase0 : Address)
    (stateRoot0 transactionsTrie0 receiptTrie0 bloom0 : Buffer)
    (difficulty0 number0 gasLimit0 gasUsed0 timestamp0 : Z)
    (extraData0 mixHash0 nonce0 : Buffer) (opts : BlockOptions) (h : BlockHeader) :
  initWithGenesisHeader opts = false ->
  BlockHeader_new Common_mainnet parentHash0 uncleHash0 coinbase0 stateRoot0
    transactionsTrie0 receiptTrie0 bloom0 difficulty0 number0 gasLimit0 gasUsed0
    timestamp0 extraData0 mixHash0 nonce0 opts = Ok h ->
  valid_header Common_mainnet opts h.
Proof.
  intros Hgen. unfold valid_header, rebuild, BlockHeader_new, BlockHeader_assign.
  rewrite Hgen.
  destruct (hardforkByBlockNumber opts).
  - destruct (BN_toNumber number0) as [n|] eqn:Hn; simpl; [|discriminate].
    destruct (_validateHeaderFields _) as [[]|] eqn:Hv; simpl; [|discriminate].
    destruct (_checkDAOExtraData _) as [[]|] eqn:Hd; simpl; [|discriminate].
    destruct (calcDifficultyFromHeader opts) as [p|].
    + destruct (canonicalDifficulty _ p) as [d|] eqn:Hc; simpl; [|discriminate].
      intros [= <-]. simpl. rewrite Hn. simpl.
      unfold _validateHeaderFields in *. simpl in *. rewrite Hv. simpl.
      unfold _checkDAOExtraData in *. simpl in *. rewrite Hd. simpl.
      unfold canonicalDifficulty, _getHardfork in *. simpl in *. rewrite Hc.
      reflexivity.
    + intros [= <-]. simpl. rewrite Hn. simpl. rewrite Hv. simpl. rewrite Hd.
      reflexivity.
  - simpl.
    destruct (_validateHeaderFields _) as [[]|] eqn:Hv; simpl; [|discriminate].
    destruct (_checkDAOExtraData _) as [[]|] eqn:Hd; simpl; [|discriminate].
    destruct (calcDifficultyFromHeader opts) as [p|].
    + destruct (canonicalDifficulty _ p) as [d|] eqn:Hc; simpl; [|discriminate].
      intros [= <-]. simpl.
      unfold _validateHeaderFields in *. simpl in *. rewrite Hv. simpl.
      unfold _checkDAOExtraData in *. simpl in *. rewrite Hd. simpl.
      unfold canonicalDifficulty, _getHardfork in *. simpl in *. rewrite Hc.
      reflexivity.
    + intros [= <-]. simpl. rewrite Hv. simpl. rewrite Hd. reflexivity.
Qed.

(** Replacing a default value by the genesis value is idempotent. *)
Lemma replace_idempotent {A : Type} (test : A -> bool) (g x : A) :
  (if test (if test x then g else x) then g else (if test x then g else x))
  = (if test x then g else x).
Proof.
  destruct (test x) eqn:E; [destruct (test g); reflexivity|now rewrite E].
Qed.

(** So is a header built without [hardforkByBlockNumber], with or without
    the genesis option. *)
Lemma BlockHeader_new_valid_genesis (Common_mainnet : option string -> Common)
    (parentHash0 uncleHash0 : Buffer) (coinbase0 : Address)
    (stateRoot0 transactionsTrie0 receiptTrie0 bloom0 : Buffer)
    (difficulty0 number0 gasLimit0 gasUsed0 timestamp0 : Z)
    (extraData0 mixHash0 nonce0 : Buffer) (opts : BlockOptions) (h : BlockHeader) :
  hardforkByBlockNumber opts = false ->
  BlockHeader_new Common_mainnet parentHash0 uncleHash0 coinbase0 stateRoot0
    transactionsTrie0 receiptTrie0 bloom0 difficulty0 number0 gasLimit0 gasUsed0
    timestamp0 extraData0 mixHash0 nonce0 opts = Ok h ->
  valid_header Common_mainnet opts h.
Proof.
  intros Hby. unfold valid_header, rebuild, BlockHeader_new, BlockHeader_assign.
  rewrite Hby. cbn [bind].
  destruct (initWithGenesisHeader opts).
  - destruct (throwIf _ InvalidGenesisOption) as [[]|]; cbn [bind]; [|discriminate].
    destruct (_validateHeaderFields _) as [[]|] eqn:Hv; cbn [bind]; [|discriminate].
    destruct (_checkDAOExtraData _) as [[]|] eqn:Hd; cbn [bind]; [|discriminate].
    destruct (calcDifficultyFromHeader opts) as [p|].
    + match goal with
      | |- context [canonicalDifficulty ?t p] =>
          destruct (canonicalDifficulty t p) as [d|] eqn:Hc
      end; cbn [bind]; [|discriminate].
      intros [= <-].
      cbn [parentHash uncleHash coinbase stateRoot transactionsTrie receiptTrie bloom
           difficulty number gasLimit gasUsed timestamp extraData mixHash nonce
           set_difficulty _common].
      rewrite (replace_idempotent (fun v => v =? DEFAULT_GAS_LIMIT)).
      rewrite (replace_idempotent (fun v => v =? 0) _ timestamp0).
      rewrite (replace_idempotent (fun v => Buffer_length v =? 0)).
      rewrite (replace_idempotent (fun v => Buffer_equals v (zeros 8))).
      rewrite (replace_idempotent (fun v => Buffer_equals v (zeros 32))).
      unfold _validateHeaderFields in *. cbn [parentHash stateRoot transactionsTrie
        receiptTrie mixHash nonce] in *. rewrite Hv. cbn [bind].
      unfold _checkDAOExtraData in *. cbn [_common number extraData] in *.
      rewrite Hd. cbn [bind].
      unfold canonicalDifficulty, _getHardfork in *.
      cbn [_common number timestamp] in *. rewrite Hc. reflexivity.
    + intros [= <-].
      cbn [parentHash uncleHash coinbase stateRoot transactionsTrie receiptTrie bloom
           difficulty number gasLimit gasUsed timestamp extraData mixHash nonce
           _common].
      rewrite (replace_idempotent (fun v => v =? DEFAULT_GAS_LIMIT)).
      rewrite (replace_idempotent (fun v => v =? 0) _ timestamp0).
      rewrite (replace_idempotent (fun v => v =? 0) _ difficulty0).
      rewrite (replace_idempotent (fun v => Buffer_length v =? 0)).
      rewrite (replace_idempotent (fun v => Buffer_equals v (zeros 8))).
      rewrite (replace_idempotent (fun v => Buffer_equals v (zeros 32))).
      rewrite Hv. cbn [bind]. rewrite Hd. reflexivity.
  - cbv iota. cbn [bind].
    destruct (_validateHeaderFields _) as [[]|] eqn:Hv; cbn [bind]; [|discriminate].
    destruct (_checkDAOExtraData _) as [[]|] eqn:Hd; cbn [bind]; [|discriminate].
    destruct (calcDifficultyFromHeader opts) as [p|].
    + match goal with
      | |- context [canonicalDifficulty ?t p] =>
          destruct (canonicalDifficulty t p) as [d|] eqn:Hc
      end; cbn [bind]; [|discriminate].
      intros [= <-].
      cbn [parentHash uncleHash coinbase stateRoot transactionsTrie receiptTrie bloom
           difficulty number gasLimit gasUsed timestamp extraData mixHash nonce
           set_difficulty _common].
      unfold _validateHeaderFields in *. cbn [parentHash stateRoot transactionsTrie
        receiptTrie mixHash nonce] in *. rewrite Hv. cbn [bind].
      unfold _checkDAOExtraData in *. cbn [_common number extraData] in *.
      rewrite Hd. cbn [bind].
      unfold canonicalDifficulty, _getHardfork in *.
      cbn [_common number timestamp] in *. rewrite Hc. reflexivity.
    + intros [= <-].
      cbn [parentHash uncleHash coinbase stateRoot transactionsTrie receiptTrie bloom
           difficulty number gasLimit gasUsed timestamp extraData mixHash nonce
           _common].
      rewrite Hv. cbn [bind]. rewrite Hd. reflexivity.
Qed.

(** C5. For a valid header with non-negative numeric fields whose
    serialization fits a length prefix, decoding the serialization under
    the same options gives the header back, so that [raw] of the result is
    [raw] of the header element by element; and in [raw] the numeric fields
    difficulty, number, gasLimit, gasUsed and timestamp (elements 7 to 11)
    are minimal big-endian: they carry the value, have no leading zero
    byte, and are empty for zero. *)
Theorem serialize_roundtrip (Common_mainnet : option string -> Common)
    (opts : BlockOptions) (h : BlockHeader) :
  valid_header Common_mainnet opts h ->
  0 <= difficulty h -> 0 <= number h -> 0 <= gasLimit h ->
  0 <= gasUsed h -> 0 <= timestamp h ->
  Buffer_length (serialize h) < 2 ^ 64 ->
  (exists h',
     fromRLPSerializedHeader Common_mainnet (serialize h) opts = Ok h'
     /\ h' = h /\ raw h' = raw h)
  /\ (forall (i : nat) (n : Z),
        In (i, n) [ (7%nat, difficulty h); (8%nat, number h); (9%nat, gasLimit h);
                    (10%nat, gasUsed h); (11%nat, timestamp h) ] ->
        exists b,
          nth_error (raw h) i = Some b
          /\ BN_fromBuffer b = n
          /\ (n = 0 -> b = [])
          /\ (forall x rest, b = x :: rest -> x <> x00)).
Proof.
  intros Hvalid Hd Hn Hg Hu Ht Hlen. split.
  - exists h. split; [|split; reflexivity].
    unfold fromRLPSerializedHeader, serialize in *.
    rewrite decode_encode_flat by assumption. rewrite bind_ret.
    rewrite asBlockHeaderBuffer_Bytes, bind_ret.
    unfold fromValuesArray, raw. cbn [List.length nth].
    change (Nat.ltb 15 15) with false.
    change (throwIf false MoreValuesThanExpected) with (Ok tt).
    rewrite bind_ret, Address_new_buf, bind_ret.
    rewrite !BN_fromBuffer_unpadBuffer by assumption.
    exact Hvalid.
  - intros i n Hin. simpl in Hin.
    destruct Hin as [[= <- <-]|[[= <- <-]|[[= <- <-]|[[= <- <-]|[[= <- <-]|[]]]]]];
      eexists; (split; [reflexivity|]); now apply unpadBuffer_BN_toBuffer.
Qed.

(** The header of the serialization scenario: difficulty 1, number 2, the
    default gas limit, no gas used, timestamp 0. *)
Lemma serialize_roundtrip_witness :
  exists h',
    fromRLPSerializedHeader Sample.Common_mainnet
      (serialize (Sample.header (Sample.ethash "istanbul") 1 2 DEFAULT_GAS_LIMIT 0 []))
      (Sample.options (Sample.ethash "istanbul")) = Ok h'
    /\ h' = Sample.header (Sample.ethash "istanbul") 1 2 DEFAULT_GAS_LIMIT 0 []
    /\ raw h' = raw (Sample.header (Sample.ethash "istanbul") 1 2 DEFAULT_GAS_LIMIT 0 []).
Proof.
  refine (proj1 (serialize_roundtrip Sample.Common_mainnet
    (Sample.options (Sample.ethash "istanbul"))
    (Sample.header (Sample.ethash "istanbul") 1 2 DEFAULT_GAS_LIMIT 0 [])
    _ _ _ _ _ _ _)).
  - vm_compute. reflexivity.
  - vm_compute. discriminate.
  - vm_compute. discriminate.
  - vm_compute. discriminate.
  - vm_compute. discriminate.
  - vm_compute. discriminate.
  - vm_compute. reflexivity.
Defined.

(** ** Hash *)

Lemma Buffer_slice_prefix (b : Buffer) (n : Z) :
  0 <= n <= Buffer_length b -> Buffer_slice b 0 n = firstn (Z.to_nat n) b.
Proof.
  intros Hn. unfold Buffer_slice, slice_index. fold (Buffer_length b).
  change (0 <? 0) with false.
  destruct (Z.ltb_spec n 0); [lia|].
  rewrite Z.min_l, Z.min_l by lia. rewrite Z.sub_0_r. reflexivity.
Qed.

(** C7. On a clique chain the hash of a header that is not the genesis is
    the keccak256 of the RLP encoding of [raw()] with element 12 replaced by
    [extraData.slice(0, len - 65)], which for an [extraData] of at least 65
    bytes is [extraData] without its last 65 bytes; the hash of a genesis
    header, and of any header on a chain that is not clique, is the
    keccak256 of the RLP encoding of [raw()] itself. *)
Theorem hash_clique_seal (keccak256 : Buffer -> Buffer) (h : BlockHeader) :
  let len := Buffer_length (extraData h) in
  let encode (values : list Buffer) := rlp.encode (rlp.Items (map rlp.Bytes values)) in
  let unsealed := Buffer_slice (extraData h) 0 (len - 65) in
  (consensusAlgorithm (_common h) = "clique"%string -> 0 < number h ->
   hash keccak256 h = keccak256 (encode (<[12%nat := unsealed]> (raw h)))
   /\ raw h !! 12%nat = Some (extraData h)
   /\ (65 <= len ->
       exists seal, extraData h = unsealed ++ seal /\ Buffer_length seal = 65))
  /\ (number h = 0 \/ consensusAlgorithm (_common h) <> "clique"%string ->
      hash keccak256 h = keccak256 (encode (raw h))).
Proof.
  intros len encode unsealed. unfold hash, rlphash, isGenesis. split.
  - intros Hclique Hnum. rewrite Hclique.
    destruct (Z.eqb_spec (number h) 0); [lia|].
    split; [reflexivity|]. split; [reflexivity|].
    intros Hlen. exists (skipn (Z.to_nat (len - 65)) (extraData h)).
    unfold unsealed. rewrite Buffer_slice_prefix by (fold len; lia).
    split; [symmetry; apply firstn_skipn|].
    unfold Buffer_length. rewrite length_skipn. unfold len, Buffer_length in *. lia.
  - intros [Hgen|Hne].
    + rewrite Hgen. simpl. rewrite andb_false_r. reflexivity.
    + destruct (String.eqb_spec (consensusAlgorithm (_common h)) "clique");
        [contradiction|reflexivity].
Qed.

(** Block 2 of the clique chain, whose extra data has 97 bytes. *)
Lemma hash_clique_seal_witness :
  hash (fun b => b) (Sample.cliqueHeader 2 30 (zeros 97) Sample.zeroAddress (zeros 32))
  = rlp.encode (rlp.Items (map rlp.Bytes
      (<[12%nat := zeros 32]>
         (raw (Sample.cliqueHeader 2 30 (zeros 97) Sample.zeroAddress (zeros 32)))))).
Proof.
  refine (proj1 (proj1 (hash_clique_seal (fun b => b)
    (Sample.cliqueHeader 2 30 (zeros 97) Sample.zeroAddress (zeros 32))) _ _)).
  - reflexivity.
  - simpl. lia.
Defined.

(** ** Canonical difficulty before byzantium *)

(** The bomb and the floor that end [canonicalDifficulty], for a block
    number that is not negative. *)
Lemma difficulty_bomb_floor (x n minimumDifficulty : Z) :
  0 <= n ->
  (let x := if negb (Z.quot n 100000 - 2 <? 0)
            then x + 2 ^ (Z.quot n 100000 - 2) else x in
   if x <? minimumDifficulty then minimumDifficulty else x)
  = Z.max minimumDifficulty
      (x + (if 0 <=? n / 100000 - 2 then 2 ^ (n / 100000 - 2) else 0)).
Proof.
  intros Hn. simpl. rewrite Z.quot_div_nonneg by lia.
  destruct (Z.ltb_spec (n / 100000 - 2) 0), (Z.leb_spec 0 (n / 100000 - 2));
    try lia; simpl.
  - destruct (Z.ltb_spec x minimumDifficulty); lia.
  - destruct (Z.ltb_spec (x + 2 ^ (n / 100000 - 2)) minimumDifficulty); lia.
Qed.

(** X1. On a PoW ethash chain whose resolved hardfork [h] is at least
    homestead and below byzantium, for a header that is not older than its
    parent, [canonicalDifficulty] is [max(minimumDifficulty,
    parent.difficulty + bound * a + bomb)] with [a = max(-99, 1 - floor((ts
    - parent.ts) / 10))]: the step is ten seconds, the uncles of the parent
    play no part, and the bomb [2^(floor(number / 100000) - 2)] is not
    delayed. *)
Theorem canonicalDifficulty_homestead (header parent : BlockHeader) (h : string) :
  let c := _common header in
  let gte := hardforkGteHardfork c h in
  let divisor := paramByHardfork c "pow" "difficultyBoundDivisor" h in
  let minimumDifficulty := paramByHardfork c "pow" "minimumDifficulty" h in
  consensusType c = "pow"%string ->
  consensusAlgorithm c = "ethash"%string ->
  _getHardfork header = Ok h ->
  gte "muirGlacier"%string = false ->
  gte "constantinople"%string = false ->
  gte "byzantium"%string = false ->
  gte "homestead"%string = true ->
  timestamp parent <= timestamp header ->
  0 <= number header ->
  divisor <> 0 ->
  let bound := Z.quot (difficulty parent) divisor in
  let a := Z.max (-99) (1 - (timestamp header - timestamp parent) / 10) in
  let e := number header / 100000 - 2 in
  let bomb := if 0 <=? e then 2 ^ e else 0 in
  canonicalDifficulty header parent
  = Ok (Z.max minimumDifficulty (difficulty parent + bound * a + bomb)).
Proof.
  intros c gte divisor minimumDifficulty Hpow Hethash Hh Hmuir Hconst Hbyz Hhome
         Hts Hnum Hdiv bound a e bomb.
  unfold canonicalDifficulty. fold c.
  rewrite Hpow, Hethash, Hh. simpl.
  unfold BN_div. fold divisor.
  destruct (Z.eqb_spec divisor 0) as [|_]; [contradiction|]. simpl.
  fold gte. rewrite Hmuir, Hconst, Hbyz, Hhome. fold bound.
  assert (Ha : (let a0 := - Z.quot (timestamp header - timestamp parent) 10 + 1 in
                if -99 >? a0 then -99 else a0) = a).
  { simpl. unfold a. rewrite Z.quot_div_nonneg by lia.
    destruct (Z.gtb_spec (-99)
                (- ((timestamp header - timestamp parent) / 10) + 1)); lia. }
  simpl in Ha. rewrite Ha. f_equal.
  apply (difficulty_bomb_floor (difficulty parent + bound * a)); assumption.
Qed.

(** A homestead header ten seconds after its parent, at block 300000. *)
Lemma canonicalDifficulty_homestead_witness :
  canonicalDifficulty
    (Sample.header (Sample.ethash "homestead") 0 300000 5000 1000010 [])
    (Sample.header (Sample.ethash "homestead") 2048000 299999 5000 1000000 [])
  = Ok 2048002.
Proof.
  refine (eq_trans (canonicalDifficulty_homestead
    (Sample.header (Sample.ethash "homestead") 0 300000 5000 1000010 [])
    (Sample.header (Sample.ethash "homestead") 2048000 299999 5000 1000000 [])
    "homestead" _ _ _ _ _ _ _ _ _ _) _).
  - reflexivity.
  - reflexivity.
  - reflexivity.
  - reflexivity.
  - reflexivity.
  - reflexivity.
  - reflexivity.
  - simpl; lia.
  - simpl; lia.
  - vm_compute; discriminate.
  - vm_compute; reflexivity.
Defined.

(** X2. On a PoW ethash chain whose resolved hardfork [h] is below
    homestead, [canonicalDifficulty] moves the parent's difficulty by
    [bound] only: up when the header comes less than [durationLimit]
    seconds after its parent, down otherwise; then the bomb is added and
    the floor [minimumDifficulty] applied. *)
Theorem canonicalDifficulty_frontier (header parent : BlockHeader) (h : string) :
  let c := _common header in
  let gte := hardforkGteHardfork c h in
  let divisor := paramByHardfork c "pow" "difficultyBoundDivisor" h in
  let minimumDifficulty := paramByHardfork c "pow" "minimumDifficulty" h in
  let durationLimit := paramByHardfork c "pow" "durationLimit" h in
  consensusType c = "pow"%string ->
  consensusAlgorithm c = "ethash"%string ->
  _getHardfork header = Ok h ->
  gte "muirGlacier"%string = false ->
  gte "constantinople"%string = false ->
  gte "byzantium"%string = false ->
  gte "homestead"%string = false ->
  0 <= number header ->
  divisor <> 0 ->
  let bound := Z.quot (difficulty parent) divisor in
  let moved :=
    if decide (timestamp header < timestamp parent + durationLimit)
    then difficulty parent + bound else difficulty parent - bound in
  let e := number header / 100000 - 2 in
  let bomb := if 0 <=? e then 2 ^ e else 0 in
  canonicalDifficulty header parent = Ok (Z.max minimumDifficulty (moved + bomb)).
Proof.
  intros c gte divisor minimumDifficulty durationLimit Hpow Hethash Hh Hmuir Hconst
         Hbyz Hhome Hnum Hdiv bound moved e bomb.
  unfold canonicalDifficulty. fold c.
  rewrite Hpow, Hethash, Hh. simpl.
  unfold BN_div. fold divisor.
  destruct (Z.eqb_spec divisor 0) as [|_]; [contradiction|]. simpl.
  fold gte. rewrite Hmuir, Hconst, Hbyz, Hhome. fold bound durationLimit.
  unfold moved.
  destruct (Z.gtb_spec (timestamp parent + durationLimit) (timestamp header)),
           (decide (timestamp header < timestamp parent + durationLimit));
    try lia; f_equal.
  - rewrite (Z.add_comm bound). now apply difficulty_bomb_floor.
  - now apply difficulty_bomb_floor.
Qed.

(** A chainstart header twelve seconds after its parent (the limit is 13),
    at block 1. *)
Lemma canonicalDifficulty_frontier_witness :
  canonicalDifficulty
    (Sample.header (Sample.ethash "chainstart") 0 1 5000 1000012 [])
    (Sample.header (Sample.ethash "chainstart") 2048000 0 5000 1000000 [])
  = Ok 2049000.
Proof.
  refine (eq_trans (canonicalDifficulty_frontier
    (Sample.header (Sample.ethash "chainstart") 0 1 5000 1000012 [])
    (Sample.header (Sample.ethash "chainstart") 2048000 0 5000 1000000 [])
    "chainstart" _ _ _ _ _ _ _ _ _) _).
  - reflexivity.
  - reflexivity.
  - reflexivity.
  - reflexivity.
  - reflexivity.
  - reflexivity.
  - reflexivity.
  - simpl; lia.
  - vm_compute; discriminate.
  - vm_compute; reflexivity.
Defined.

(** X3. [canonicalDifficulty] never returns less than [minimumDifficulty]
    of the resolved hardfork; and it does return on a PoW ethash chain with
    a non-zero [difficultyBoundDivisor] whose hardfork order places
    muirGlacier and constantinople at or after byzantium. *)
Theorem canonicalDifficulty_floor (header parent : BlockHeader) (h : string) :
  let c := _common header in
  let gte := hardforkGteHardfork c h in
  _getHardfork header = Ok h ->
  (forall d,
     canonicalDifficulty header parent = Ok d ->
     paramByHardfork c "pow" "minimumDifficulty" h <= d)
  /\ (consensusType c = "pow"%string ->
      consensusAlgorithm c = "ethash"%string ->
      paramByHardfork c "pow" "difficultyBoundDivisor" h <> 0 ->
      (gte "muirGlacier"%string = true -> gte "byzantium"%string = true) ->
      (gte "constantinople"%string = true -> gte "byzantium"%string = true) ->
      exists d, canonicalDifficulty header parent = Ok d).
Proof.
  intros c gte Hh. unfold canonicalDifficulty. fold c. rewrite Hh. split.
  - intros d. unfold throwIf, BN_div.
    destruct (negb (String.eqb (consensusType c) "pow")); simpl; [discriminate|].
    destruct (negb (String.eqb (consensusAlgorithm c) "ethash")); simpl; [discriminate|].
    destruct (_ =? 0); simpl; [discriminate|]. fold gte.
    destruct (gte "byzantium"%string), (gte "muirGlacier"%string),
             (gte "constantinople"%string), (gte "homestead"%string);
      simpl; try discriminate;
      repeat (match goal with
              | |- context [if ?b then _ else _] => destruct b eqn:?
              end; simpl);
      intros [= <-]; lia.
  - intros Hpow Hethash Hdiv Hmuir Hconst. rewrite Hpow, Hethash. simpl.
    unfold BN_div.
    destruct (Z.eqb_spec (paramByHardfork c "pow" "difficultyBoundDivisor" h) 0)
      as [|_]; [contradiction|]. simpl. fold gte.
    destruct (gte "byzantium"%string) eqn:Hbyz.
    + destruct (gte "muirGlacier"%string); [eexists; reflexivity|].
      destruct (gte "constantinople"%string); eexists; reflexivity.
    + destruct (gte "muirGlacier"%string); [now discriminate Hmuir|].
      destruct (gte "constantinople"%string); [now discriminate Hconst|].
      destruct (gte "homestead"%string); [eexists; reflexivity|].
      destruct (_ >? _); eexists; reflexivity.
Qed.

(** A byzantium header far after its parent: the floor is reached. *)
Lemma canonicalDifficulty_floor_witness :
  exists d,
    canonicalDifficulty
      (Sample.header (Sample.ethash "byzantium") 0 10 5000 1001000 [])
      (Sample.header (Sample.ethash "byzantium") 131072 9 5000 1000000 []) = Ok d
    /\ 131072 <= d.
Proof.
  destruct (proj2 (canonicalDifficulty_floor
    (Sample.header (Sample.ethash "byzantium") 0 10 5000 1001000 [])
    (Sample.header (Sample.ethash "byzantium") 131072 9 5000 1000000 [])
    "byzantium" eq_refl) eq_refl eq_refl
    ltac:(vm_compute; discriminate) (fun _ => eq_refl) (fun _ => eq_refl))
    as [d Hd].
  exists d. split; [exact Hd|].
  exact (proj1 (canonicalDifficulty_floor
    (Sample.header (Sample.ethash "byzantium") 0 10 5000 1001000 [])
    (Sample.header (Sample.ethash "byzantium") 131072 9 5000 1000000 [])
    "byzantium" eq_refl) d Hd).
Defined.

(** ** The difficulty that the constructor computes *)

(** [canonicalDifficulty] does not read the difficulty of the header. *)
Lemma canonicalDifficulty_set_difficulty (d : Z) (this parent : BlockHeader) :
  canonicalDifficulty (set_difficulty d this) parent = canonicalDifficulty this parent.
Proof. reflexivity. Qed.

Lemma canonicalDifficulty_Ok_pow (this parent : BlockHeader) (d : Z) :
  canonicalDifficulty this parent = Ok d ->
  consensusType (_common this) = "pow"%string.
Proof.
  unfold canonicalDifficulty, throwIf.
  destruct (String.eqb_spec (consensusType (_common this)) "pow"); simpl;
    [trivial|discriminate].
Qed.

(** X4. A header constructed with the option [calcDifficultyFromHeader]
    carries the canonical difficulty over the given parent, whatever
    difficulty was handed to the constructor, so that [validateDifficulty]
    against that parent holds. *)
Theorem BlockHeader_new_calcDifficulty (Common_mainnet : option string -> Common)
    (parentHash0 uncleHash0 : Buffer) (coinbase0 : Address)
    (stateRoot0 transactionsTrie0 receiptTrie0 bloom0 : Buffer)
    (difficulty0 number0 gasLimit0 gasUsed0 timestamp0 : Z)
    (extraData0 mixHash0 nonce0 : Buffer) (opts : BlockOptions)
    (parent h : BlockHeader) :
  calcDifficultyFromHeader opts = Some parent ->
  BlockHeader_new Common_mainnet parentHash0 uncleHash0 coinbase0 stateRoot0
    transactionsTrie0 receiptTrie0 bloom0 difficulty0 number0 gasLimit0 gasUsed0
    timestamp0 extraData0 mixHash0 nonce0 opts = Ok h ->
  canonicalDifficulty h parent = Ok (difficulty h)
  /\ validateDifficulty h parent = Ok true.
Proof.
  intros Hcalc. unfold BlockHeader_new. rewrite Hcalc.
  destruct (BlockHeader_assign _ _ _ _ _ _ _ _ _ _ _ _ _ _ _ _ _) as [this|];
    simpl; [|discriminate].
  destruct (_validateHeaderFields this) as [[]|]; simpl; [|discriminate].
  destruct (_checkDAOExtraData this) as [[]|]; simpl; [|discriminate].
  destruct (canonicalDifficulty this parent) as [d|] eqn:Hd; simpl; [|discriminate].
  intros [= <-].
  assert (Hc : canonicalDifficulty (set_difficulty d this) parent = Ok d)
    by (now rewrite canonicalDifficulty_set_difficulty).
  split; [exact Hc|].
  unfold validateDifficulty. rewrite Hc.
  rewrite (canonicalDifficulty_Ok_pow _ _ _ Hc). simpl.
  now rewrite Z.eqb_refl.
Qed.

(** A byzantium header built with difficulty 0 over a parent of difficulty
    1000000000000. *)
Lemma BlockHeader_new_calcDifficulty_witness :
  exists h,
    BlockHeader_new Sample.Common_mainnet (zeros 32) KECCAK256_RLP_ARRAY
      Sample.zeroAddress (zeros 32) KECCAK256_RLP KECCAK256_RLP (zeros 256)
      0 5000000 5000 0 1000009 [] (zeros 32) (zeros 8)
      {| common := Some (Sample.ethash "byzantium");
         hardforkByBlockNumber := false;
         initWithGenesisHeader := false;
         calcDifficultyFromHeader :=
           Some (Sample.header (Sample.ethash "byzantium") 1000000000000 4999999
                   5000 1000000 []);
         freeze := None |} = Ok h
    /\ difficulty h = 1000000262144
    /\ validateDifficulty h
         (Sample.header (Sample.ethash "byzantium") 1000000000000 4999999
            5000 1000000 []) = Ok true.
Proof.
  eexists. split; [vm_compute; reflexivity|]. split; [reflexivity|].
  refine (proj2 (BlockHeader_new_calcDifficulty Sample.Common_mainnet (zeros 32)
    KECCAK256_RLP_ARRAY Sample.zeroAddress (zeros 32) KECCAK256_RLP KECCAK256_RLP
    (zeros 256) 0 5000000 5000 0 1000009 [] (zeros 32) (zeros 8)
    {| common := Some (Sample.ethash "byzantium");
       hardforkByBlockNumber := false;
       initWithGenesisHeader := false;
       calcDifficultyFromHeader :=
         Some (Sample.header (Sample.ethash "byzantium") 1000000000000 4999999
                 5000 1000000 []);
       freeze := None |}
    (Sample.header (Sample.ethash "byzantium") 1000000000000 4999999 5000 1000000 [])
    _ _ _)).
  - reflexivity.
  - vm_compute. reflexivity.
Defined.

(** ** What [validate] accepts *)



(** X6. On a chain that is not clique, [validate] of a header that is not
    the genesis raises 'invalid amount of extra data' exactly when
    [extraData] is longer than [maxExtraDataSize] of the resolved hardfork,
    whatever the blockchain holds. *)
Theorem validate_extraData_bound (header : BlockHeader) (h : string)
    (blockchain : Blockchain) (height : option Z) :
  let c := _common header in
  consensusAlgorithm c <> "clique"%string ->
  number header <> 0 ->
  _getHardfork header = Ok h ->
  validate header blockchain height = Throw InvalidExtraData
  <-> paramByHardfork c "vm" "maxExtraDataSize" h < Buffer_length (extraData header).
Proof.
  intros c Hc Hnum Hh.
  assert (Hgen : isGenesis header = false) by (now apply Z.eqb_neq).
  assert (He : validate_extraData header h
               = throwIf (Buffer_length (extraData header)
                            >? paramByHardfork c "vm" "maxExtraDataSize" h)
                         InvalidExtraData).
  { unfold validate_extraData. fold c.
    destruct (String.eqb_spec (consensusAlgorithm c) "clique");
      [contradiction|reflexivity]. }
  destruct (Z.gtb_spec (Buffer_length (extraData header))
                       (paramByHardfork c "vm" "maxExtraDataSize" h)) as [Hgt|Hle];
    simpl in He.
  - split; [lia|]. intros _. unfold validate. rewrite Hgen, Hh. simpl.
    rewrite He. reflexivity.
  - split; [|lia]. intros Hv.
    now apply (validate_later_errors header h blockchain height) in Hv.
Qed.

(** An ethash header with 33 bytes of extra data, on a blockchain that
    does not hold its parent. *)
Lemma validate_extraData_bound_witness :
  validate (Sample.header (Sample.ethash "istanbul") 1 1 5000 10 (zeros 33))
    (fun _ => NotFoundError) None = Throw InvalidExtraData.
Proof.
  refine (proj2 (validate_extraData_bound
    (Sample.header (Sample.ethash "istanbul") 1 1 5000 10 (zeros 33)) "istanbul"
    (fun _ => NotFoundError) None _ _ _) _).
  - vm_compute. discriminate.
  - simpl. lia.
  - reflexivity.
  - vm_compute. reflexivity.
Defined.

(** X7. When [validate] is given the height of an including block and the
    checks before the last one pass, the header is accepted as an uncle
    exactly when it lies 1 to 6 blocks below the including block, and is
    refused with 'uncle block has a parent that is too old or too young'
    otherwise. *)
Theorem validate_uncle_distance (header parent : BlockHeader) (h : string)
    (blockchain : Blockchain) (height : Z) :
  let c := _common header in
  number header <> 0 ->
  _getHardfork header = Ok h ->
  validate_extraData header h = Ok tt ->
  blockchain (parentHash header) = Found parent ->
  number header = number parent + 1 ->
  timestamp parent < timestamp header ->
  (consensusAlgorithm c = "clique"%string ->
   timestamp parent + period (consensusConfig c) <= timestamp header) ->
  (consensusType c = "pow"%string -> validateDifficulty header parent = Ok true) ->
  validateGasLimit header parent = Ok true ->
  (validate header blockchain (Some height) = Ok tt
   <-> 1 <= height - number header <= 6)
  /\ (validate header blockchain (Some height) = Throw InvalidUncleDistance
      <-> ~ 1 <= height - number header <= 6).
Proof.
  intros c Hnum Hh He Hb Hn Hts Hperiod Hdiff Hgas.
  assert (Hgen : isGenesis header = false) by (now apply Z.eqb_neq).
  rewrite (validate_reaches_gasLimit header parent h blockchain (Some height))
    by assumption.
  rewrite Hgas. simpl. unfold throwIf.
  destruct (Z.ltb_spec (height - number parent) 8),
           (Z.gtb_spec (height - number parent) 1); simpl;
    (split; split; intros Hx; try discriminate; try reflexivity; lia).
Qed.

(** Block 2 of the clique chain as an uncle of block 8, and of block 9. *)
Lemma validate_uncle_distance_witness :
  validate (Sample.cliqueHeader 2 30 (zeros 97) Sample.zeroAddress (zeros 32))
    (Sample.blockchain Sample.cliqueParent) (Some 8) = Ok tt
  /\ validate (Sample.cliqueHeader 2 30 (zeros 97) Sample.zeroAddress (zeros 32))
       (Sample.blockchain Sample.cliqueParent) (Some 9) = Throw InvalidUncleDistance.
Proof.
  split.
  - refine (proj2 (proj1 (validate_uncle_distance
      (Sample.cliqueHeader 2 30 (zeros 97) Sample.zeroAddress (zeros 32))
      Sample.cliqueParent "istanbul" (Sample.blockchain Sample.cliqueParent) 8
      _ _ _ _ _ _ _ _ _)) _);
      try (vm_compute; congruence); try discriminate; try reflexivity.
    simpl. lia.
  - refine (proj2 (proj2 (validate_uncle_distance
      (Sample.cliqueHeader 2 30 (zeros 97) Sample.zeroAddress (zeros 32))
      Sample.cliqueParent "istanbul" (Sample.blockchain Sample.cliqueParent) 9
      _ _ _ _ _ _ _ _ _)) _);
      try (vm_compute; congruence); try discriminate; try reflexivity.
    simpl. lia.
Defined.

(** ** The parent checks of [validate] *)

(** X30. Once the checks of [extraData] have passed, [validate] of a
    header that is not the genesis reports the first of these that
    applies, whatever the later checks would say: no parent under
    [parentHash] ('could not find parent header'), a failing lookup (the
    error of the blockchain), a number that is not the parent's plus one
    ('invalid number'), a timestamp at or before the parent's ('invalid
    timestamp', also for equal timestamps), and on a clique chain a
    timestamp less than [period] after the parent's ('invalid timestamp diff
    (lower than period)'). *)
Theorem validate_parent_errors (header : BlockHeader) (h : string)
    (blockchain : Blockchain) (height : option Z) :
  let c := _common header in
  number header <> 0 ->
  _getHardfork header = Ok h ->
  validate_extraData header h = Ok tt ->
  (blockchain (parentHash header) = NotFoundError ->
   validate header blockchain height = Throw MissingParent)
  /\ (blockchain (parentHash header) = OtherError ->
      validate header blockchain height = Throw BlockchainError)
  /\ (forall parent,
        blockchain (parentHash header) = Found parent ->
        (number header <> number parent + 1 ->
         validate header blockchain height = Throw InvalidNumber)
        /\ (number header = number parent + 1 ->
            timestamp header <= timestamp parent ->
            validate header blockchain height = Throw InvalidTimestamp)
        /\ (number header = number parent + 1 ->
            timestamp parent < timestamp header ->
            consensusAlgorithm c = "clique"%string ->
            timestamp header < timestamp parent + period (consensusConfig c) ->
            validate header blockchain height = Throw InvalidCliquePeriod)).
Proof.
  intros c Hnum Hh He.
  assert (Hgen : isGenesis header = false) by (now apply Z.eqb_neq).
  unfold validate. fold c. rewrite Hgen, Hh. cbn [bind]. rewrite He. cbn [bind].
  unfold _getHeaderByHash. split; [|split].
  - intros ->. reflexivity.
  - intros ->. reflexivity.
  - intros parent ->. cbn [bind]. split; [|split].
    + intros Hn. apply Z.eqb_neq in Hn. rewrite Hn. reflexivity.
    + intros Hn Hts. apply Z.eqb_eq in Hn. apply Z.leb_le in Hts.
      rewrite Hn, Hts. reflexivity.
    + intros Hn Hts Hclique Hperiod. apply Z.eqb_eq in Hn. apply Z.leb_gt in Hts.
      rewrite Hn, Hts, Hclique. cbn [negb throwIf bind String.eqb].
      replace (String.eqb "clique" "clique") with true by reflexivity.
      destruct (Z.gtb_spec (timestamp parent + period (consensusConfig c))
                           (timestamp header)); [reflexivity|lia].
Qed.

(** Block 2 of the clique chain with the timestamp of its parent, and ten
    seconds after it. *)
Lemma validate_parent_errors_witness :
  validate (Sample.cliqueHeader 2 15 (zeros 97) Sample.zeroAddress (zeros 32))
    (Sample.blockchain Sample.cliqueParent) None = Throw InvalidTimestamp
  /\ validate (Sample.cliqueHeader 2 25 (zeros 97) Sample.zeroAddress (zeros 32))
       (Sample.blockchain Sample.cliqueParent) None = Throw InvalidCliquePeriod.
Proof.
  split.
  - refine (proj1 (proj2 (proj2 (proj2 (validate_parent_errors
      (Sample.cliqueHeader 2 15 (zeros 97) Sample.zeroAddress (zeros 32))
      "istanbul" (Sample.blockchain Sample.cliqueParent) None _ _ _))
      Sample.cliqueParent eq_refl)) _ _).
    + simpl. lia.
    + reflexivity.
    + vm_compute. reflexivity.
    + reflexivity.
    + simpl. lia.
  - refine (proj2 (proj2 (proj2 (proj2 (validate_parent_errors
      (Sample.cliqueHeader 2 25 (zeros 97) Sample.zeroAddress (zeros 32))
      "istanbul" (Sample.blockchain Sample.cliqueParent) None _ _ _))
      Sample.cliqueParent eq_refl)) _ _ _ _).
    + simpl. lia.
    + reflexivity.
    + vm_compute. reflexivity.
    + reflexivity.
    + simpl. lia.
    + reflexivity.
    + simpl. lia.
Defined.

(** ** The clique accessors *)

Lemma _requireClique_clique (this : BlockHeader) (name : string) :
  consensusAlgorithm (_common this) = "clique"%string ->
  _requireClique this name = Ok tt.
Proof. intros H. unfold _requireClique. now rewrite H. Qed.

Lemma _requireClique_other (this : BlockHeader) (name : string) :
  consensusAlgorithm (_common this) <> "clique"%string ->
  _requireClique this name = Throw (NotClique name).
Proof.
  intros H. unfold _requireClique.
  destruct (String.eqb_spec (consensusAlgorithm (_common this)) "clique");
    [contradiction|reflexivity].
Qed.

(** [b.slice(-n)] of a buffer that ends with [n] bytes. *)
Lemma Buffer_slice1_suffix (a b : Buffer) (n : Z) :
  n = Buffer_length b -> 0 < n -> Buffer_slice1 (a ++ b) (- n) = b.
Proof.
  intros -> Hn. unfold Buffer_slice1, Buffer_slice, slice_index.
  fold (Buffer_length (a ++ b)). rewrite Buffer_length_app.
  pose proof (Buffer_length_nonneg a). pose proof (Buffer_length_nonneg b).
  destruct (Z.ltb_spec (- Buffer_length b) 0); [|lia].
  destruct (Z.ltb_spec (Buffer_length a + Buffer_length b) 0); [lia|].
  rewrite Z.max_r, Z.min_l by lia.
  replace (Buffer_length a + Buffer_length b + - Buffer_length b)
    with (Buffer_length a) by lia.
  replace (Buffer_length a + Buffer_length b - Buffer_length a)
    with (Buffer_length b) by lia.
  unfold Buffer_length. rewrite !Nat2Z.id.
  rewrite drop_app_length. rewrite firstn_all. reflexivity.
Qed.

(** The loop over a buffer of whole signers gives the signers back. *)
Lemma signerList_loop_concat (signers : list Buffer) :
  Forall (fun s => List.length s = 20%nat) signers ->
  forall (fuel : nat) (pre : Buffer),
    (List.length signers < fuel)%nat ->
    signerList_loop fuel (pre ++ concat signers) (Buffer_length pre) = signers.
Proof.
  induction 1 as [|s signers Hs _ IH]; intros fuel pre Hfuel.
  - destruct fuel as [|fuel]; [simpl in Hfuel; lia|].
    simpl. rewrite app_nil_r. fold (Buffer_length pre).
    destruct (Z.leb_spec (Buffer_length pre) (Buffer_length pre - 20));
      [lia|reflexivity].
  - destruct fuel as [|fuel]; [simpl in Hfuel; lia|].
    cbn [signerList_loop concat].
    assert (Hlen : Buffer_length s = 20) by (unfold Buffer_length; lia).
    destruct (Z.leb_spec (Buffer_length pre)
                (Buffer_length (pre ++ s ++ concat signers) - 20)) as [_|Hlt].
    2: { rewrite !Buffer_length_app in Hlt.
         pose proof (Buffer_length_nonneg (concat signers)). lia. }
    rewrite (Buffer_slice_of_app _ pre s (concat signers)) by (reflexivity || lia).
    f_equal.
    replace (Buffer_length pre + 20) with (Buffer_length (pre ++ s))
      by (rewrite Buffer_length_app; lia).
    rewrite app_assoc. apply IH. simpl in Hfuel. lia.
Qed.

(** The loop cuts any buffer into 20-byte signers and drops a remainder
    of less than 20 bytes. *)
Lemma signerList_loop_shape (fuel : nat) :
  forall (pre suf : Buffer),
    (List.length suf < 20 * fuel)%nat ->
    exists rest,
      suf = concat (signerList_loop fuel (pre ++ suf) (Buffer_length pre)) ++ rest
      /\ Forall (fun s => List.length s = 20%nat)
           (signerList_loop fuel (pre ++ suf) (Buffer_length pre))
      /\ (List.length rest < 20)%nat.
Proof.
  induction fuel as [|fuel IH]; intros pre suf Hfuel; [lia|].
  cbn [signerList_loop].
  destruct (Z.leb_spec (Buffer_length pre) (Buffer_length (pre ++ suf) - 20))
    as [Hle|Hlt]; rewrite Buffer_length_app in *.
  - assert (Hsuf : (20 <= List.length suf)%nat) by (unfold Buffer_length in Hle; lia).
    assert (Htake : List.length (take 20 suf) = 20%nat)
      by (rewrite length_take; lia).
    rewrite (Buffer_slice_of_app _ pre (take 20 suf) (drop 20 suf)).
    2: now rewrite take_drop.
    2: reflexivity.
    2: unfold Buffer_length; lia.
    replace (Buffer_length pre + 20) with (Buffer_length (pre ++ take 20 suf))
      by (rewrite Buffer_length_app; unfold Buffer_length; lia).
    destruct (IH (pre ++ take 20 suf) (drop 20 suf)) as (rest & Hcat & Hall & Hrest).
    { rewrite length_drop. lia. }
    rewrite <- app_assoc, take_drop in Hcat, Hall.
    exists rest. split; [|split; [|exact Hrest]].
    + cbn [concat]. rewrite <- app_assoc, <- Hcat. now rewrite take_drop.
    + constructor; assumption.
  - exists suf. split; [reflexivity|]. split; [constructor|].
    unfold Buffer_length in Hlt. lia.
Qed.

Lemma concat_length_20 (l : list Buffer) :
  Forall (fun s => List.length s = 20%nat) l ->
  List.length (concat l) = (20 * List.length l)%nat.
Proof.
  induction 1 as [|s l Hs _ IH]; [reflexivity|].
  cbn [concat List.length]. rewrite length_app. lia.
Qed.

(** X8. On a clique chain, for an [extraData] laid out as 32 bytes of
    vanity, signers of 20 bytes each and 65 bytes of seal, the accessors
    return the parts: [cliqueExtraVanity] the vanity, [cliqueExtraSeal] the
    seal, and on an epoch transition [cliqueEpochTransitionSigners] the
    signers, in order. *)
Theorem clique_extraData_layout (header : BlockHeader) (vanity seal : Buffer)
    (signers : list Buffer) :
  consensusAlgorithm (_common header) = "clique"%string ->
  extraData header = vanity ++ concat signers ++ seal ->
  Buffer_length vanity = 32 ->
  Buffer_length seal = 65 ->
  Forall (fun s => List.length s = 20%nat) signers ->
  cliqueExtraVanity header = Ok vanity
  /\ cliqueExtraSeal header = Ok seal
  /\ (cliqueIsEpochTransition header = Ok true ->
      cliqueEpochTransitionSigners header = Ok signers).
Proof.
  intros Hclique Hextra Hvanity Hseal Hsigners.
  unfold cliqueExtraVanity, cliqueExtraSeal, cliqueEpochTransitionSigners.
  rewrite !_requireClique_clique by assumption. cbn [bind].
  rewrite Hextra. repeat split.
  - f_equal. apply (Buffer_slice_of_app _ [] vanity (concat signers ++ seal));
      [reflexivity|reflexivity|].
    change (Buffer_length []) with 0. unfold CLIQUE_EXTRA_VANITY. lia.
  - f_equal. rewrite app_assoc. apply Buffer_slice1_suffix; unfold CLIQUE_EXTRA_SEAL; lia.
  - intros ->. cbn [bind negb throwIf].
    rewrite (Buffer_slice_of_app _ vanity (concat signers) seal).
    2: reflexivity.
    2: unfold CLIQUE_EXTRA_VANITY; lia.
    2: { rewrite !Buffer_length_app. unfold CLIQUE_EXTRA_SEAL. lia. }
    f_equal.
    apply (signerList_loop_concat signers Hsigners _ []).
    rewrite concat_length_20 by assumption. lia.
Qed.

(** X9. Whatever [extraData] holds, every signer that
    [cliqueEpochTransitionSigners] returns has 20 bytes; together they are
    the bytes between the vanity and the seal, less a remainder of fewer
    than 20 bytes that is dropped. *)
Theorem cliqueEpochTransitionSigners_shape (header : BlockHeader)
    (signers : list Buffer) :
  let signerBuffer :=
    Buffer_slice (extraData header) 32 (Buffer_length (extraData header) - 65) in
  cliqueEpochTransitionSigners header = Ok signers ->
  Forall (fun s => Buffer_length s = 20) signers
  /\ Z.of_nat (List.length signers) = Buffer_length signerBuffer / 20
  /\ exists rest,
       signerBuffer = concat signers ++ rest /\ Buffer_length rest < 20.
Proof.
  intros signerBuffer. unfold cliqueEpochTransitionSigners.
  destruct (_requireClique header _) as [[]|]; cbn [bind]; [|discriminate].
  destruct (cliqueIsEpochTransition header) as [[]|]; cbn [bind negb throwIf];
    try discriminate.
  change CLIQUE_EXTRA_VANITY with 32. change CLIQUE_EXTRA_SEAL with 65.
  fold signerBuffer.
  destruct (signerList_loop_shape (S (List.length signerBuffer)) [] signerBuffer)
    as (rest & Hcat & Hall & Hrest); [lia|].
  cbn [app] in Hcat, Hall. change (Buffer_length []) with 0 in Hcat, Hall.
  revert Hcat Hall.
  generalize (signerList_loop (S (List.length signerBuffer)) signerBuffer 0).
  intros l Hcat Hall [= <-].
  split; [|split].
  - eapply Forall_impl; [exact Hall|]. intros s Hs. unfold Buffer_length.
    simpl in Hs. lia.
  - pose proof (f_equal (@List.length byte) Hcat) as Hlen.
    rewrite length_app, concat_length_20 in Hlen by assumption.
    unfold Buffer_length.
    apply Z.div_unique with (r := Z.of_nat (List.length rest)); lia.
  - exists rest. split; [exact Hcat|]. unfold Buffer_length. lia.
Qed.

(** X10. [cliqueEpochTransitionSigners] returns exactly on a clique chain
    with a non-zero epoch length at a block number that is a multiple of
    it; on another chain it raises the error of [_requireClique] under its
    own name, and off an epoch transition the error of the signers. *)
Theorem cliqueEpochTransitionSigners_errors (header : BlockHeader) :
  let c := _common header in
  let epoch := epoch (consensusConfig c) in
  ((exists signers, cliqueEpochTransitionSigners header = Ok signers)
   <-> consensusAlgorithm c = "clique"%string
       /\ epoch <> 0 /\ Z.rem (number header) epoch = 0)
  /\ (consensusAlgorithm c <> "clique"%string ->
      cliqueEpochTransitionSigners header
      = Throw (NotClique "cliqueEpochTransitionSigners"))
  /\ (consensusAlgorithm c = "clique"%string ->
      epoch <> 0 -> Z.rem (number header) epoch <> 0 ->
      cliqueEpochTransitionSigners header = Throw NotEpochTransition).
Proof.
  intros c epoch0. unfold cliqueEpochTransitionSigners.
  destruct (String.eqb_spec (consensusAlgorithm c) "clique") as [Hc|Hc].
  - rewrite _requireClique_clique by assumption. cbn [bind].
    unfold cliqueIsEpochTransition. rewrite _requireClique_clique by assumption.
    cbn [bind]. unfold BN_mod. fold c epoch0.
    destruct (Z.eqb_spec epoch0 0) as [He|He]; cbn [bind].
    + split; [|split]; try contradiction.
      split; [intros [? [=]]|intros (_ & Hne & _); contradiction].
    + destruct (Z.eqb_spec (Z.rem (number header) epoch0) 0) as [Hr|Hr];
        cbn [bind negb throwIf].
      * split; [|split]; try contradiction.
        split; [intros _; now repeat split|intros _; eexists; reflexivity].
      * split; [|split]; try contradiction; try reflexivity.
        split; [intros [? [=]]|intros (_ & _ & Hz); contradiction].
  - rewrite _requireClique_other by assumption. cbn [bind].
    split; [|split]; try contradiction; try reflexivity.
    split; [intros [? [=]]|intros (Hc' & _); contradiction].
Qed.

(** The epoch transition block with two signers. *)
Lemma clique_extraData_layout_witness :
  cliqueExtraVanity Scenario.epochHeader = Ok (zeros 32)
  /\ cliqueExtraSeal Scenario.epochHeader = Ok (zeros 65)
  /\ cliqueEpochTransitionSigners Scenario.epochHeader = Ok Scenario.signers.
Proof.
  pose proof (clique_extraData_layout Scenario.epochHeader (zeros 32) (zeros 65)
                Scenario.signers eq_refl eq_refl eq_refl eq_refl
                ltac:(repeat constructor)) as (Hv & Hs & Hl).
  split; [exact Hv|]. split; [exact Hs|]. apply Hl. reflexivity.
Defined.

(** The block with seven stray bytes: one signer is returned. *)
Lemma cliqueEpochTransitionSigners_shape_witness :
  Forall (fun s => Buffer_length s = 20) [repeat x01 20].
Proof.
  refine (proj1 (cliqueEpochTransitionSigners_shape Scenario.raggedHeader
                   [repeat x01 20] _)).
  vm_compute. reflexivity.
Defined.

(** Block 2 of the clique chain is no epoch transition, and the ethash
    chain is not clique. *)
Lemma cliqueEpochTransitionSigners_errors_witness :
  cliqueEpochTransitionSigners Sample.cliqueNonZeroMixHash = Throw NotEpochTransition
  /\ cliqueEpochTransitionSigners
       (Sample.header (Sample.ethash "istanbul") 1 30000 5000 10 [])
     = Throw (NotClique "cliqueEpochTransitionSigners").
Proof.
  split.
  - refine (proj2 (proj2 (cliqueEpochTransitionSigners_errors
                            Sample.cliqueNonZeroMixHash)) _ _ _).
    + reflexivity.
    + vm_compute. discriminate.
    + vm_compute. discriminate.
  - refine (proj1 (proj2 (cliqueEpochTransitionSigners_errors
              (Sample.header (Sample.ethash "istanbul") 1 30000 5000 10 []))) _).
    vm_compute. discriminate.
Defined.

(** ** The seal of a clique header *)

(** The hash of a sealed clique header is taken over the header with the
    seal cut off. *)
Lemma hash_sealed (keccak256 : Buffer -> Buffer) (h : BlockHeader)
    (body seal : Buffer) :
  consensusAlgorithm (_common h) = "clique"%string ->
  number h <> 0 ->
  extraData h = body ++ seal ->
  Buffer_length seal = 65 ->
  hash keccak256 h = rlphash keccak256 (raw (with_extraData body h)).
Proof.
  intros Hclique Hnum Hextra Hseal. unfold hash, isGenesis. rewrite Hclique.
  destruct (Z.eqb_spec (number h) 0); [contradiction|]. cbn [String.eqb negb andb].
  replace (String.eqb "clique" "clique") with true by reflexivity.
  cbn [andb]. f_equal. rewrite Hextra.
  rewrite (Buffer_slice_of_app _ [] body seal).
  - reflexivity.
  - reflexivity.
  - reflexivity.
  - rewrite Buffer_length_app. unfold CLIQUE_EXTRA_SEAL.
    change (Buffer_length []) with 0. lia.
Qed.

(** X11. Replacing the seal, the last 65 bytes of [extraData], leaves the
    hash of a clique header that is not the genesis unchanged: the hash of
    a sealed header is the hash that was signed. *)
Theorem hash_seal_independent (keccak256 : Buffer -> Buffer) (h : BlockHeader)
    (body seal seal' : Buffer) :
  consensusAlgorithm (_common h) = "clique"%string ->
  number h <> 0 ->
  Buffer_length seal = 65 ->
  Buffer_length seal' = 65 ->
  hash keccak256 (with_extraData (body ++ seal) h)
  = hash keccak256 (with_extraData (body ++ seal') h).
Proof.
  intros Hclique Hnum Hseal Hseal'.
  rewrite (hash_sealed keccak256 (with_extraData (body ++ seal) h) body seal)
    by (assumption || reflexivity).
  rewrite (hash_sealed keccak256 (with_extraData (body ++ seal') h) body seal')
    by (assumption || reflexivity).
  reflexivity.
Qed.

(** Block 2 of the clique chain with an empty seal and with a seal of
    ones. *)
Lemma hash_seal_independent_witness :
  hash (fun b => b)
    (with_extraData (zeros 32 ++ zeros 65) Sample.cliqueNonZeroMixHash)
  = hash (fun b => b)
      (with_extraData (zeros 32 ++ repeat x01 65) Sample.cliqueNonZeroMixHash).
Proof.
  refine (hash_seal_independent (fun b => b) Sample.cliqueNonZeroMixHash
            (zeros 32) (zeros 65) (repeat x01 65) _ _ _ _).
  - reflexivity.
  - simpl. lia.
  - reflexivity.
  - reflexivity.
Defined.

Section Signatures.

Variable keccak256 : Buffer -> Buffer.
Variable ecrecover : Buffer -> Z -> Buffer -> Buffer -> result Buffer.
Variable Address_fromPublicKey : Buffer -> result Address.

(** X12. On a clique chain, for a header that is not the genesis and whose
    [extraData] ends with a seal [r ++ s ++ [v]] of 32, 32 and 1 bytes,
    [cliqueSignatureToAddress] recovers the public key from the hash of the
    header without the seal, with the recovery id [v + 27] and the
    signature halves [r] and [s], and returns its address. *)
Theorem cliqueSignatureToAddress_seal (header : BlockHeader) (body r s : Buffer)
    (v : byte) :
  consensusAlgorithm (_common header) = "clique"%string ->
  number header <> 0 ->
  extraData header = body ++ r ++ s ++ [v] ->
  Buffer_length r = 32 ->
  Buffer_length s = 32 ->
  cliqueSignatureToAddress keccak256 ecrecover Address_fromPublicKey header
  = bind (ecrecover (rlphash keccak256 (raw (with_extraData body header)))
            (Z.of_N (Byte.to_N v) + 27) r s)
         Address_fromPublicKey.
Proof.
  intros Hclique Hnum Hextra Hr Hs.
  unfold cliqueSignatureToAddress, cliqueExtraSeal.
  rewrite !_requireClique_clique by assumption. cbn [bind].
  assert (Hseal : Buffer_length (r ++ s ++ [v]) = 65).
  { rewrite !Buffer_length_app. change (Buffer_length [v]) with 1. lia. }
  rewrite (hash_sealed keccak256 header body (r ++ s ++ [v])) by assumption.
  rewrite Hextra.
  rewrite (Buffer_slice1_suffix body (r ++ s ++ [v]) CLIQUE_EXTRA_SEAL)
    by (unfold CLIQUE_EXTRA_SEAL; lia).
  rewrite (Buffer_slice_of_app (r ++ s ++ [v]) [] r (s ++ [v]) 0 32)
    by (reflexivity || (change (Buffer_length []) with 0; lia)).
  rewrite (Buffer_slice_of_app (r ++ s ++ [v]) r s [v] 32 64)
    by (reflexivity || lia).
  rewrite (Buffer_slice_of_app (r ++ s ++ [v]) (r ++ s) [v] [] 64 65).
  - reflexivity.
  - now rewrite <- app_assoc.
  - rewrite Buffer_length_app. lia.
  - rewrite Buffer_length_app. change (Buffer_length [v]) with 1. lia.
Qed.

(** X13. [cliqueVerifySignature] returns true exactly when the address
    that [cliqueSignatureToAddress] recovers is one of the signers of the
    list, and false exactly when it recovers an address that is not; on a
    clique chain it raises what the recovery raises, and on another chain
    the error of [_requireClique] under its own name. *)
Theorem cliqueVerifySignature_spec (header : BlockHeader) (signerList : list Buffer) :
  let recovered :=
    cliqueSignatureToAddress keccak256 ecrecover Address_fromPublicKey header in
  let verified :=
    cliqueVerifySignature keccak256 ecrecover Address_fromPublicKey header
      signerList in
  (verified = Ok true
   <-> exists a, recovered = Ok a /\ In (buf a) signerList)
  /\ (verified = Ok false
      <-> exists a, recovered = Ok a /\ ~ In (buf a) signerList)
  /\ (consensusAlgorithm (_common header) = "clique"%string ->
      forall e, verified = Throw e <-> recovered = Throw e)
  /\ (consensusAlgorithm (_common header) <> "clique"%string ->
      verified = Throw (NotClique "cliqueVerifySignature")).
Proof.
  intros recovered verified. unfold verified, cliqueVerifySignature.
  assert (Hin : forall a : Address,
    existsb (fun signer => Buffer_equals signer (buf a)) signerList = true
    <-> In (buf a) signerList).
  { intros a. rewrite existsb_exists. split.
    - intros (x & Hx & Heq). apply Buffer_equals_eq in Heq. now subst.
    - intros Hx. exists (buf a). split; [exact Hx|]. now apply Buffer_equals_eq. }
  destruct (String.eqb_spec (consensusAlgorithm (_common header)) "clique")
    as [Hc|Hc].
  - rewrite _requireClique_clique by assumption. cbn [bind]. fold recovered.
    destruct recovered as [a|e']; cbn [bind].
    + specialize (Hin a).
      destruct (existsb _ signerList).
      * split; [|split; [|split]].
        -- split; [intros _; exists a; split; [reflexivity|now apply Hin]|reflexivity].
        -- split; [discriminate|]. intros (a' & [= <-] & Hn). exfalso.
           apply Hn. now apply Hin.
        -- intros _ e. split; discriminate.
        -- intros Hne. contradiction.
      * split; [|split; [|split]].
        -- split; [discriminate|]. intros (a' & [= <-] & Hi).
           apply Hin in Hi. discriminate.
        -- split; [|reflexivity]. intros _. exists a. split; [reflexivity|].
           intros Hi. apply Hin in Hi. discriminate.
        -- intros _ e. split; discriminate.
        -- intros Hne. contradiction.
    + split; [|split; [|split]].
      * split; [discriminate|intros (a & [=] & _)].
      * split; [discriminate|intros (a & [=] & _)].
      * intros _ e. split; intros [= <-]; reflexivity.
      * intros Hne. contradiction.
  - assert (Hrec : recovered = Throw (NotClique "cliqueSignatureToAddress")).
    { unfold recovered, cliqueSignatureToAddress.
      now rewrite _requireClique_other by assumption. }
    rewrite _requireClique_other by assumption. cbn [bind]. rewrite Hrec.
    split; [|split; [|split]].
    + split; [discriminate|intros (a & [=] & _)].
    + split; [discriminate|intros (a & [=] & _)].
    + intros Hc'. contradiction.
    + reflexivity.
Qed.

End Signatures.

(** The sealed block 2: the key is recovered with the recovery id 28. *)
Lemma cliqueSignatureToAddress_seal_witness :
  cliqueSignatureToAddress (fun b => b) Scenario.ecrecover
    Scenario.Address_fromPublicKey Scenario.sealedHeader
  = bind (Scenario.ecrecover
            (rlphash (fun b => b)
               (raw (with_extraData (zeros 32) Scenario.sealedHeader)))
            28 (repeat x03 32) (repeat x04 32))
         Scenario.Address_fromPublicKey.
Proof.
  refine (cliqueSignatureToAddress_seal (fun b => b) Scenario.ecrecover
            Scenario.Address_fromPublicKey Scenario.sealedHeader (zeros 32)
            (repeat x03 32) (repeat x04 32) x01 _ _ _ _ _).
  - reflexivity.
  - simpl. lia.
  - reflexivity.
  - reflexivity.
  - reflexivity.
Defined.

(** The signer of the sealed block 2 is in a list that holds its address,
    and the check is refused on the ethash chain. *)
Lemma cliqueVerifySignature_spec_witness :
  cliqueVerifySignature (fun b => b) Scenario.ecrecover
    Scenario.Address_fromPublicKey Scenario.sealedHeader
    [repeat x01 20; repeat x03 20] = Ok true
  /\ cliqueVerifySignature (fun b => b) Scenario.ecrecover
       Scenario.Address_fromPublicKey
       (Sample.header (Sample.ethash "istanbul") 1 2 5000 10 [])
       [repeat x01 20] = Throw (NotClique "cliqueVerifySignature").
Proof.
  split.
  - refine (proj2 (proj1 (cliqueVerifySignature_spec (fun b => b) Scenario.ecrecover
              Scenario.Address_fromPublicKey Scenario.sealedHeader
              [repeat x01 20; repeat x03 20])) _).
    exists (mkAddress (repeat x03 20) eq_refl). split.
    + vm_compute. reflexivity.
    + simpl. tauto.
  - refine (proj2 (proj2 (proj2 (cliqueVerifySignature_spec (fun b => b)
              Scenario.ecrecover Scenario.Address_fromPublicKey
              (Sample.header (Sample.ethash "istanbul") 1 2 5000 10 [])
              [repeat x01 20]))) _).
    vm_compute. discriminate.
Defined.

(** ** The codec of headers at its edges *)

(** X14. [fromValuesArray] returns a header for exactly 15 values: more
    are refused at once, and with fewer the missing nonce is the empty
    buffer, which no construction accepts. *)
Theorem fromValuesArray_length (Common_mainnet : option string -> Common)
    (values : list Buffer) (opts : BlockOptions) :
  ((15 < List.length values)%nat ->
   fromValuesArray Common_mainnet values opts = Throw MoreValuesThanExpected)
  /\ (forall h,
        fromValuesArray Common_mainnet values opts = Ok h ->
        List.length values = 15%nat).
Proof.
  unfold fromValuesArray. split.
  - intros Hlen. apply Nat.ltb_lt in Hlen. now rewrite Hlen.
  - intros h.
    destruct (Nat.ltb_spec 15 (List.length values)) as [|Hle]; cbn [throwIf bind];
      [discriminate|].
    destruct (Address_new (nth 2 values [])) as [coinbase0|]; cbn [bind];
      [|discriminate].
    intros Hnew.
    destruct (Nat.eq_dec (List.length values) 15%nat) as [|Hne]; [assumption|exfalso].
    apply BlockHeader_new_assigned in Hnew as (this & Hassign & Hwidth & _).
    apply _validateHeaderFields_Ok in Hwidth as (_ & _ & _ & _ & _ & Hnonce).
    apply BlockHeader_assign_fields in Hassign
      as (_ & _ & _ & _ & _ & _ & _ & _ & Hkeep & _).
    rewrite nth_overflow in Hkeep by lia.
    rewrite Hkeep in Hnonce by discriminate. discriminate.
Qed.

(** Sixteen values. *)
Lemma fromValuesArray_length_witness :
  fromValuesArray Sample.Common_mainnet (repeat [] 16)
    (Sample.options (Sample.ethash "istanbul")) = Throw MoreValuesThanExpected.
Proof.
  refine (proj1 (fromValuesArray_length Sample.Common_mainnet (repeat [] 16)
                   (Sample.options (Sample.ethash "istanbul"))) _).
  simpl. lia.
Defined.

(** X15. [fromRLPSerializedHeader] refuses, with 'Invalid serialized header
    input. Must be array', the empty input and every input that is the
    encoding of a byte string. *)
Theorem fromRLPSerializedHeader_not_array (Common_mainnet : option string -> Common)
    (opts : BlockOptions) :
  fromRLPSerializedHeader Common_mainnet [] opts = Throw InvalidSerializedHeader
  /\ (forall b : Buffer,
        Buffer_length b < 2 ^ 64 ->
        fromRLPSerializedHeader Common_mainnet (rlp.encode (rlp.Bytes b)) opts
        = Throw InvalidSerializedHeader).
Proof.
  split; [reflexivity|]. intros b Hlen. unfold fromRLPSerializedHeader.
  pose proof (encode_Bytes_nonempty b) as Hne.
  pose proof (_decode_encode_Bytes
                (List.length (rlp.encode (rlp.Bytes b))) b [] Hlen) as Hdec.
  rewrite app_nil_r in Hdec.
  destruct (rlp.encode (rlp.Bytes b)) as [|first tl] eqn:Henc; [contradiction|].
  rewrite decode_unfold, Hdec. reflexivity.
Qed.

(** The encoding of the byte string [dao]. *)
Lemma fromRLPSerializedHeader_not_array_witness :
  fromRLPSerializedHeader Sample.Common_mainnet
    (rlp.encode (rlp.Bytes (Buffer_from_ascii "dao")))
    (Sample.options (Sample.ethash "istanbul")) = Throw InvalidSerializedHeader.
Proof.
  refine (proj2 (fromRLPSerializedHeader_not_array Sample.Common_mainnet
                   (Sample.options (Sample.ethash "istanbul")))
            (Buffer_from_ascii "dao") _).
  vm_compute. reflexivity.
Defined.

(** X16. The serialization determines every field of a header: two
    headers with non-negative numeric fields and equal serializations
    agree on all fifteen fields, and can differ in their [Common] only. *)
Theorem serialize_injective (h1 h2 : BlockHeader) :
  0 <= difficulty h1 -> 0 <= number h1 -> 0 <= gasLimit h1 ->
  0 <= gasUsed h1 -> 0 <= timestamp h1 ->
  0 <= difficulty h2 -> 0 <= number h2 -> 0 <= gasLimit h2 ->
  0 <= gasUsed h2 -> 0 <= timestamp h2 ->
  Buffer_length (serialize h1) < 2 ^ 64 ->
  serialize h1 = serialize h2 ->
  h2 = mkBlockHeader (parentHash h1) (uncleHash h1) (coinbase h1) (stateRoot h1)
         (transactionsTrie h1) (receiptTrie h1) (bloom h1) (difficulty h1)
         (number h1) (gasLimit h1) (gasUsed h1) (timestamp h1) (extraData h1)
         (mixHash h1) (nonce h1) (_common h2).
Proof.
  intros Hd1 Hn1 Hg1 Hu1 Ht1 Hd2 Hn2 Hg2 Hu2 Ht2 Hlen Heq.
  assert (Hraw : raw h1 = raw h2).
  { pose proof (decode_encode_flat (raw h1) Hlen) as H1.
    assert (Hlen2 : Buffer_length (serialize h2) < 2 ^ 64) by (now rewrite <- Heq).
    pose proof (decode_encode_flat (raw h2) Hlen2) as H2.
    unfold serialize in Heq. rewrite Heq, H2 in H1.
    injection H1 as E1 E2 E3 E4 E5 E6 E7 E8 E9 E10 E11 E12 E13 E14 E15.
    unfold raw.
    rewrite E1, E2, E3, E4, E5, E6, E7, E8, E9, E10, E11, E12, E13, E14, E15.
    reflexivity. }
  unfold raw in Hraw.
  injection Hraw as Hp Hun Hc Hs Htt Hr Hb Hd Hn Hg Hu Ht He Hm Hno.
  assert (Hnum : forall a b, 0 <= a -> 0 <= b ->
            unpadBuffer (BN_toBuffer a) = unpadBuffer (BN_toBuffer b) -> a = b).
  { intros a b Ha Hb' E. apply (f_equal BN_fromBuffer) in E.
    now rewrite !BN_fromBuffer_unpadBuffer in E by assumption. }
  apply Hnum in Hd, Hn, Hg, Hu, Ht; try assumption.
  assert (Hcoin : coinbase h1 = coinbase h2).
  { destruct (coinbase h1) as [b1 p1], (coinbase h2) as [b2 p2]. simpl in Hc.
    subst b2. f_equal. apply (UIP_dec Nat.eq_dec). }
  clear Hlen Heq Hnum Hd2 Hn2 Hg2 Hu2 Ht2.
  destruct h2 as [p2 u2 c2 s2 t2 r2 b2 d2 n2 g2 gu2 ts2 e2 m2 no2 cm2].
  cbn [parentHash uncleHash coinbase stateRoot transactionsTrie
    receiptTrie bloom difficulty number gasLimit gasUsed timestamp extraData
    mixHash nonce _common] in *.
  subst. reflexivity.
Qed.

(** The same fields on the ethash chain and on the clique chain. *)
Lemma serialize_injective_witness :
  Sample.header Sample.clique 1 2 5000 10 []
  = mkBlockHeader (zeros 32) KECCAK256_RLP_ARRAY Sample.zeroAddress (zeros 32)
      KECCAK256_RLP KECCAK256_RLP (zeros 256) 1 2 5000 0 10 [] (zeros 32) (zeros 8)
      Sample.clique.
Proof.
  refine (serialize_injective
            (Sample.header (Sample.ethash "istanbul") 1 2 5000 10 [])
            (Sample.header Sample.clique 1 2 5000 10 [])
            _ _ _ _ _ _ _ _ _ _ _ _);
    try (vm_compute; discriminate); vm_compute; reflexivity.
Defined.

(** ** Headers from field data *)

Section HeadersFromData.

Variable Like : Type.
Variable truthy : Like -> bool.
Variable toBuffer : Like -> result Buffer.
Variable Common_mainnet : option string -> Common.

(** [fromHeaderData] ends in a call of the constructor. *)
Lemma fromHeaderData_constructed (data : HeaderData Like) (opts : BlockOptions)
    (h : BlockHeader) :
  fromHeaderData Like truthy toBuffer Common_mainnet data opts = Ok h ->
  exists parentHash0 uncleHash0 coinbase0 stateRoot0 transactionsTrie0
         receiptTrie0 bloom0 difficulty0 number0 gasLimit0 gasUsed0 timestamp0
         extraData0 mixHash0 nonce0,
    BlockHeader_new Common_mainnet parentHash0 uncleHash0 coinbase0 stateRoot0
      transactionsTrie0 receiptTrie0 bloom0 difficulty0 number0 gasLimit0
      gasUsed0 timestamp0 extraData0 mixHash0 nonce0 opts = Ok h.
Proof.
  unfold fromHeaderData.
  repeat (match goal with
          | |- bind ?r _ = Ok _ -> _ => destruct r; cbn [bind]; [|discriminate]
          end).
  intros Hnew. repeat eexists. exact Hnew.
Qed.

(** With the genesis option the assignment sets the number to zero and
    insists on the hardfork chainstart. *)
Lemma BlockHeader_assign_genesis
    (parentHash0 uncleHash0 : Buffer) (coinbase0 : Address)
    (stateRoot0 transactionsTrie0 receiptTrie0 bloom0 : Buffer)
    (difficulty0 number0 gasLimit0 gasUsed0 timestamp0 : Z)
    (extraData0 mixHash0 nonce0 : Buffer) (opts : BlockOptions)
    (this : BlockHeader) :
  initWithGenesisHeader opts = true ->
  BlockHeader_assign Common_mainnet parentHash0 uncleHash0 coinbase0 stateRoot0
    transactionsTrie0 receiptTrie0 bloom0 difficulty0 number0 gasLimit0
    gasUsed0 timestamp0 extraData0 mixHash0 nonce0 opts = Ok this ->
  number this = 0 /\ hardfork (_common this) = "chainstart"%string.
Proof.
  intros Hgen. unfold BlockHeader_assign. rewrite Hgen.
  destruct (hardforkByBlockNumber opts); cbn [bind].
  1: destruct (BN_toNumber number0); cbn [bind]; [|discriminate].
  all: unfold throwIf;
       match goal with
       | |- context [String.eqb ?a ?b] => destruct (String.eqb_spec a b)
       end; cbn [negb bind]; [|discriminate];
       intros [= <-]; split; [reflexivity|assumption].
Qed.

(** X17. Every header that [genesis] returns is a genesis header: its
    number is zero whatever number the data hold, the hardfork of its
    [Common] is chainstart, and [validate] accepts it on every blockchain
    without looking at it. *)
Theorem genesis_header_is_genesis (data : HeaderData Like) (opts : BlockOptions)
    (h : BlockHeader) :
  genesis_header Like truthy toBuffer Common_mainnet data opts = Ok h ->
  number h = 0
  /\ hardfork (_common h) = "chainstart"%string
  /\ forall (blockchain : Blockchain) (height : option Z),
       validate h blockchain height = Ok tt.
Proof.
  unfold genesis_header. intros Hdata.
  apply fromHeaderData_constructed in Hdata
    as (p & u & cb & s & t & r & b & d & n & g & gu & ts & e & m & no & Hnew).
  apply BlockHeader_new_assigned in Hnew as (this & Hassign & _ & _ & Hh).
  apply BlockHeader_assign_genesis in Hassign as [Hnum Hfork]; [|reflexivity].
  assert (Hnum' : number h = 0) by (destruct Hh as [->|[d' ->]]; assumption).
  split; [exact Hnum'|]. split.
  - destruct Hh as [->|[d' ->]]; assumption.
  - intros blockchain height. unfold validate, isGenesis. now rewrite Hnum'.
Qed.

(** X18. A field of the data that is absent or falsy takes its default,
    so that data without a truthy field give the default header: zero
    hashes, the hash of the empty list for the uncles, the zero coinbase,
    the hash of the empty string for the tries, difficulty, number, gas used
    and timestamp zero, the gas limit [0xffffffffffffff] and no extra data.
    Without the genesis and difficulty options the construction succeeds
    when the DAO fork is not active on the chain or is scheduled at a
    positive block. *)
Theorem fromHeaderData_default (data : HeaderData Like) (opts : BlockOptions) :
  let c := default (Common_mainnet None) (common opts) in
  let c := if hardforkByBlockNumber opts then setHardforkByBlockNumber c 0 else c in
  Forall (falsy truthy) (HeaderData_fields data) ->
  initWithGenesisHeader opts = false ->
  calcDifficultyFromHeader opts = None ->
  (hardforkIsActiveOnChain c "dao" = true -> 0 < hardforkBlock c "dao") ->
  fromHeaderData Like truthy toBuffer Common_mainnet data opts
  = Ok (mkBlockHeader (zeros 32) KECCAK256_RLP_ARRAY (Address_zero) (zeros 32)
          KECCAK256_RLP KECCAK256_RLP (zeros 256) 0 0 DEFAULT_GAS_LIMIT 0 0 []
          (zeros 32) (zeros 8) c).
Proof.
  intros c0 c Hfalsy Hgen Hcalc Hdao.
  assert (Hdef : forall (A : Type) (x : option Like) (f : Buffer -> result A) (d : A),
            falsy truthy x -> orDefault Like truthy toBuffer x f d = Ok d).
  { intros A [v|] f d Hx; simpl in *; [now rewrite Hx|reflexivity]. }
  unfold HeaderData_fields in Hfalsy.
  repeat match goal with
         | H : Forall _ (_ :: _) |- _ =>
             let Hx := fresh "Hx" in
             apply Forall_cons in H as [Hx H]
         end.
  unfold fromHeaderData.
  rewrite !Hdef by assumption. cbn [bind].
  unfold BlockHeader_new, BlockHeader_assign. rewrite Hgen, Hcalc.
  assert (Hc : (match common opts with
                | Some c1 => c1
                | None => Common_mainnet None
                end) = c0).
  { unfold c0. now destruct (common opts). }
  rewrite Hc.
  assert (Hc' : (if hardforkByBlockNumber opts
                 then bind (BN_toNumber 0) (fun n => Ok (setHardforkByBlockNumber c0 n))
                 else Ok c0) = Ok c).
  { unfold c. now destruct (hardforkByBlockNumber opts). }
  rewrite Hc'. cbn [bind].
  change (_validateHeaderFields _) with (Ok tt) at 1. cbn [bind].
  unfold _checkDAOExtraData.
  cbn [_common number extraData].
  destruct (hardforkIsActiveOnChain c "dao"); [|reflexivity].
  specialize (Hdao eq_refl).
  destruct (Z.geb_spec 0 (hardforkBlock c "dao")); [lia|reflexivity].
Qed.

End HeadersFromData.

(** The genesis header from data with the number 5. *)
Lemma genesis_header_is_genesis_witness :
  exists h,
    genesis_header Scenario.Like Scenario.truthy Scenario.toBuffer
      Sample.Common_mainnet Scenario.numberFive
      (Sample.options (Sample.ethash "chainstart")) = Ok h
    /\ number h = 0.
Proof.
  eexists. split; [vm_compute; reflexivity|].
  refine (proj1 (genesis_header_is_genesis Scenario.Like Scenario.truthy
            Scenario.toBuffer Sample.Common_mainnet Scenario.numberFive
            (Sample.options (Sample.ethash "chainstart")) _ _)).
  vm_compute. reflexivity.
Defined.

(** Data whose only field is the gas limit 0: the header has the default
    gas limit. *)
Lemma fromHeaderData_default_witness :
  exists h,
    fromHeaderData Scenario.Like Scenario.truthy Scenario.toBuffer
      Sample.Common_mainnet Scenario.gasLimitZero
      (Sample.options (Sample.ethash "istanbul")) = Ok h
    /\ gasLimit h = 72057594037927935.
Proof.
  eexists. split.
  - refine (fromHeaderData_default Scenario.Like Scenario.truthy Scenario.toBuffer
              Sample.Common_mainnet Scenario.gasLimitZero
              (Sample.options (Sample.ethash "istanbul")) _ _ _ _).
    + repeat constructor.
    + reflexivity.
    + reflexivity.
    + intros _. vm_compute. reflexivity.
  - vm_compute. reflexivity.
Defined.

(** ** Starting and stopping the server *)

Section Lifecycle.

Import RlpxServer RlpxStart.

Variable options : Options.
Variable Server_start : M bool.
Variables randomBytes_dpt randomBytes_rlpx : Buffer.
Variable pk2id : Buffer -> Buffer.
Variable bootstrapRejection : option JsError.

Let start : L bool :=
  RlpxStart.start options Server_start randomBytes_dpt randomBytes_rlpx pk2id
    bootstrapRejection.


Lemma devp2p_calls_app (t1 t2 : list Step) :
  devp2p_calls (t1 ++ t2) = devp2p_calls t1 ++ devp2p_calls t2.
Proof. apply omap_app. Qed.


Lemma devp2p_calls_inl (t : list Effect) : devp2p_calls (map inl t) = [].
Proof. induction t as [|e t IH]; [reflexivity|]. exact IH. Qed.


Lemma devp2p_calls_inr (t : list Devp2pCall) : devp2p_calls (map inr t) = t.
Proof. induction t as [|e t IH]; [reflexivity|]. simpl. now rewrite IH. Qed.

(** [start] on a server that is not started, once [start] of the base
    class has returned. *)
Lemma start_run (s s1 : Server) (b : bool) (t1 : list Effect) :
  started s = false ->
  Server_start s = (Returned b, s1, t1) ->
  start s
  = (Returned true,
     mkServer true (peers s1)
       (Some (pk2id (default randomBytes_rlpx (key options)))) (Some tt),
     map inl t1
       ++ map inr (init_calls options randomBytes_dpt randomBytes_rlpx)
       ++ map inr (bootstrap_calls options)
       ++ map inl (rejection_effects options bootstrapRejection)).
Proof.
  intros Hs Hstart. unfold start, RlpxStart.start. rewrite Hs.
  unfold lbind at 1. unfold lift at 1. rewrite Hstart.
  unfold initDpt, initRlpx, bootstrap, init_calls, bootstrap_calls, rejection_effects.
  unfold lbind, call, modify, lret, lift, error, ret, effect.
  destruct (listenPort options =? 0); cbn -[RegExp_test ignoredErrors];
    (destruct (bootnodes options) as [|node nodes];
       [ cbn; rewrite ?app_nil_r; reflexivity |]);
    (destruct bootstrapRejection as [e|];
       [ destruct (RegExp_test ignoredErrors (message e)) |]);
    cbn; rewrite ?app_nil_r; repeat f_equal;
    rewrite <- ?app_assoc; rewrite ?map_map; reflexivity.
Qed.

(** A call of [start] that returns true leaves the server started, with
    both devp2p instances in place. *)
Lemma start_true (s s2 : Server) (t : list Step) :
  start s = (Returned true, s2, t) ->
  started s = false
  /\ started s2 = true /\ rlpx s2 <> None /\ dpt s2 = Some tt.
Proof.
  destruct (started s) eqn:Hs.
  - unfold start, RlpxStart.start. rewrite Hs. discriminate.
  - destruct (Server_start s) as [[[b|e] s1] t1] eqn:Hstart.
    + rewrite (start_run s s1 b t1 Hs Hstart). intros [= <- _].
      repeat split. discriminate.
    + unfold start, RlpxStart.start. rewrite Hs.
      unfold lbind at 1. unfold lift at 1. rewrite Hstart. discriminate.
Qed.


(** X20. The calls that a successful [start] makes into devp2p, in order:
    the discovery instance is created, listened to and bound, then the
    RLPx instance is created, its five handlers are installed and it
    listens, then every boot node is handed to the discovery instance in
    the order of the list; with the port 0 nothing is bound and nothing
    listens. The two instances get the key of the server, or each its own
    random key when the server has none. *)
Theorem start_devp2p_calls (s s1 : Server) (b : bool) (t1 : list Effect) :
  started s = false ->
  Server_start s = (Returned b, s1, t1) ->
  let calls := devp2p_calls (snd (start s)) in
  calls = init_calls options randomBytes_dpt randomBytes_rlpx
            ++ bootstrap_calls options
  /\ (listenPort options = 0 ->
      forall p a, ~ In (DptBind p a) calls /\ ~ In (RlpxListen p a) calls)
  /\ (listenPort options <> 0 ->
      In (DptBind (listenPort options) "0.0.0.0") calls
      /\ In (RlpxListen (listenPort options) "0.0.0.0") calls).
Proof.
  intros Hs Hstart calls.
  assert (Hcalls : calls = init_calls options randomBytes_dpt randomBytes_rlpx
                             ++ bootstrap_calls options).
  { unfold calls. rewrite (start_run s s1 b t1 Hs Hstart). cbn [snd].
    rewrite !devp2p_calls_app, !devp2p_calls_inl, !devp2p_calls_inr.
    now rewrite app_nil_r. }
  split; [exact Hcalls|]. rewrite Hcalls. unfold init_calls, bootstrap_calls.
  split.
  - intros Hport p a. rewrite Hport. cbn [Z.eqb app].
    split; intros Hin; repeat (destruct Hin as [Hin|Hin]; [discriminate|]);
      apply in_map_iff in Hin as (node & Hnode & _); discriminate.
  - intros Hport. destruct (Z.eqb_spec (listenPort options) 0); [contradiction|].
    split; apply in_or_app; left; cbn; tauto.
Qed.

(** X21. After a [start] that returned true, a second [start] returns
    false and does nothing. *)
Theorem start_twice (s s2 : Server) (t : list Step) :
  start s = (Returned true, s2, t) ->
  start s2 = (Returned false, s2, []).
Proof.
  intros Hstart. apply start_true in Hstart as (_ & Hs2 & _).
  unfold start, RlpxStart.start. now rewrite Hs2.
Qed.

(** X22. After a [start] that returned true, [stop] finds both devp2p
    instances: it destroys them, calls [stop] of the base class and
    returns false with the server stopped; and [ban] reaches the discovery
    instance, with 60000 for a [maxAge] that is not given. *)
Theorem start_then_stop (Server_stop : M bool) (s s2 s3 : Server)
    (t : list Step) (b : bool) (t3 : list Effect) :
  start s = (Returned true, s2, t) ->
  Server_stop s2 = (Returned b, s3, t3) ->
  stop Server_stop s2
  = (Returned false, set_started false s3, [RlpxDestroy; DptDestroy] ++ t3)
  /\ forall peerId maxAge,
       ban peerId maxAge s2
       = (Returned true, s2, [DptBanPeer peerId (default 60000 maxAge)]).
Proof.
  intros Hstart Hstop. apply start_true in Hstart as (_ & Hs2 & Hr & Hd). split.
  - unfold stop, mbind, get, put, effect, throw, ret. rewrite Hs2.
    destruct (rlpx s2); [|contradiction]. rewrite Hd. simpl.
    rewrite Hstop. simpl. now rewrite !app_nil_r.
  - intros peerId maxAge. unfold ban, mbind, get, effect, ret.
    rewrite Hs2, Hd. reflexivity.
Qed.

End Lifecycle.


Lemma start_devp2p_calls_witness :
  In (RlpxStart.DptBind 30303 "0.0.0.0")
     (devp2p_calls
        (snd (RlpxStart.start Scenario.options Scenario.Server_start (zeros 32)
                (zeros 32) Scenario.pk2id None Scenario.fresh))).
Proof.
  refine (proj1 (proj2 (proj2 (start_devp2p_calls Scenario.options
            Scenario.Server_start (zeros 32) (zeros 32) Scenario.pk2id None
            Scenario.fresh Scenario.fresh true [] eq_refl eq_refl)) _)).
  vm_compute. discriminate.
Defined.

Lemma start_twice_witness :
  RlpxStart.start Scenario.options Scenario.Server_start (zeros 32) (zeros 32)
    Scenario.pk2id None Scenario.running
  = (RlpxServer.Returned false, Scenario.running, []).
Proof.
  refine (start_twice Scenario.options Scenario.Server_start (zeros 32) (zeros 32)
            Scenario.pk2id None Scenario.fresh Scenario.running _ _).
  vm_compute. reflexivity.
Defined.

Lemma start_then_stop_witness :
  RlpxServer.stop Sample.Server_stop Scenario.running
  = (RlpxServer.Returned false,
     RlpxServer.set_started false (RlpxServer.set_started false Scenario.running),
     [RlpxServer.RlpxDestroy; RlpxServer.DptDestroy] ++ []).
Proof.
  refine (proj1 (start_then_stop Scenario.options Scenario.Server_start (zeros 32)
            (zeros 32) Scenario.pk2id None Sample.Server_stop Scenario.fresh
            Scenario.running (RlpxServer.set_started false Scenario.running)
            _ true [] _ _)).
  - vm_compute. reflexivity.
  - reflexivity.
Defined.

(** ** The peer handlers *)

Section Peers.

Import RlpxServer.

Variable accept : RlpxPeer -> Devp2pRLPxPeer -> M unit.


(** X24. A session that is added and then removed: the peer that
    [disconnected] carries is the one that [connected] carried, and
    afterwards the map holds nothing under the id of the session and is
    otherwise as the handshake left it. *)
Theorem peer_added_then_removed (rlpxPeer : Devp2pRLPxPeer) (peerId : Buffer)
    (reason : Z) (s s1 : Server) (t1 : list Effect) :
  getId rlpxPeer = Some peerId ->
  let peer := peer_of rlpxPeer peerId in
  accept peer rlpxPeer s = (Returned tt, s1, t1) ->
  exists s2 s3,
    on_peer_added accept rlpxPeer s
    = (Returned tt, s2,
       t1 ++ [LoggerDebug (PeerConnected peer); ServerEmit "connected" [VPeer peer]])
    /\ on_peer_removed rlpxPeer reason s2
       = (Returned tt, s3,
          [LoggerDebug (PeerDisconnected reason peer);
           ServerEmit "disconnected" [VPeer peer]])
    /\ peers s3 !! toString_hex peerId = None
    /\ (forall k, k <> toString_hex peerId -> peers s3 !! k = peers s1 !! k)
    /\ started s3 = started s1.
Proof.
  intros Hid peer Haccept.
  exists (set_peers (<[id peer := peer]> (peers s1)) s1).
  exists (set_peers (delete (id peer) (peers s1)) s1).
  split; [|split; [|split; [|split]]].
  - unfold on_peer_added. rewrite Hid. fold (peer_of rlpxPeer peerId). fold peer.
    now rewrite Haccept.
  - unfold on_peer_removed. rewrite Hid. unfold mbind, get, put, effect.
    cbn [peers set_peers]. change (toString_hex peerId) with (id peer).
    rewrite lookup_insert_eq. cbn. rewrite delete_insert_eq. reflexivity.
  - apply lookup_delete_eq.
  - intros k Hk. cbn [peers set_peers]. apply lookup_delete_ne.
    intros E. apply Hk. now rewrite <- E.
  - reflexivity.
Qed.

(** [peer:error] is [error] on the peer of the session. *)
Lemma on_peer_error_run (rlpxPeer : option Devp2pRLPxPeer) (e : JsError)
    (s : Server) :
  on_peer_error rlpxPeer e s
  = (Returned tt, s,
     if RegExp_test ignoredErrors (message e) then []
     else match peer_of_session s rlpxPeer with
          | Some peer => [PeerEmit peer "error" [VError e]]
          | None => [ServerEmit "error" [VError e]]
          end).
Proof.
  unfold on_peer_error, peer_of_session, error, mbind, get, ret, effect.
  destruct (RegExp_test ignoredErrors (message e));
    (destruct rlpxPeer as [rp|]; [destruct (getId rp) as [pid|]|]);
    cbn; try reflexivity.
  destruct (peers s !! toString_hex pid); reflexivity.
Qed.


(** X26. The handlers keep the peer map keyed by the ids of its peers,
    provided the handshake does; this is what lets [peer:removed] delete by
    the id of the peer it looked up by the id of the session. *)
Theorem handlers_keep_keyed (s : Server) (rlpxPeer : Devp2pRLPxPeer) :
  (forall p s0, keyed_by_id (peers s0) ->
                keyed_by_id (peers (snd (fst (accept p rlpxPeer s0))))) ->
  keyed_by_id (peers s) ->
  keyed_by_id (peers (snd (fst (on_peer_added accept rlpxPeer s))))
  /\ (forall reason,
        keyed_by_id (peers (snd (fst (on_peer_removed rlpxPeer reason s)))))
  /\ (forall e,
        keyed_by_id (peers (snd (fst (on_peer_error (Some rlpxPeer) e s)))))
  /\ (forall peerId maxAge,
        keyed_by_id (peers (snd (fst (ban peerId maxAge s))))).
Proof.
  intros Haccept Hk. split; [|split; [|split]].
  - now apply on_peer_added_keyed.
  - intros reason. now apply on_peer_removed_keyed.
  - intros e. now rewrite on_peer_error_run.
  - intros peerId maxAge. unfold ban, mbind, get, ret, effect, throw. cbn.
    destruct (started s); cbn; [|exact Hk].
    destruct (dpt s); exact Hk.
Qed.

End Peers.

(** ** Peer ids *)

Lemma hex_char_inj (m n : N) :
  (m < 16)%N -> (n < 16)%N ->
  RlpxServer.hex_char m = RlpxServer.hex_char n -> m = n.
Proof.
  intros Hm Hn H. apply (f_equal N_of_ascii) in H. unfold RlpxServer.hex_char in H.
  rewrite !N_ascii_embedding in H
    by (repeat match goal with
               | |- context [(?a <? ?b)%N] => destruct (N.ltb_spec a b)
               end; lia).
  destruct (N.ltb_spec m 10), (N.ltb_spec n 10); lia.
Qed.

Lemma byte_to_N_lt (x : byte) : (Byte.to_N x < 256)%N.
Proof. pose proof (Byte.to_N_bounded x). lia. Qed.

(** X27. The hex form of a peer id is twice as long as the id and
    determines it: two sessions get the same key in the peer map only when
    their ids are equal. *)
Theorem toString_hex_injective (a b : Buffer) :
  String.length (RlpxServer.toString_hex a) = (2 * List.length a)%nat
  /\ (RlpxServer.toString_hex a = RlpxServer.toString_hex b -> a = b).
Proof.
  split.
  - induction a as [|x a IH]; [reflexivity|]. cbn [RlpxServer.toString_hex].
    cbn [String.length List.length]. rewrite IH. lia.
  - revert b. induction a as [|x a IH]; intros [|y b]; try discriminate;
      [reflexivity|].
    cbn [RlpxServer.toString_hex]. intros [= Hhi Hlo Hrest].
    pose proof (byte_to_N_lt x). pose proof (byte_to_N_lt y).
    apply hex_char_inj in Hhi;
      [|apply N.Div0.div_lt_upper_bound; lia|apply N.Div0.div_lt_upper_bound; lia].
    apply hex_char_inj in Hlo; [|apply N.mod_lt; lia|apply N.mod_lt; lia].
    f_equal; [|now apply IH].
    assert (Hxy : Byte.to_N x = Byte.to_N y).
    { rewrite (N.div_mod' (Byte.to_N x) 16), (N.div_mod' (Byte.to_N y) 16). lia. }
    apply (f_equal Byte.of_N) in Hxy. rewrite !Byte.of_to_N in Hxy.
    now injection Hxy.
Qed.


Lemma peer_added_then_removed_witness :
  exists s2 s3,
    RlpxServer.on_peer_added Scenario.accept Sample.session_ab Scenario.running
    = (RlpxServer.Returned tt, s2,
       [] ++ [ RlpxServer.LoggerDebug (RlpxServer.PeerConnected Sample.peer_ab);
               RlpxServer.ServerEmit "connected" [RlpxServer.VPeer Sample.peer_ab] ])
    /\ RlpxServer.on_peer_removed Sample.session_ab 16 s2
       = (RlpxServer.Returned tt, s3,
          [ RlpxServer.LoggerDebug (RlpxServer.PeerDisconnected 16 Sample.peer_ab);
            RlpxServer.ServerEmit "disconnected" [RlpxServer.VPeer Sample.peer_ab] ])
    /\ RlpxServer.peers s3 !! "ab"%string = None.
Proof.
  destruct (peer_added_then_removed Scenario.accept Sample.session_ab [xab] 16
              Scenario.running Scenario.running [] eq_refl eq_refl)
    as (s2 & s3 & Ha & Hr & Hn & _).
  exists s2, s3. split; [exact Ha|]. split; [exact Hr|exact Hn].
Defined.


Lemma handlers_keep_keyed_witness :
  keyed_by_id
    (RlpxServer.peers
       (snd (fst (RlpxServer.on_peer_added Scenario.accept Sample.session_ab
                    Scenario.running)))).
Proof.
  refine (proj1 (handlers_keep_keyed Scenario.accept Scenario.running
                   Sample.session_ab _ _)).
  - intros p s0 Hk. exact Hk.
  - exact keyed_by_id_empty.
Defined.

Lemma toString_hex_injective_witness : [xab] = [xab].
Proof.
  exact (proj2 (toString_hex_injective [xab] [xab]) eq_refl).
Defined.

(** ** The transaction factory *)

Section Transactions.

Import TransactionFactory.

Lemma includes_In (eips : list Z) (n : Z) : includes eips n = true <-> In n eips.
Proof.
  unfold includes. rewrite existsb_exists. split.
  - intros (x & Hx & Heq). apply Z.eqb_eq in Heq. now subst.
  - intros Hn. exists n. split; [exact Hn|apply Z.eqb_refl].
Qed.

(** X28. [fromRawData] hands the data to the decoder of EIP-2930
    transactions exactly when the first byte is 1 and both EIP 2718 and
    EIP 2930 are active, and to the decoder of legacy transactions exactly
    when the data are empty or the first byte is above [0x7f]; every other
    first byte is an error, and no signed class is chosen. *)
Theorem fromRawData_dispatch (eips : list Z) (rawData : Buffer) :
  (fromRawData eips rawData = inr UnsignedEIP2930Transaction
   <-> (exists rest, rawData = x01 :: rest) /\ In 2718 eips /\ In 2930 eips)
  /\ (fromRawData eips rawData = inr UnsignedLegacyTransaction
      <-> rawData = []
          \/ exists first rest,
               rawData = first :: rest /\ 127 < Z.of_N (Byte.to_N first))
  /\ fromRawData eips rawData <> inr SignedEIP2930Transaction
  /\ fromRawData eips rawData <> inr SignedLegacyTransaction.
Proof.
  pose proof (includes_In eips 2718) as H2718.
  pose proof (includes_In eips 2930) as H2930.
  unfold fromRawData. destruct rawData as [|first rest].
  - repeat split; try discriminate.
    + intros ([rest [=]] & _).
    + intros _. now left.
  - destruct (Z.leb_spec (Z.of_N (Byte.to_N first)) 127) as [Hle|Hgt].
    + destruct (includes eips 2718); cbn [negb].
      * destruct (Z.eqb_spec (Z.of_N (Byte.to_N first)) 1) as [H1|H1].
        -- assert (first = x01).
           { destruct first; try reflexivity; vm_compute in H1; discriminate. }
           subst first.
           destruct (includes eips 2930); cbn [negb].
           ++ repeat split; try discriminate; try tauto; eauto.
              intros [[=]|(f & r & [= <- <-] & Hf)]. vm_compute in Hf. discriminate.
           ++ repeat split; try discriminate.
              ** intros (_ & _ & Hin). apply H2930 in Hin. discriminate.
              ** intros [[=]|(f & r & [= <- <-] & Hf)]. vm_compute in Hf.
                 discriminate.
        -- repeat split; try discriminate.
           ++ intros ([r [= -> _]] & _). exfalso. now apply H1.
           ++ intros [[=]|(f & r & [= <- <-] & Hf)]. lia.
      * repeat split; try discriminate.
        -- intros (_ & Hin & _). apply H2718 in Hin. discriminate.
        -- intros [[=]|(f & r & [= <- <-] & Hf)]. lia.
    + repeat split; try discriminate.
      * intros ([r [= -> _]] & _). exfalso. vm_compute in Hgt. discriminate.
      * intros _. right. eauto.
Qed.

(** X29. [getTransactionClass] treats the id 0 like a missing id; for a
    missing id it returns the unsigned legacy class, and nothing at all
    when a signed class is asked for, so that the signed legacy class is
    never returned; for the id 1 it returns the EIP-2930 class of the
    requested kind as soon as EIP 2718 is active, without asking for EIP
    2930, which [fromRawData] does ask for. *)
Theorem getTransactionClass_spec (transactionID : option Z) (signed : option bool)
    (eips : list Z) :
  getTransactionClass (Some 0) signed eips = getTransactionClass None signed eips
  /\ getTransactionClass None signed eips
     = inr (if default false signed then None else Some UnsignedLegacyTransaction)
  /\ getTransactionClass transactionID signed eips
     <> inr (Some SignedLegacyTransaction)
  /\ (In 2718 eips ->
      getTransactionClass (Some 1) signed eips
      = inr (Some (if default false signed then SignedEIP2930Transaction
                   else UnsignedEIP2930Transaction)))
  /\ (In 2718 eips -> ~ In 2930 eips ->
      forall rest,
        fromRawData eips (x01 :: rest) = inl (EIPNotActivated 1 2930)).
Proof.
  pose proof (includes_In eips 2718) as H2718.
  pose proof (includes_In eips 2930) as H2930.
  split; [reflexivity|]. split.
  { unfold getTransactionClass. now destruct (default false signed). }
  split.
  { unfold getTransactionClass.
    destruct transactionID as [id|]; [destruct (id =? 0)|];
      destruct (default false signed);
      repeat (match goal with
              | |- context [if ?b then _ else _] => destruct b
              end); discriminate. }
  split.
  - intros Hin. apply H2718 in Hin. unfold getTransactionClass.
    cbn [Z.eqb]. rewrite Hin. reflexivity.
  - intros Hin Hnot rest. apply H2718 in Hin. unfold fromRawData.
    change (Z.of_N (Byte.to_N x01)) with 1. cbn [Z.leb Z.eqb Z.compare Pos.compare].
    rewrite Hin. cbn [negb].
    destruct (includes eips 2930); [|reflexivity].
    exfalso. apply Hnot. now apply H2930.
Qed.

End Transactions.

(** An EIP-2930 payload on a chain with both EIPs, and a legacy payload. *)
Lemma fromRawData_dispatch_witness :
  TransactionFactory.fromRawData [2718; 2930] [x01; xc0]
  = inr TransactionFactory.UnsignedEIP2930Transaction
  /\ TransactionFactory.fromRawData [] [xc0]
     = inr TransactionFactory.UnsignedLegacyTransaction.
Proof.
  split.
  - refine (proj2 (proj1 (fromRawData_dispatch [2718; 2930] [x01; xc0])) _).
    split; [now exists [xc0]|]. simpl. tauto.
  - refine (proj2 (proj1 (proj2 (fromRawData_dispatch [] [xc0]))) _).
    right. exists xc0, []. split; [reflexivity|]. vm_compute. reflexivity.
Defined.

(** The id 1 on a chain with EIP 2718 only. *)
Lemma getTransactionClass_spec_witness :
  TransactionFactory.getTransactionClass (Some 1) (Some true) [2718]
  = inr (Some TransactionFactory.SignedEIP2930Transaction)
  /\ TransactionFactory.fromRawData [2718] [x01; xc0]
     = inl (TransactionFactory.EIPNotActivated 1 2930).
Proof.
  split.
  - refine (proj1 (proj2 (proj2 (proj2
              (getTransactionClass_spec (Some 1) (Some true) [2718])))) _).
    simpl. tauto.
  - refine (proj2 (proj2 (proj2 (proj2
              (getTransactionClass_spec (Some 1) (Some true) [2718])))) _ _ [xc0]).
    + simpl. tauto.
    + simpl. intros [H|[]]. discriminate.
Defined.
